(** * Multitools backend: request pipeline of the conversion endpoints

    A shallow embedding of the Express backend (the route handlers for
    document conversion, image compression, QR codes, audio transcoding
    and the BMI calculator, with the helpers [fileToDataUrlResponse] and
    [safeUnlink]) and of the submit handlers of the browser forms, and the
    properties of the specification stated over it.

    Conventions of the embedding:
    - a JavaScript string is a [string] whose characters are code units
      below 256 (ASCII and the Latin-1 supplement);
    - a [Buffer] is a [list byte];
    - a JavaScript number is an IEEE-754 binary64 value, [spec_float] with
      precision 53 and maximal exponent 1024;
    - the file system is a finite map from paths to file contents;
    - a handler is a computation over a [world] (file system, source of
      identifiers, log of observable events) that completes normally, throws,
      returns early, or stays suspended. *)

From Stdlib Require Import ZArith NArith Lia Bool List Ascii String.
From Stdlib Require Import Strings.Byte.
From Stdlib Require Import DecimalString.
From Stdlib Require Floats.SpecFloat.
From stdpp Require Import base option gmap strings.

Import ListNotations.
Local Open Scope string_scope.
Local Open Scope list_scope.

(** ** Strings *)

Module Str.

Definition code (c : ascii) : N := N_of_ascii c.

(** [String.prototype.toLowerCase] on one code unit below 256: the letters
    A-Z and the Latin-1 capitals U+00C0-U+00DE (the multiplication sign
    U+00D7 has no case) move up by 32. *)
Definition lower_char (c : ascii) : ascii :=
  let n := code c in
  if ((65 <=? n) && (n <=? 90))%N
     || ((192 <=? n) && (n <=? 222) && negb (n =? 215))%N
  then ascii_of_N (n + 32) else c.

Fixpoint toLowerCase (s : string) : string :=
  match s with
  | EmptyString => EmptyString
  | String c r => String (lower_char c) (toLowerCase r)
  end.

Fixpoint rev_acc (s acc : string) : string :=
  match s with
  | EmptyString => acc
  | String c r => rev_acc r (String c acc)
  end.

Definition rev (s : string) : string := rev_acc s EmptyString.

Fixpoint contains_char (c : ascii) (s : string) : bool :=
  match s with
  | EmptyString => false
  | String d r => Ascii.eqb c d || contains_char c r
  end.

End Str.

(** ** Base64 ([Buffer.prototype.toString("base64")], RFC 4648) *)

Module Base64.

Definition alphabet : string :=
  "ABCDEFGHIJKLMNOPQRSTUVWXYZabcdefghijklmnopqrstuvwxyz0123456789+/".

Definition pad : ascii := "="%char.

Definition digit (i : N) : ascii :=
  match String.get (N.to_nat i) alphabet with
  | Some c => c
  | None => pad
  end.

(** The 6-bit group a character of the alphabet stands for. *)
Definition sextet (c : ascii) : option N :=
  let n := Str.code c in
  if ((65 <=? n) && (n <=? 90))%N then Some (n - 65)%N
  else if ((97 <=? n) && (n <=? 122))%N then Some (n - 71)%N
  else if ((48 <=? n) && (n <=? 57))%N then Some (n + 4)%N
  else if (n =? 43)%N then Some 62%N
  else if (n =? 47)%N then Some 63%N
  else None.

Definition byte_of_N (n : N) : byte :=
  match Byte.of_N n with
  | Some b => b
  | None => x00
  end.

(** The four 6-bit groups of a 24-bit block [a b c]. *)
Definition s0 (a : byte) : N := (Byte.to_N a / 4)%N.
Definition s1 (a b : byte) : N := ((Byte.to_N a mod 4) * 16 + Byte.to_N b / 16)%N.
Definition s2 (b c : byte) : N := ((Byte.to_N b mod 16) * 4 + Byte.to_N c / 64)%N.
Definition s3 (c : byte) : N := (Byte.to_N c mod 64)%N.

(** The three bytes of four 6-bit groups. *)
Definition o0 (i0 i1 : N) : byte := byte_of_N (i0 * 4 + i1 / 16)%N.
Definition o1 (i1 i2 : N) : byte := byte_of_N ((i1 mod 16) * 16 + i2 / 4)%N.
Definition o2 (i2 i3 : N) : byte := byte_of_N ((i2 mod 4) * 64 + i3)%N.

Fixpoint encode (bs : list byte) : string :=
  match bs with
  | [] => EmptyString
  | [a] =>
      String (digit (s0 a)) (String (digit (s1 a x00)) (String pad (String pad EmptyString)))
  | [a; b] =>
      String (digit (s0 a)) (String (digit (s1 a b))
        (String (digit (s2 b x00)) (String pad EmptyString)))
  | a :: b :: c :: rest =>
      String (digit (s0 a)) (String (digit (s1 a b))
        (String (digit (s2 b c)) (String (digit (s3 c)) (encode rest))))
  end.

Definition is_pad (c : ascii) : bool := Ascii.eqb c pad.

Fixpoint decode (s : string) : option (list byte) :=
  match s with
  | EmptyString => Some []
  | String c0 (String c1 (String c2 (String c3 rest))) =>
      match sextet c0, sextet c1 with
      | Some i0, Some i1 =>
          if is_pad c2 then
            if is_pad c3 && String.eqb rest EmptyString
            then Some [o0 i0 i1] else None
          else
            match sextet c2 with
            | Some i2 =>
                if is_pad c3 then
                  if String.eqb rest EmptyString
                  then Some [o0 i0 i1; o1 i1 i2] else None
                else
                  match sextet c3, decode rest with
                  | Some i3, Some tl => Some (o0 i0 i1 :: o1 i1 i2 :: o2 i2 i3 :: tl)
                  | _, _ => None
                  end
            | None => None
            end
      | _, _ => None
      end
  | _ => None
  end.

End Base64.

(** ** Numbers (IEEE-754 binary64, round to nearest even) *)

Module Num.
Import SpecFloat.

Definition prec : Z := 53.
Definition emax : Z := 1024.

Definition number : Type := spec_float.

Definition NaN : number := S754_nan.
Definition pos_zero : number := S754_zero false.
Definition pos_infinity : number := S754_infinity false.

(** The number nearest to the integer [n]. *)
Definition of_Z (n : Z) : number := binary_normalize prec emax n 0 false.

Definition mul (x y : number) : number := SFmul prec emax x y.
Definition div (x y : number) : number := SFdiv prec emax x y.

(** [x < y] and [x <= y]; both are false when an operand is NaN. *)
Definition ltb (x y : number) : bool := SFltb x y.
Definition leb (x y : number) : bool := SFleb x y.

(** [!x]: a number is falsy when it is [+0], [-0] or [NaN]. *)
Definition falsy (x : number) : bool :=
  match x with
  | S754_zero _ | S754_nan => true
  | _ => false
  end.

(** The number nearest to [m * 10 ^ e], for [m >= 0]; [neg] is the sign.
    Far outside the binary64 range the result is decided without
    computing the power of ten. *)
Definition of_decimal (neg : bool) (m e : Z) : number :=
  match m with
  | Zpos p =>
      let b := Z.log2 m in
      if (400 <? b / 4 + e)%Z then S754_infinity neg
      else if ((b + 1) / 3 + 2 + e <? -400)%Z then S754_zero neg
      else
        match e with
        | Zneg k => SFdiv prec emax (S754_finite neg p 0)
                      (S754_finite false (Z.to_pos (10 ^ Zpos k)) 0)
        | _ => binary_normalize prec emax (if neg then - (m * 10 ^ e) else m * 10 ^ e)%Z 0 neg
        end
  | _ => S754_zero neg
  end.

(** *** [StringToNumber] (ECMA-262, 7.1.4.1.1) *)

Definition is_space (c : ascii) : bool :=
  let n := Str.code c in
  ((9 <=? n) && (n <=? 13) || (n =? 32) || (n =? 160))%N.

Fixpoint skip_spaces (s : string) : string :=
  match s with
  | String c r => if is_space c then skip_spaces r else s
  | EmptyString => s
  end.

Definition trim (s : string) : string :=
  Str.rev (skip_spaces (Str.rev (skip_spaces s))).

Definition digit_in (radix : N) (c : ascii) : option Z :=
  let n := Str.code c in
  let v :=
    if ((48 <=? n) && (n <=? 57))%N then Some (n - 48)%N
    else if ((97 <=? n) && (n <=? 122))%N then Some (n - 87)%N
    else if ((65 <=? n) && (n <=? 90))%N then Some (n - 55)%N
    else None in
  match v with
  | Some d => if (d <? radix)%N then Some (Z.of_N d) else None
  | None => None
  end.

(** The longest prefix of digits: its value on top of [acc], the number of
    digits read on top of [cnt], and the rest of the string. *)
Fixpoint span_digits (radix : N) (s : string) (acc cnt : Z) : Z * Z * string :=
  match s with
  | String c r =>
      match digit_in radix c with
      | Some d => span_digits radix r (Z.of_N radix * acc + d)%Z (cnt + 1)%Z
      | None => (acc, cnt, s)
      end
  | EmptyString => (acc, cnt, s)
  end.

Definition is_empty (s : string) : bool :=
  match s with EmptyString => true | _ => false end.

(** [ExponentPart], optional, up to the end of the literal. *)
Definition parse_exponent (s : string) : option Z :=
  match s with
  | EmptyString => Some 0%Z
  | String c r =>
      if Ascii.eqb c "e" || Ascii.eqb c "E" then
        let '(neg, r') :=
          match r with
          | String "+"%char t => (false, t)
          | String "-"%char t => (true, t)
          | _ => (false, r)
          end in
        let '(v, cnt, rest) := span_digits 10 r' 0 0 in
        if (0 <? cnt)%Z && is_empty rest then Some (if neg then - v else v)%Z else None
      else None
  end.

(** [StrUnsignedDecimalLiteral] other than [Infinity]: mantissa and
    decimal exponent. *)
Definition parse_unsigned_decimal (s : string) : option (Z * Z) :=
  let '(i, ci, r1) := span_digits 10 s 0 0 in
  match r1 with
  | String "."%char r2 =>
      let '(m, cf, r3) := span_digits 10 r2 i 0 in
      if (0 <? ci + cf)%Z
      then option_map (fun x => (m, x - cf)%Z) (parse_exponent r3)
      else None
  | _ =>
      if (0 <? ci)%Z
      then option_map (fun x => (i, x)) (parse_exponent r1)
      else None
  end.

Definition parse_decimal (neg : bool) (s : string) : number :=
  if String.eqb s "Infinity" then S754_infinity neg
  else
    match parse_unsigned_decimal s with
    | Some (m, e) => of_decimal neg m e
    | None => NaN
    end.

(** [NonDecimalIntegerLiteral]: the digits after the [0x], [0o] or [0b]. *)
Definition parse_radix (radix : N) (s : string) : number :=
  let '(v, cnt, rest) := span_digits radix s 0 0 in
  if (0 <? cnt)%Z && is_empty rest then of_Z v else NaN.

Definition StringToNumber (s : string) : number :=
  match trim s with
  | EmptyString => pos_zero
  | String "0"%char (String c r) =>
      if Ascii.eqb c "x" || Ascii.eqb c "X" then parse_radix 16 r
      else if Ascii.eqb c "o" || Ascii.eqb c "O" then parse_radix 8 r
      else if Ascii.eqb c "b" || Ascii.eqb c "B" then parse_radix 2 r
      else parse_decimal false (trim s)
  | String "+"%char r => parse_decimal false r
  | String "-"%char r => parse_decimal true r
  | t => parse_decimal false t
  end.

(** *** [Number(x.toFixed(2))] *)

(** The integer [n] for which [n / 100] is nearest to [m * 2 ^ e], the
    larger one when two are equally near (ECMA-262, 21.1.3.3 step 10.a). *)
Definition hundredths (m : positive) (e : Z) : Z :=
  match e with
  | Zneg k => (200 * Zpos m + 2 ^ Zpos k) / 2 ^ (Zpos k + 1)
  | _ => 100 * Zpos m * 2 ^ e
  end%Z.

(** [10 ^ 21 <= m * 2 ^ e]. *)
Definition at_least_1e21 (m : positive) (e : Z) : bool :=
  match e with
  | Zneg k => (10 ^ 21 * 2 ^ Zpos k <=? Zpos m)%Z
  | _ => (10 ^ 21 <=? Zpos m * 2 ^ e)%Z
  end.

(** [Number(x.toFixed(2))]: a finite [x] below [10 ^ 21] in magnitude is
    printed as the decimal [n / 100] and read back as the number nearest to
    it; any other [x] is printed by [Number::toString] and read back as
    itself. The string of a negative zero is ["0.00"]. *)
Definition toFixed2 (x : number) : number :=
  match x with
  | S754_finite s m e =>
      if at_least_1e21 m e then x
      else of_decimal s (hundredths m e) (-2)
  | S754_zero _ => pos_zero
  | _ => x
  end.

End Num.

(** ** Values and objects *)

#[local] Set Warnings "-register-all".

(** The values that occur in request bodies and in the arguments of
    [res.json]. An object is a finite map from property names to values. *)
Inductive value : Type :=
| VUndefined
| VNull
| VBool (b : bool)
| VNum (x : Num.number)
| VStr (s : string)
| VArr (items : list value)
| VObj (props : gmap string value).

Module Js.

(** The own property [k] of [o], [undefined] when [o] has none: what
    [res.json] writes and what a parsed body holds. For the names the code
    reads ([heightCm], [weightKg], [url], [error], [message] and the
    properties of the answers) this is the property read [o.k], since none
    of them is a property of [Object.prototype] or [Array.prototype]; the
    inherited properties ([toString], [constructor] and the like) are not
    modelled. *)
Definition get (o : value) (k : string) : value :=
  match o with
  | VObj props => default VUndefined (props !! k)
  | _ => VUndefined
  end.

(** The message of the [TypeError] of a conversion to a primitive that
    finds no method to call (the wording is that of V8; the handlers never
    read it). *)
Definition cannot_convert : string := "Cannot convert object to primitive value".

(** Whether the conversion of a parsed value to a primitive throws. An
    object of a JSON body inherits [valueOf], which returns the object
    itself, and [toString], which returns ["[object Object]"]; an own
    property named [toString] hides the inherited method and, being data,
    cannot be called, so that no method yields a primitive. An array is
    converted by joining the strings of its elements, which converts each
    element that is an array or an object in turn. *)
Fixpoint unconvertible (v : value) : bool :=
  match v with
  | VObj props =>
      match props !! "toString" with
      | Some _ => true
      | None => false
      end
  | VArr items => existsb unconvertible items
  | _ => false
  end.

(** The number of a value whose conversion to a primitive does not throw.
    An array is first converted to a string, its elements joined with
    commas: the empty array gives the empty string, an array of one element
    gives the string of that element (empty for [null] and [undefined]),
    and a longer array gives a string with a comma, which is no numeric
    literal. The string of a number reads back as that number, except that
    the string of [-0] is ["0"]. An object gives ["[object Object]"]. *)
Fixpoint to_number (v : value) : Num.number :=
  match v with
  | VUndefined => Num.NaN
  | VNull => Num.pos_zero
  | VBool true => Num.of_Z 1
  | VBool false => Num.pos_zero
  | VNum x => x
  | VStr s => Num.StringToNumber s
  | VArr [] => Num.pos_zero
  | VArr [x] =>
      match x with
      | VUndefined | VNull => Num.pos_zero
      | VBool _ => Num.NaN
      | VNum (SpecFloat.S754_zero _) => Num.pos_zero
      | VNum n => n
      | VStr s => Num.StringToNumber s
      | VArr _ => to_number x
      | VObj _ => Num.NaN
      end
  | VArr _ => Num.NaN
  | VObj _ => Num.NaN
  end.

(** [Number(v)]: the number, or the message of the [TypeError] thrown. *)
Definition ToNumber (v : value) : Num.number + string :=
  if unconvertible v then inr cannot_convert else inl (to_number v).

(** [Array.prototype.includes] on an array of strings. *)
Fixpoint includes (l : list string) (s : string) : bool :=
  match l with
  | [] => false
  | x :: r => String.eqb x s || includes r s
  end.

(** The decimal string of an integer, as a template literal prints it. *)
Definition string_of_Z (n : Z) : string :=
  NilZero.string_of_int (Z.to_int n).

End Js.

(** ** Paths and patterns *)

Module Path.

Definition slash : ascii := "/"%char.
Definition dot : ascii := "."%char.

(** State of the right-to-left scan of [path.extname] (POSIX flavour). *)
Record scan : Type := mkScan {
  startDot : Z;
  startPart : Z;
  endPos : Z;
  matchedSlash : bool;
  preDotState : Z
}.

Definition scan0 : scan :=
  {| startDot := -1; startPart := 0; endPos := -1;
     matchedSlash := true; preDotState := 0 |}.

(** One iteration of the loop on the character [c] at index [i]; [None]
    is the [break]. *)
Definition scan_step (c : ascii) (i : Z) (st : scan) : option scan :=
  if Ascii.eqb c slash then
    if negb (matchedSlash st)
    then None
    else Some st
  else
    let st1 :=
      if (endPos st =? -1)%Z
      then mkScan (startDot st) (startPart st) (i + 1) false (preDotState st)
      else st in
    Some
      (if Ascii.eqb c dot then
         if (startDot st1 =? -1)%Z
         then mkScan i (startPart st1) (endPos st1) (matchedSlash st1) (preDotState st1)
         else if negb (preDotState st1 =? 1)%Z
              then mkScan (startDot st1) (startPart st1) (endPos st1) (matchedSlash st1) 1
              else st1
       else if negb (startDot st1 =? -1)%Z
            then mkScan (startDot st1) (startPart st1) (endPos st1) (matchedSlash st1) (-1)
            else st1).

(** The loop [for (i = path.length - 1; i >= 0; --i)], over the characters
    from the last to the first. *)
Fixpoint scan_loop (rs : string) (i : Z) (st : scan) : scan :=
  match rs with
  | EmptyString => st
  | String c r =>
      match scan_step c i st with
      | None => mkScan (startDot st) (i + 1) (endPos st) (matchedSlash st) (preDotState st)
      | Some st' => scan_loop r (i - 1) st'
      end
  end.

(** [path.slice(from, to)] for [0 <= from <= to]. *)
Definition slice (s : string) (from to : Z) : string :=
  String.substring (Z.to_nat from) (Z.to_nat (to - from)) s.

(** [path.extname]. *)
Definition extname (p : string) : string :=
  let st := scan_loop (Str.rev p) (Z.of_nat (String.length p) - 1) scan0 in
  if (startDot st =? -1)%Z
     || (endPos st =? -1)%Z
     || (preDotState st =? 0)%Z
     || ((preDotState st =? 1)%Z
         && (startDot st =? endPos st - 1)%Z
         && (startDot st =? startPart st + 1)%Z)
  then EmptyString
  else slice p (startDot st) (endPos st).

(** [path.join(dir, name)] for a normalized [dir] without trailing
    separator and a plain file name. *)
Definition join (dir name : string) : string :=
  dir +:+ String slash name.

End Path.

Module Pattern.

(** Case folding of a pattern with the [i] flag on one code unit below
    256: [Canonicalize] maps a character to its upper case when that is a
    single character of the same range. *)
Definition canonicalize (c : ascii) : ascii :=
  let n := Str.code c in
  if ((97 <=? n) && (n <=? 122))%N
     || ((224 <=? n) && (n <=? 254) && negb (n =? 247))%N
  then ascii_of_N (n - 32) else c.

Fixpoint matches_ci (pat s : string) : bool :=
  match pat, s with
  | EmptyString, EmptyString => true
  | String p pr, String c cr =>
      Ascii.eqb (canonicalize p) (canonicalize c) && matches_ci pr cr
  | _, _ => false
  end.

(** [s.replace(/<lit>$/i, repl)] for a literal [lit] of plain characters:
    the leftmost position from which the rest of [s] is [lit] up to case. *)
Fixpoint replace_suffix_ci (lit repl s : string) : string :=
  if matches_ci lit s then repl
  else
    match s with
    | EmptyString => EmptyString
    | String c r => String c (replace_suffix_ci lit repl r)
    end.

(** [s.replace(/\.[^.]+$/, repl)]: the leftmost dot followed by one or
    more characters other than a dot up to the end of [s]. *)
Fixpoint replace_extension (repl s : string) : string :=
  match s with
  | EmptyString => EmptyString
  | String c r =>
      if Ascii.eqb c Path.dot && negb (Num.is_empty r) && negb (Str.contains_char Path.dot r)
      then repl
      else String c (replace_extension repl r)
  end.

End Pattern.

(** ** Requests *)

(** [req.file] as the upload middleware ([multer], disk storage) leaves it. *)
Module Upload.
Record file : Type := mkFile {
  originalname : string;
  mimetype : string;
  size : Z;
  path : string
}.
End Upload.

(** A value of the body of a multipart request as the upload middleware
    builds it from the names of the text fields: the text of a field; a
    list, for a name that is repeated or indexed ([name[]]); an object
    without a prototype, for a name with a key ([name[key]]). Lists are
    taken without holes. *)
Inductive field : Type :=
| FText (s : string)
| FList (items : list field)
| FDict (props : list (string * field)).

Module Field.

(** [String(v)]: the string, or the message of the [TypeError] thrown. A
    list joins the strings of its elements with commas; an object without
    a prototype has no method that could convert it. *)
Fixpoint ToString (v : field) : string + string :=
  match v with
  | FText s => inl s
  | FList items =>
      (fix join (l : list field) : string + string :=
         match l with
         | [] => inl EmptyString
         | [x] => ToString x
         | x :: r =>
             match ToString x, join r with
             | inl s, inl t => inl (s +:+ "," +:+ t)
             | inr e, _ => inr e
             | _, inr e => inr e
             end
         end) items
  | FDict _ => inr Js.cannot_convert
  end.

(** The value [res.json] writes for a field. *)
Fixpoint json (v : field) : value :=
  match v with
  | FText s => VStr s
  | FList items => VArr (map json items)
  | FDict props => VObj (list_to_map (map (fun p => (fst p, json (snd p))) props))
  end.

End Field.

(** A multipart request: the staged file, if one was sent under the field
    name [file], and the other fields of the form ([req.body]). *)
Record upload_request : Type := mkUploadRequest {
  req_file : option Upload.file;
  req_fields : gmap string field
}.

(** ** Worlds, events and actions *)

Inductive event : Type :=
| Unlink (path : string)
| ReadFile (path : string)
| LibreConvert (input : list byte) (ext : string)
| SharpJpeg (path : string) (quality : Z)
| Spawn (exe : string) (args : list field)
| ConsoleError (parts : list string)
| Send (status : Z) (body : value).

Record world : Type := mkWorld {
  files : gmap string (list byte);
  issued : nat;
  log : list event
}.

(** How a piece of handler code ends: normally with a value, by a thrown
    error (of which the handlers only read [message]), by a [return] out of
    the handler, or not at all (an awaited promise that never settles). *)
Inductive completion (A : Type) : Type :=
| Normal (a : A)
| Throw (message : string)
| Return
| Pending.

Arguments Normal {A} a.
Arguments Throw {A} message.
Arguments Return {A}.
Arguments Pending {A}.

Definition action (A : Type) : Type := world -> completion A * world.

Definition ret {A : Type} (a : A) : action A := fun w => (Normal a, w).

Definition bind {A B : Type} (m : action A) (k : A -> action B) : action B :=
  fun w =>
    match m w with
    | (Normal a, w') => k a w'
    | (Throw e, w') => (Throw e, w')
    | (Return, w') => (Return, w')
    | (Pending, w') => (Pending, w')
    end.

Notation "x <- m ;; k" := (bind m (fun x => k))
  (at level 100, m at next level, right associativity).
Notation "m ;; k" := (bind m (fun _ => k))
  (at level 100, right associativity).

Definition throw {A : Type} (message : string) : action A := fun w => (Throw message, w).

(** A conversion that returns or throws. *)
Definition attempt {A : Type} (r : A + string) : action A :=
  fun w =>
    match r with
    | inl a => (Normal a, w)
    | inr message => (Throw message, w)
    end.

(** [return] out of the handler. *)
Definition return_ {A : Type} : action A := fun w => (Return, w).

Definition emit (e : event) : action unit :=
  fun w => (Normal tt, mkWorld (files w) (issued w) (log w ++ [e])).

(** [try { body } catch (err) { handler }]. *)
Definition try_catch {A : Type} (body : action A) (handler : string -> action A) : action A :=
  fun w =>
    match body w with
    | (Throw e, w') => handler e w'
    | r => r
    end.

(** [try { body } catch (err) { handler } finally { finalizer }]: the
    finalizer runs after every completion of the protected part that
    hands control back, and its own abrupt completion, if any, wins. *)
Definition try_catch_finally {A : Type}
  (body : action A) (handler : string -> action A) (finalizer : action unit) : action A :=
  fun w =>
    match try_catch body handler w with
    | (Pending, w') => (Pending, w')
    | (c, w') =>
        match finalizer w' with
        | (Normal _, w'') => (c, w'')
        | (Throw e, w'') => (Throw e, w'')
        | (Return, w'') => (Return, w'')
        | (Pending, w'') => (Pending, w'')
        end
    end.

(** What a spawned process lets its parent observe, in order. *)
Inductive proc_event : Type :=
| StderrData (chunk : string)
| ProcError (message : string)
| ProcClose (code : option Z).

(** [res.status(status).json(body)]; [res.json(body)] is status 200. *)
Definition send (status : Z) (body : value) : action unit := emit (Send status body).

Definition console_error (parts : list string) : action unit := emit (ConsoleError parts).

Definition obj (props : list (string * value)) : value :=
  VObj (list_to_map props).

(** [fileToDataUrlResponse]: the spread of [extra] comes last, so its
    properties win over the three fixed ones. *)
Definition fileToDataUrlResponse
  (buffer : list byte) (mimeType fileName : string) (extra : gmap string value) : value :=
  let base64 := Base64.encode buffer in
  let dataUrl := "data:" +:+ mimeType +:+ ";base64," +:+ base64 in
  VObj (extra ∪ list_to_map
                  [("fileName", VStr fileName); ("mimeType", VStr mimeType);
                   ("dataUrl", VStr dataUrl)]).

(** [fs.unlink], promisified. The file system of this file holds regular
    files only, which the server may remove: the one failure is that of a
    path that does not exist. *)
Definition unlinkAsync (filePath : string) : action unit :=
  emit (Unlink filePath) ;;
  fun w =>
    match files w !! filePath with
    | Some _ => (Normal tt, mkWorld (delete filePath (files w)) (issued w) (log w))
    | None => (Throw ("ENOENT: no such file or directory, unlink '" +:+ filePath +:+ "'"), w)
    end.

(** [fs.readFile], promisified. *)
Definition readFileAsync (filePath : string) : action (list byte) :=
  emit (ReadFile filePath) ;;
  fun w =>
    match files w !! filePath with
    | Some content => (Normal content, w)
    | None => (Throw ("ENOENT: no such file or directory, open '" +:+ filePath +:+ "'"), w)
    end.

(** [safeUnlink]. *)
Definition safeUnlink (filePath : string) : action unit :=
  try_catch (unlinkAsync filePath)
    (fun e => console_error ["Failed to delete temp file:"; filePath; e]).

(** The promise around the child process: chunks of its standard error are
    accumulated, and the first [error] or [close] settles the promise. *)
Fixpoint settle (events : list proc_event) (stderr : string) : completion unit :=
  match events with
  | [] => Pending
  | StderrData chunk :: rest => settle rest (stderr +:+ chunk)
  | ProcError message :: _ => Throw message
  | ProcClose code :: _ =>
      match code with
      | Some 0%Z => Normal tt
      | _ =>
          Throw ("ffmpeg exited with code "
                 +:+ match code with Some n => Js.string_of_Z n | None => "null" end
                 +:+ ": " +:+ stderr)
      end
  end.

(** ** The route handlers *)

Module Server.

(** A request starts with an empty log. *)
Definition start (fs : gmap string (list byte)) (k : nat) : world := mkWorld fs k [].

Section Handlers.

(** The collaborators of the server: the staging directory, the path of the
    transcoder binary, the identifiers that [uuidv4] hands out (the [k]-th
    call returns [uuid_source k]), the document engine, the image codec
    (its input is the content of the file it is pointed at, if any) and the
    transcoder process (from its arguments and the file system, what the
    parent observes and the file system it leaves). The arguments are the
    values the handler puts in the array, strings but for the bitrate; a
    [spawn] that throws at once rejects the promise like an [error] event
    and is an outcome that starts with [ProcError]. *)
Variable uploadDir : string.
Variable ffmpegPath : string.
Variable uuid_source : nat -> string.
Variable libre_convert : list byte -> string -> list byte + string.
Variable sharp_jpeg : option (list byte) -> Z -> list byte + string.
Variable ffmpeg :
  list field -> gmap string (list byte) -> list proc_event * gmap string (list byte).

Definition uuidv4 : action string :=
  fun w => (Normal (uuid_source (issued w)), mkWorld (files w) (S (issued w)) (log w)).

(** [libre.convertAsync(buf, ext, undefined)]. *)
Definition libre_convertAsync (buf : list byte) (ext : string) : action (list byte) :=
  emit (LibreConvert buf ext) ;;
  match libre_convert buf ext with
  | inl out => ret out
  | inr message => throw message
  end.

(** [sharp(inputPath).jpeg({ quality }).toBuffer()]. *)
Definition sharp_toBuffer (inputPath : string) (quality : Z) : action (list byte) :=
  emit (SharpJpeg inputPath quality) ;;
  fun w =>
    match sharp_jpeg (files w !! inputPath) quality with
    | inl out => (Normal out, w)
    | inr message => (Throw message, w)
    end.

(** The awaited promise that spawns the transcoder with [ffArgs]. *)
Definition run_ffmpeg (ffArgs : list field) : action unit :=
  emit (Spawn ffmpegPath ffArgs) ;;
  fun w =>
    let '(events, fs) := ffmpeg ffArgs (files w) in
    (settle events EmptyString, mkWorld fs (issued w) (log w)).

Definition error_body (message : string) : value :=
  obj [("error", VStr message)].

Definition error_details_body (message details : string) : value :=
  obj [("error", VStr message); ("details", VStr details)].

(** [POST /api/convert/docx-to-pdf]. *)
Definition docx_to_pdf (req : upload_request) : action unit :=
  match req_file req with
  | None => send 400 (error_body "No file uploaded") ;; return_
  | Some file =>
      let inputPath := Upload.path file in
      let outputExt := ".pdf" in
      id <- uuidv4 ;;
      let outputName := id +:+ outputExt in
      try_catch_finally
        (let ext := Str.toLowerCase (Path.extname (Upload.originalname file)) in
         (if negb (String.eqb ext ".docx") then
            safeUnlink inputPath ;;
            send 400 (error_body "Only .docx files are allowed") ;;
            return_
          else ret tt) ;;
         docxBuf <- readFileAsync inputPath ;;
         pdfBuf <- libre_convertAsync docxBuf outputExt ;;
         let response :=
           fileToDataUrlResponse pdfBuf "application/pdf"
             (Pattern.replace_suffix_ci ".docx" ".pdf" (Upload.originalname file)) ∅ in
         send 200 response)
        (fun err =>
           console_error [err] ;;
           send 500 (error_details_body "Conversion failed" err))
        (safeUnlink inputPath)
  end.

(** [POST /api/convert/pdf-to-docx]. *)
Definition pdf_to_docx (req : upload_request) : action unit :=
  match req_file req with
  | None => send 400 (error_body "No file uploaded") ;; return_
  | Some file =>
      let inputPath := Upload.path file in
      let outputExt := ".docx" in
      try_catch_finally
        (let ext := Str.toLowerCase (Path.extname (Upload.originalname file)) in
         (if negb (String.eqb ext ".pdf") then
            safeUnlink inputPath ;;
            send 400 (error_body "Only .pdf files are allowed") ;;
            return_
          else ret tt) ;;
         pdfBuf <- readFileAsync inputPath ;;
         docxBuf <- libre_convertAsync pdfBuf outputExt ;;
         let response :=
           fileToDataUrlResponse docxBuf
             "application/vnd.openxmlformats-officedocument.wordprocessingml.document"
             (Pattern.replace_suffix_ci ".pdf" ".docx" (Upload.originalname file)) ∅ in
         send 200 response)
        (fun err =>
           console_error [err] ;;
           send 500 (error_details_body "Conversion failed" err))
        (safeUnlink inputPath)
  end.

(** [POST /api/image/compress]. *)
Definition image_compress (req : upload_request) : action unit :=
  match req_file req with
  | None => send 400 (error_body "No file uploaded") ;; return_
  | Some file =>
      let inputPath := Upload.path file in
      let originalSize := Upload.size file in
      id <- uuidv4 ;;
      let outputName := id +:+ ".jpg" in
      try_catch_finally
        (let mime := Upload.mimetype file in
         (if negb (Js.includes ["image/jpeg"; "image/png"; "image/webp"] mime) then
            safeUnlink inputPath ;;
            send 400 (error_body "Only JPEG, PNG, or WebP images are allowed") ;;
            return_
          else ret tt) ;;
         compressedBuffer <- sharp_toBuffer inputPath 70 ;;
         let compressedSize := Z.of_nat (List.length compressedBuffer) in
         let response :=
           fileToDataUrlResponse compressedBuffer "image/jpeg" outputName
             (list_to_map
                [("originalSize", VNum (Num.of_Z originalSize));
                 ("compressedSize", VNum (Num.of_Z compressedSize));
                 ("compressionRatio",
                   VNum (Num.div (Num.of_Z compressedSize) (Num.of_Z originalSize)))]) in
         send 200 response)
        (fun err =>
           console_error [err] ;;
           send 500 (error_details_body "Image compression failed" err))
        (safeUnlink inputPath)
  end.

Definition allowedInputTypes : list string :=
  ["audio/flac"; "audio/x-flac"; "audio/aac"; "audio/x-aac"; "audio/wav";
   "audio/x-wav"; "audio/ogg"; "audio/x-ogg"; "audio/alac"].

Definition allowedOutputFormats : list string := ["mp3"; "aac"; "wav"; "ogg"].

(** The codec arguments of the transcoder for a target format. *)
Definition formatArgs (safeFormat : string) (bitrate : field) : list field :=
  if String.eqb safeFormat "mp3" then
    [FText "-codec:a"; FText "libmp3lame"; FText "-b:a"; bitrate]
  else if String.eqb safeFormat "aac" then
    [FText "-codec:a"; FText "aac"; FText "-b:a"; bitrate]
  else if String.eqb safeFormat "wav" then
    [FText "-codec:a"; FText "pcm_s16le"]
  else if String.eqb safeFormat "ogg" then
    [FText "-codec:a"; FText "libvorbis"; FText "-b:a"; bitrate]
  else [].

(** The MIME type of the result for a target format: three assignments in
    a row over the initial ["audio/mpeg"]. *)
Definition audioMimeType (safeFormat : string) : string :=
  let mimeType := "audio/mpeg" in
  let mimeType := if String.eqb safeFormat "aac" then "audio/aac" else mimeType in
  let mimeType := if String.eqb safeFormat "wav" then "audio/wav" else mimeType in
  let mimeType := if String.eqb safeFormat "ogg" then "audio/ogg" else mimeType in
  mimeType.

(** [POST /api/audio/convert]. [String(targetFormat)] is evaluated before
    the [try] statement: when it throws, the error leaves the handler. *)
Definition audio_convert (req : upload_request) : action unit :=
  match req_file req with
  | None => send 400 (error_body "No file uploaded") ;; return_
  | Some file =>
      let inputPath := Upload.path file in
      let targetFormat := default (FText "mp3") (req_fields req !! "targetFormat") in
      let bitrate := default (FText "192k") (req_fields req !! "bitrate") in
      text <- attempt (Field.ToString targetFormat) ;;
      let safeFormat := Str.toLowerCase text in
      (if negb (Js.includes allowedOutputFormats safeFormat) then
         safeUnlink inputPath ;;
         send 400 (error_body "Invalid target format") ;;
         return_
       else ret tt) ;;
      (if negb (Js.includes allowedInputTypes (Upload.mimetype file)) then
         safeUnlink inputPath ;;
         send 400 (error_body "Unsupported input audio format") ;;
         return_
       else ret tt) ;;
      id <- uuidv4 ;;
      let outputPath := Path.join uploadDir (id +:+ "." +:+ safeFormat) in
      let commonArgs := [FText "-y"; FText "-i"; FText inputPath; FText "-vn"] in
      let ffArgs := commonArgs ++ formatArgs safeFormat bitrate ++ [FText outputPath] in
      try_catch_finally
        (run_ffmpeg ffArgs ;;
         convertedBuffer <- readFileAsync outputPath ;;
         let mimeType := audioMimeType safeFormat in
         let response :=
           fileToDataUrlResponse convertedBuffer mimeType
             (Pattern.replace_extension ("." +:+ safeFormat) (Upload.originalname file))
             (list_to_map
                [("targetFormat", VStr safeFormat);
                 ("bitrate", Field.json bitrate);
                 ("size", VNum (Num.of_Z (Z.of_nat (List.length convertedBuffer))))]) in
         send 200 response)
        (fun err =>
           console_error [err] ;;
           send 500 (error_details_body "Audio conversion failed" err))
        (safeUnlink inputPath ;; safeUnlink outputPath)
  end.

(** A form whose fields are plain text fields, none of them repeated,
    indexed or keyed: [fields] maps the names to the texts. For such a form
    the format the audio route works with is the text of [targetFormat],
    ["mp3"] when absent, in lower case, and the bitrate it forwards is the
    text of [bitrate], ["192k"] when absent. *)
Definition text_fields (fields : gmap string string) : gmap string field :=
  FText <$> fields.

Definition safeFormat_of (fields : gmap string string) : string :=
  Str.toLowerCase (default "mp3" (fields !! "targetFormat")).

Definition bitrate_of (fields : gmap string string) : string :=
  default "192k" (fields !! "bitrate").

(** The log of the audio route on a request with a file and text fields,
    and the path it allocates for the result when [k] identifiers were
    issued before. *)
Definition audio_log (f : Upload.file) (fields : gmap string string)
  (fs : gmap string (list byte)) (k : nat) : list event :=
  log (snd (audio_convert (mkUploadRequest (Some f) (text_fields fields)) (start fs k))).

Definition audio_outputPath (fields : gmap string string) (k : nat) : string :=
  Path.join uploadDir (uuid_source k +:+ "." +:+ safeFormat_of fields).

(** The logs of the other routes on a request with a file. *)
Definition docx_log (f : Upload.file) (fs : gmap string (list byte)) (k : nat) :
  list event :=
  log (snd (docx_to_pdf (mkUploadRequest (Some f) ∅) (start fs k))).

Definition pdf_log (f : Upload.file) (fs : gmap string (list byte)) (k : nat) :
  list event :=
  log (snd (pdf_to_docx (mkUploadRequest (Some f) ∅) (start fs k))).

Definition image_log (f : Upload.file) (fs : gmap string (list byte)) (k : nat) :
  list event :=
  log (snd (image_compress (mkUploadRequest (Some f) ∅) (start fs k))).

(** The argument list handed to the transcoder. *)
Definition audio_ffArgs (f : Upload.file) (fields : gmap string string) (k : nat) :
  list field :=
  [FText "-y"; FText "-i"; FText (Upload.path f); FText "-vn"]
    ++ formatArgs (safeFormat_of fields) (FText (bitrate_of fields))
    ++ [FText (audio_outputPath fields k)].

End Handlers.

(** *** The BMI calculator *)

Definition n100 : Num.number := Eval vm_compute in Num.StringToNumber "100".
Definition n18_5 : Num.number := Eval vm_compute in Num.StringToNumber "18.5".
Definition n25 : Num.number := Eval vm_compute in Num.StringToNumber "25".
Definition n30 : Num.number := Eval vm_compute in Num.StringToNumber "30".

(** The chain of comparisons that picks the category and its message. *)
Definition categorize (bmi : Num.number) : string * string :=
  if Num.ltb bmi n18_5 then
    ("Underweight",
     "Your BMI is below the normal range. Consider consulting a nutritionist or doctor.")
  else if Num.ltb bmi n25 then
    ("Normal",
     "Your BMI is in the normal range. Keep maintaining a healthy lifestyle.")
  else if Num.ltb bmi n30 then
    ("Overweight",
     "Your BMI is slightly above the normal range. You may want to review diet and activity.")
  else
    ("Obesity",
     "Your BMI is in the obesity range. Please consider consulting a healthcare professional.").

(** The table of ranges echoed in every answer. Its en dashes and its
    greater-or-equal sign lie outside Latin-1 and stand here as their UTF-8
    bytes; nothing inspects them. *)
Definition ranges : value :=
  obj [("Underweight", VStr "< 18.5");
       ("Normal", VStr "18.5 – 24.9");
       ("Overweight", VStr "25 – 29.9");
       ("Obesity", VStr "≥ 30")].

(** [w / (heightM * heightM)] with [heightM = h / 100]. *)
Definition bmi_of (h w : Num.number) : Num.number :=
  let heightM := Num.div h n100 in
  Num.div w (Num.mul heightM heightM).

(** [POST /api/calc/bmi]; [body] is [req.body || {}]. The handler has no
    [try] statement: an error of [Number] leaves it. *)
Definition calc_bmi (body : value) : action unit :=
  let heightCm := Js.get body "heightCm" in
  let weightKg := Js.get body "weightKg" in
  h <- attempt (Js.ToNumber heightCm) ;;
  w <- attempt (Js.ToNumber weightKg) ;;
  (if Num.falsy h || Num.falsy w || Num.leb h Num.pos_zero || Num.leb w Num.pos_zero then
     send 400 (error_body "heightCm and weightKg must be positive numbers") ;;
     return_
   else ret tt) ;;
  let bmi := bmi_of h w in
  let '(category, message) := categorize bmi in
  send 200
    (obj [("bmi", VNum (Num.toFixed2 bmi));
          ("category", VStr category);
          ("message", VStr message);
          ("ranges", ranges)]).

(** The log of the BMI route. *)
Definition bmi_log (body : value) : list event :=
  log (snd (calc_bmi body (start ∅ 0))).

(** *** Observations on a finished request *)

(** The text of the chunks a process wrote to its standard error. *)
Definition stderr_text (chunks : list string) : string :=
  fold_right String.append EmptyString chunks.

(** The answers sent, in order. *)
Fixpoint responses (l : list event) : list (Z * value) :=
  match l with
  | [] => []
  | Send status body :: r => (status, body) :: responses r
  | _ :: r => responses r
  end.

(** The number of removal attempts on [p]. *)
Fixpoint unlink_attempts (p : string) (l : list event) : nat :=
  match l with
  | [] => 0
  | Unlink q :: r => (if String.eqb p q then 1 else 0) + unlink_attempts p r
  | _ :: r => unlink_attempts p r
  end.

(** The argument lists of the processes spawned. *)
Fixpoint spawns (l : list event) : list (string * list field) :=
  match l with
  | [] => []
  | Spawn exe args :: r => (exe, args) :: spawns r
  | _ :: r => spawns r
  end.

(** The conversions requested from the document engine. *)
Fixpoint conversions (l : list event) : list (list byte * string) :=
  match l with
  | [] => []
  | LibreConvert input ext :: r => (input, ext) :: conversions r
  | _ :: r => conversions r
  end.

End Server.

(** ** Sample collaborators and requests *)

Module Sample.

Definition uploadDir : string := "/srv/app/uploads".
Definition ffmpegPath : string := "/srv/app/node_modules/ffmpeg-static/ffmpeg".

Definition uuid_source (k : nat) : string :=
  "7d9f1c52-3b7e-4c1a-9c55-00000000000" +:+ Js.string_of_Z (Z.of_nat k).

(** The path a transcoder writes to: its last argument. *)
Definition destination (args : list field) : string :=
  match List.last args (FText EmptyString) with
  | FText p => p
  | _ => EmptyString
  end.

(** A transcoder that writes four bytes to its last argument and exits 0. *)
Definition ffmpeg_ok (args : list field) (fs : gmap string (list byte)) :
  list proc_event * gmap string (list byte) :=
  ([StderrData "size=       4kB time=00:00:01.00"; ProcClose (Some 0%Z)],
   <[destination args := [x49; x44; x33; x04]]> fs).

(** A transcoder that complains in two chunks and exits 1. *)
Definition ffmpeg_fail (args : list field) (fs : gmap string (list byte)) :
  list proc_event * gmap string (list byte) :=
  ([StderrData "Invalid data found "; StderrData "when processing input";
    ProcClose (Some 1%Z)], fs).

(** A transcoder binary that cannot be spawned. *)
Definition ffmpeg_missing (args : list field) (fs : gmap string (list byte)) :
  list proc_event * gmap string (list byte) :=
  ([ProcError "spawn /srv/app/node_modules/ffmpeg-static/ffmpeg ENOENT";
    ProcClose (Some (-2)%Z)], fs).

Definition libre_ok (input : list byte) (ext : string) : list byte + string :=
  inl [x25; x50; x44; x46; x2d].

Definition sharp_ok (input : option (list byte)) (quality : Z) : list byte + string :=
  match input with
  | Some _ => inl [xff; xd8; xff; xe0; x00]
  | None => inr "Input file is missing"
  end.

Definition staged : string := "/srv/app/uploads/5f4dcc3b5aa765d61d8327deb882cf99".

Definition fs0 : gmap string (list byte) := {[ staged := [x61; x62; x63; x64; x65; x66; x67; x68] ]}.

Definition wav_file : Upload.file :=
  Upload.mkFile "take one.wav" "audio/wav" 8 staged.

Definition bare_wav_file : Upload.file :=
  Upload.mkFile "song" "audio/wav" 8 staged.

Definition text_file : Upload.file :=
  Upload.mkFile "notes.txt" "text/plain" 8 staged.

Definition docx_file : Upload.file :=
  Upload.mkFile "Report.DOCX"
    "application/vnd.openxmlformats-officedocument.wordprocessingml.document" 8 staged.

Definition png_file : Upload.file :=
  Upload.mkFile "photo.png" "image/png" 8 staged.

End Sample.

(** ** Further operations on values *)

Module JsOps.

(** [ToBoolean]: what [!v] and [v || w] look at. *)
Definition truthy (v : value) : bool :=
  match v with
  | VUndefined | VNull => false
  | VBool b => b
  | VNum x => negb (Num.falsy x)
  | VStr s => negb (Num.is_empty s)
  | VArr _ | VObj _ => true
  end.

(** [typeof v === "string"]. *)
Definition is_string (v : value) : bool :=
  match v with
  | VStr _ => true
  | _ => false
  end.

(** [a || b]. *)
Definition or_else (a b : value) : value := if truthy a then a else b.

(** [200 <= status && status < 300], also [res.ok]. *)
Definition ok_status (status : Z) : bool := (200 <=? status)%Z && (status <? 300)%Z.

Section Strings.

(** [Number::toString], which this file does not spell out. *)
Variable number_to_string : Num.number -> string.

(** [String(v)], as [new Error(v)] applies it to its argument, for a value
    whose conversion to a primitive does not throw. *)
Fixpoint ToString (v : value) : string :=
  match v with
  | VUndefined => "undefined"
  | VNull => "null"
  | VBool true => "true"
  | VBool false => "false"
  | VNum x => number_to_string x
  | VStr s => s
  | VArr items =>
      String.concat ","
        (map (fun x => match x with
                       | VUndefined | VNull => EmptyString
                       | _ => ToString x
                       end) items)
  | VObj _ => "[object Object]"
  end.

(** The error that [throw new Error(v)] throws, of which the code reads
    [message] only: the new error, or the [TypeError] of [String(v)]. *)
Definition new_Error (v : value) : value :=
  obj [("message", VStr (if Js.unconvertible v then Js.cannot_convert else ToString v))].

End Strings.

End JsOps.

(** ** The remaining routes *)

Module QrRoute.
Import Server.

(** The options of [qrcode.toDataURL]. *)
Record qr_options : Type := mkQrOptions {
  errorCorrectionLevel : string;
  margin : Z;
  width : Z
}.

Section Qr.

(** The QR encoder: from the text and the options, a data URL or the
    message of the error it throws. *)
Variable qr_toDataURL : value -> qr_options -> string + string.

Definition toDataURL (text : value) (options : qr_options) : action string :=
  fun w =>
    match qr_toDataURL text options with
    | inl dataUrl => (Normal dataUrl, w)
    | inr message => (Throw message, w)
    end.

(** [POST /api/url/qr]; [body] is [req.body || {}]. *)
Definition url_qr (body : value) : action unit :=
  let url := Js.get body "url" in
  (if negb (JsOps.truthy url) || negb (JsOps.is_string url) then
     send 400 (error_body "URL is required") ;;
     return_
   else ret tt) ;;
  try_catch
    (dataUrl <- toDataURL url (mkQrOptions "M" 2 300) ;;
     send 200
       (obj [("fileName", VStr "qr-code.png");
             ("mimeType", VStr "image/png");
             ("dataUrl", VStr dataUrl);
             ("originalUrl", url)]))
    (fun err =>
       console_error [err] ;;
       send 500 (error_details_body "QR code generation failed" err)).

(** The log of the QR route. *)
Definition qr_log (body : value) : list event :=
  log (snd (url_qr body (start ∅ 0))).

End Qr.

(** [GET /api/health]. *)
Definition health : action unit := send 200 (obj [("status", VStr "ok")]).

End QrRoute.

(** ** The forms of the browser client *)

Module Client.

Definition API_BASE : string := "http://localhost:4000/api".

(** The state a tool keeps of its last submission: [result] and [error].
    The progress bar of the upload tools is not part of this record. *)
Record ui : Type := mkUi {
  result : value;
  error : value
}.

(** A file chosen in a file input. *)
Record browser_file : Type := mkBrowserFile {
  file_name : string;
  file_type : string;
  file_content : list byte
}.

(** How an [XMLHttpRequest] with [responseType = "json"] ends: [onload]
    with a status and the parsed body ([null] when the body is no JSON),
    or [onerror]. *)
Inductive xhr_outcome : Type :=
| XhrLoad (status : Z) (response : value)
| XhrError.

(** How [fetch] followed by [res.json()] ends: the promise of [fetch] is
    rejected with an error of some message, or there is a response with a
    status whose body is parsed, or fails to parse with an error of some
    message. *)
Inductive fetch_outcome : Type :=
| FetchRejected (message : string)
| FetchResponse (status : Z) (body : value + string).

(** The promise of [send] in [useUploadWithProgress]: resolved with
    [xhr.response] ([inl]) or rejected ([inr]). *)
Definition send (o : xhr_outcome) : value + value :=
  match o with
  | XhrLoad status response =>
      if JsOps.ok_status status
      then inl response
      else inr (JsOps.or_else response (obj [("error", VStr "Upload failed")]))
  | XhrError => inr (obj [("error", VStr "Network error")])
  end.

(** A finite number survives [JSON.stringify] and the parser of the
    server; [NaN] and the infinities are written as [null], and the sign
    of a zero is lost. *)
Definition json_number (x : Num.number) : value :=
  match x with
  | SpecFloat.S754_nan | SpecFloat.S754_infinity _ => VNull
  | SpecFloat.S754_zero _ => VNum Num.pos_zero
  | _ => VNum x
  end.

Section Forms.

Variable number_to_string : Num.number -> string.

(** The message of the [TypeError] for reading a property of [null] or
    [undefined], which depends on the engine. *)
Variable null_read_message : string -> string.

(** The network behind the upload forms and behind [fetch]: from the URL
    and what is sent, the outcome. *)
Variable xhr : string -> list (string * browser_file) -> xhr_outcome.
Variable fetch : string -> value -> fetch_outcome.

(** [o.k] where [o] may be [null]: the value, or the error thrown. *)
Definition read (o : value) (k : string) : value + value :=
  match o with
  | VNull | VUndefined => inr (JsOps.new_Error number_to_string (VStr (null_read_message k)))
  | _ => inl (Js.get o k)
  end.

(** [catch (err) { setError(err.message || fallback) }] after
    [setResult(null)]. *)
Definition show_error (fallback : string) (err : value) : ui :=
  mkUi VNull (JsOps.or_else (Js.get err "message") (VStr fallback)).

(** [handleSubmit] of [DocxPdfTool]. *)
Definition DocxPdfTool_handleSubmit (file : option browser_file) (direction : string) : ui :=
  match file with
  | None => mkUi VNull (VStr "Please choose a file first.")
  | Some f =>
      let endpoint :=
        if String.eqb direction "docx-to-pdf"
        then API_BASE +:+ "/convert/docx-to-pdf"
        else API_BASE +:+ "/convert/pdf-to-docx" in
      let fd := [("file", f)] in
      match send (xhr endpoint fd) with
      | inl res =>
          match read res "error" with
          | inl e =>
              if JsOps.truthy e
              then show_error "Conversion failed." (JsOps.new_Error number_to_string e)
              else mkUi res (VStr EmptyString)
          | inr thrown => show_error "Conversion failed." thrown
          end
      | inr err => show_error "Conversion failed." err
      end
  end.

(** [handleCalc] of [BMITool]; [height] and [weight] are the values of
    the two inputs. *)
Definition BMITool_handleCalc (height weight : string) : ui :=
  let h := Num.StringToNumber height in
  let w := Num.StringToNumber weight in
  if Num.falsy h || Num.falsy w || Num.leb h Num.pos_zero || Num.leb w Num.pos_zero then
    mkUi VNull (VStr "Height and weight must be positive numbers.")
  else
    match fetch (API_BASE +:+ "/calc/bmi")
            (obj [("heightCm", json_number h); ("weightKg", json_number w)]) with
    | FetchRejected message =>
        show_error "BMI calculation failed." (JsOps.new_Error number_to_string (VStr message))
    | FetchResponse status (inr message) =>
        show_error "BMI calculation failed." (JsOps.new_Error number_to_string (VStr message))
    | FetchResponse status (inl data) =>
        if negb (JsOps.ok_status status) then
          match read data "error" with
          | inl e =>
              show_error "BMI calculation failed."
                (JsOps.new_Error number_to_string
                   (JsOps.or_else e (VStr "BMI calculation failed")))
          | inr thrown => show_error "BMI calculation failed." thrown
          end
        else mkUi data (VStr EmptyString)
    end.

(** The body [BMITool] sends for two numbers. *)
Definition bmi_request (h w : Num.number) : value :=
  obj [("heightCm", json_number h); ("weightKg", json_number w)].

(** [handleGenerate] of [QrTool]; [url] is the value of the input. *)
Definition QrTool_handleGenerate (url : string) : ui :=
  if Num.is_empty (Num.trim url) then
    mkUi VNull (VStr "URL is required.")
  else
    match fetch (API_BASE +:+ "/url/qr") (obj [("url", VStr url)]) with
    | FetchRejected message =>
        show_error "QR generation failed." (JsOps.new_Error number_to_string (VStr message))
    | FetchResponse status (inr message) =>
        show_error "QR generation failed." (JsOps.new_Error number_to_string (VStr message))
    | FetchResponse status (inl data) =>
        if negb (JsOps.ok_status status) then
          match read data "error" with
          | inl e =>
              show_error "QR generation failed."
                (JsOps.new_Error number_to_string
                   (JsOps.or_else e (VStr "QR generation failed")))
          | inr thrown => show_error "QR generation failed." thrown
          end
        else mkUi data (VStr EmptyString)
    end.

End Forms.

End Client.

(** ** Signs *)

Module NumSign.

(** The sign bit of a number; [NaN] has none. *)
Definition sign_bit (x : Num.number) : bool :=
  match x with
  | SpecFloat.S754_zero s | SpecFloat.S754_infinity s | SpecFloat.S754_finite s _ _ => s
  | SpecFloat.S754_nan => false
  end.

End NumSign.

(** ** More sample collaborators *)

Module Fixture.
Import Server QrRoute Client.

(** A codec and a document engine that fail. *)
Definition sharp_bad (input : option (list byte)) (quality : Z) : list byte + string :=
  inr "Input buffer contains unsupported image format".

Definition libre_bad (input : list byte) (ext : string) : list byte + string :=
  inr "Could not find soffice binary".

Definition pdf_file : Upload.file :=
  Upload.mkFile "Thesis.PDF" "application/pdf" 8 Sample.staged.

(** Transcoders that never close, that exit 0 without writing a result,
    and that are ended by a signal. *)
Definition ffmpeg_silent (args : list field) (fs : gmap string (list byte)) :
  list proc_event * gmap string (list byte) :=
  ([StderrData "frame=    1 fps=0.0 q=0.0 size=       0kB"], fs).

Definition ffmpeg_no_output (args : list field) (fs : gmap string (list byte)) :
  list proc_event * gmap string (list byte) :=
  ([ProcClose (Some 0%Z)], fs).

Definition ffmpeg_killed (args : list field) (fs : gmap string (list byte)) :
  list proc_event * gmap string (list byte) :=
  ([StderrData "Exiting normally, received signal 15."; ProcClose None], fs).

(** QR encoders that succeed and that fail. *)
Definition qr_ok (text : value) (options : qr_options) : string + string :=
  inl "data:image/png;base64,iVBORw0KGgo=".

Definition qr_bad (text : value) (options : qr_options) : string + string :=
  inr "The amount of data is too big to be stored in a QR Code".

(** A browser: its printer of numbers (no number is printed in the sample
    exchanges) and its message for a read on [null]. *)
Definition print_number (x : Num.number) : string := "NaN".

Definition null_read_message (k : string) : string :=
  "Cannot read properties of null (reading '" +:+ k +:+ "')".

Definition chosen_file : browser_file :=
  mkBrowserFile "notes.txt" "text/plain" [x61; x62; x63].

(** Networks that relay the answer of a route. *)
Definition xhr_rejected (url : string) (fd : list (string * browser_file)) : xhr_outcome :=
  XhrLoad 400 (error_body "Only .docx files are allowed").

Definition xhr_converted (url : string) (fd : list (string * browser_file)) : xhr_outcome :=
  XhrLoad 200 (fileToDataUrlResponse [x25; x50; x44; x46] "application/pdf" "notes.pdf" ∅).

Definition fetch_bmi (url : string) (body : value) : fetch_outcome :=
  match responses (bmi_log body) with
  | (status, data) :: _ => FetchResponse status (inl data)
  | [] => FetchRejected "Failed to fetch"
  end.

Definition fetch_qr (url : string) (body : value) : fetch_outcome :=
  match responses (qr_log qr_ok body) with
  | (status, data) :: _ => FetchResponse status (inl data)
  | [] => FetchRejected "Failed to fetch"
  end.

Definition fetch_qr_failing (url : string) (body : value) : fetch_outcome :=
  match responses (qr_log qr_bad body) with
  | (status, data) :: _ => FetchResponse status (inl data)
  | [] => FetchRejected "Failed to fetch"
  end.

End Fixture.

(* ================================================================== *)
(** * Properties *)

(** ** Round trip of the Base64 codec *)

Module Base64Facts.
Import Base64.

Lemma sextet_digit (i : N) : (i < 64)%N -> sextet (digit i) = Some i.
Proof.
  intros H.
  assert (Hn : exists n, i = N.of_nat n /\ (n < 64)%nat).
  { exists (N.to_nat i). split; [now rewrite N2Nat.id | lia]. }
  destruct Hn as (n & -> & Hn).
  do 64 (destruct n as [|n]; [reflexivity|]). lia.
Qed.

Lemma digit_not_pad (i : N) : (i < 64)%N -> is_pad (digit i) = false.
Proof.
  intros H.
  assert (Hn : exists n, i = N.of_nat n /\ (n < 64)%nat).
  { exists (N.to_nat i). split; [now rewrite N2Nat.id | lia]. }
  destruct Hn as (n & -> & Hn).
  do 64 (destruct n as [|n]; [reflexivity|]). lia.
Qed.

Lemma byte_of_to_N (b : byte) : byte_of_N (Byte.to_N b) = b.
Proof. unfold byte_of_N. now rewrite Byte.of_to_N. Qed.

Lemma to_N_lt (b : byte) : (Byte.to_N b < 256)%N.
Proof. pose proof (Byte.to_N_bounded b). lia. Qed.

(** Division and remainder by constants, through [Z]. *)
Ltac divmod := zify; Z.to_euclidean_division_equations; lia.

Lemma s0_lt a : (s0 a < 64)%N.
Proof. unfold s0. pose proof (to_N_lt a). divmod. Qed.

Lemma s1_lt a b : (s1 a b < 64)%N.
Proof. unfold s1. pose proof (to_N_lt a). pose proof (to_N_lt b). divmod. Qed.

Lemma s2_lt b c : (s2 b c < 64)%N.
Proof. unfold s2. pose proof (to_N_lt b). pose proof (to_N_lt c). divmod. Qed.

Lemma s3_lt c : (s3 c < 64)%N.
Proof. unfold s3. pose proof (to_N_lt c). divmod. Qed.

Lemma o0_s a b : o0 (s0 a) (s1 a b) = a.
Proof.
  unfold o0, s0, s1. rewrite <- (byte_of_to_N a) at 3. f_equal.
  pose proof (to_N_lt a). pose proof (to_N_lt b). divmod.
Qed.

Lemma o1_s a b c : o1 (s1 a b) (s2 b c) = b.
Proof.
  unfold o1, s1, s2. rewrite <- (byte_of_to_N b) at 3. f_equal.
  pose proof (to_N_lt a). pose proof (to_N_lt b). pose proof (to_N_lt c). divmod.
Qed.

Lemma o2_s b c : o2 (s2 b c) (s3 c) = c.
Proof.
  unfold o2, s2, s3. rewrite <- (byte_of_to_N c) at 3. f_equal.
  pose proof (to_N_lt b). pose proof (to_N_lt c). divmod.
Qed.

(** Induction on byte lists three elements at a time, as [encode] recurses. *)
Lemma list_ind3 (A : Type) (P : list A -> Prop) :
  P [] -> (forall a, P [a]) -> (forall a b, P [a; b]) ->
  (forall a b c l, P l -> P (a :: b :: c :: l)) ->
  forall l, P l.
Proof.
  intros H0 H1 H2 H3.
  fix IH 1. intros [|a [|b [|c l]]].
  - exact H0.
  - apply H1.
  - apply H2.
  - apply H3, IH.
Qed.

Ltac digits :=
  repeat first
    [ rewrite sextet_digit by auto using s0_lt, s1_lt, s2_lt, s3_lt
    | rewrite digit_not_pad by auto using s0_lt, s1_lt, s2_lt, s3_lt ].

Lemma decode_encode (bs : list byte) : decode (encode bs) = Some bs.
Proof.
  induction bs as [|a|a b|a b c l IH] using list_ind3.
  - reflexivity.
  - cbn [encode decode]. digits. cbn. now rewrite o0_s.
  - cbn [encode decode]. digits. cbn. now rewrite o0_s, o1_s.
  - cbn [encode decode]. digits. rewrite IH. now rewrite o0_s, o1_s, o2_s.
Qed.

(** The encoding has four characters for every started group of three bytes. *)
Lemma encode_length (bs : list byte) :
  String.length (encode bs) = (4 * ((List.length bs + 2) / 3))%nat.
Proof.
  induction bs as [|a|a b|a b c l IH] using list_ind3; try reflexivity.
  cbn [encode String.length List.length]. rewrite IH.
  replace (S (S (S (List.length l))) + 2)%nat with (List.length l + 2 + 1 * 3)%nat by lia.
  rewrite Nat.div_add by lia. lia.
Qed.

End Base64Facts.

(** ** Strings *)

Module StrFacts.

Lemma append_cons (x : ascii) (a b : string) : String x a +:+ b = String x (a +:+ b).
Proof. reflexivity. Qed.

Lemma append_nil_l (a : string) : EmptyString +:+ a = a.
Proof. reflexivity. Qed.

Lemma append_assoc (a b c : string) : (a +:+ b) +:+ c = a +:+ (b +:+ c).
Proof.
  induction a as [|x a IH]; [reflexivity|].
  rewrite !append_cons. now rewrite IH.
Qed.

Lemma append_nil_r (a : string) : a +:+ EmptyString = a.
Proof.
  induction a as [|x a IH]; [reflexivity|].
  rewrite append_cons. now rewrite IH.
Qed.

Lemma rev_acc_length (s acc : string) :
  String.length (Str.rev_acc s acc) = (String.length s + String.length acc)%nat.
Proof.
  revert acc. induction s as [|c s IH]; intros acc; [reflexivity|].
  cbn [Str.rev_acc String.length]. rewrite IH. cbn [String.length]. lia.
Qed.

Lemma rev_length (s : string) : String.length (Str.rev s) = String.length s.
Proof. unfold Str.rev. rewrite rev_acc_length. cbn [String.length]. lia. Qed.

Lemma contains_char_rev_acc (c : ascii) (s acc : string) :
  Str.contains_char c (Str.rev_acc s acc)
  = Str.contains_char c s || Str.contains_char c acc.
Proof.
  revert acc. induction s as [|d s IH]; intros acc; [reflexivity|].
  cbn [Str.rev_acc Str.contains_char]. rewrite IH. cbn [Str.contains_char].
  destruct (Ascii.eqb c d), (Str.contains_char c s), (Str.contains_char c acc); reflexivity.
Qed.

Lemma contains_char_rev (c : ascii) (s : string) :
  Str.contains_char c (Str.rev s) = Str.contains_char c s.
Proof.
  unfold Str.rev. rewrite contains_char_rev_acc. cbn [Str.contains_char].
  now rewrite orb_false_r.
Qed.

Lemma substring_all (s : string) : String.substring 0 (String.length s) s = s.
Proof. induction s as [|c s IH]; cbn; [reflexivity | now rewrite IH]. Qed.

(** A string is its first [a] characters followed by the rest. *)
Lemma split_at (s : string) (a : nat) :
  (a <= String.length s)%nat ->
  s = String.substring 0 a s +:+ String.substring a (String.length s - a) s.
Proof.
  revert a. induction s as [|c s IH]; intros [|a] H; cbn [String.length] in *.
  - reflexivity.
  - lia.
  - cbn [String.substring Nat.sub]. rewrite append_nil_l.
    change (String c s = String c (String.substring 0 (String.length s) s)).
    now rewrite substring_all.
  - cbn [String.substring Nat.sub]. rewrite append_cons. f_equal. apply IH. lia.
Qed.

Lemma append_length (a b : string) :
  String.length (a +:+ b) = (String.length a + String.length b)%nat.
Proof.
  induction a as [|x a IH]; [reflexivity|].
  rewrite append_cons. cbn [String.length]. now rewrite IH.
Qed.

(** Lower case and the case folding of patterns agree on every code unit. *)
Lemma canonicalize_lower_char (c : ascii) :
  Pattern.canonicalize (Str.lower_char c) = Pattern.canonicalize c.
Proof. destruct c as [[] [] [] [] [] [] [] []]; reflexivity. Qed.

Lemma lower_char_idem (c : ascii) :
  Str.lower_char (Str.lower_char c) = Str.lower_char c.
Proof. destruct c as [[] [] [] [] [] [] [] []]; reflexivity. Qed.

Lemma toLowerCase_idem (s : string) :
  Str.toLowerCase (Str.toLowerCase s) = Str.toLowerCase s.
Proof.
  induction s as [|c s IH]; [reflexivity|].
  cbn [Str.toLowerCase]. now rewrite lower_char_idem, IH.
Qed.

Lemma toLowerCase_length (s : string) :
  String.length (Str.toLowerCase s) = String.length s.
Proof. induction s as [|c s IH]; cbn; [reflexivity | now rewrite IH]. Qed.

End StrFacts.

(** ** Extensions and patterns *)

Module PathFacts.
Import StrFacts.

Lemma matches_ci_lower (s : string) : Pattern.matches_ci (Str.toLowerCase s) s = true.
Proof.
  induction s as [|c s IH]; [reflexivity|].
  cbn [Str.toLowerCase Pattern.matches_ci].
  rewrite canonicalize_lower_char, IH, Ascii.eqb_refl. reflexivity.
Qed.

Lemma matches_ci_length (pat s : string) :
  Pattern.matches_ci pat s = true -> String.length s = String.length pat.
Proof.
  revert s. induction pat as [|p pat IH]; intros [|c s] H; cbn in *;
    try discriminate; [reflexivity|].
  apply andb_prop in H. destruct H as [_ H]. now rewrite (IH s H).
Qed.

(** The pattern [/<lit>$/i] finds a suffix that is [lit] up to case, and
    [replace] puts [repl] in its place. *)
Lemma replace_suffix_ci_app (lit repl stem suffix : string) :
  Pattern.matches_ci lit suffix = true ->
  Pattern.replace_suffix_ci lit repl (stem +:+ suffix) = stem +:+ repl.
Proof.
  intros H. pose proof (matches_ci_length _ _ H) as Hlen.
  induction stem as [|c stem IH].
  - rewrite !append_nil_l. destruct suffix; cbn [Pattern.replace_suffix_ci]; now rewrite H.
  - rewrite !append_cons. cbn [Pattern.replace_suffix_ci].
    destruct (Pattern.matches_ci lit (String c (stem +:+ suffix))) eqn:E.
    + apply matches_ci_length in E. cbn [String.length] in E.
      rewrite append_length in E. lia.
    + now rewrite IH.
Qed.

Lemma contains_char_app (c : ascii) (a b : string) :
  Str.contains_char c (a +:+ b) = Str.contains_char c a || Str.contains_char c b.
Proof.
  induction a as [|x a IH]; [reflexivity|].
  rewrite append_cons. cbn [Str.contains_char]. rewrite IH. now rewrite orb_assoc.
Qed.

(** The pattern [/\.[^.]+$/] finds the last dot when characters follow
    it, and nothing in a name without such a dot. *)
Lemma replace_extension_app (repl stem ext : string) :
  ext <> EmptyString ->
  Str.contains_char Path.dot ext = false ->
  Pattern.replace_extension repl (stem +:+ String Path.dot ext) = stem +:+ repl.
Proof.
  intros Hne Hdot. induction stem as [|c stem IH].
  - rewrite !append_nil_l. cbn [Pattern.replace_extension].
    rewrite Ascii.eqb_refl, Hdot. destruct ext; [congruence | reflexivity].
  - rewrite !append_cons. cbn [Pattern.replace_extension].
    rewrite contains_char_app. cbn [Str.contains_char]. rewrite Ascii.eqb_refl.
    rewrite orb_true_r. cbn [negb]. rewrite !andb_false_r. now rewrite IH.
Qed.

Lemma replace_extension_plain (repl s : string) :
  Str.contains_char Path.dot s = false ->
  Pattern.replace_extension repl s = s.
Proof.
  induction s as [|c s IH]; [reflexivity|].
  cbn [Str.contains_char Pattern.replace_extension]. intros H.
  apply orb_false_elim in H. destruct H as [Hc Hs].
  rewrite Ascii.eqb_sym, Hc. cbn [andb]. now rewrite IH.
Qed.

(** Without separators every step of the scan goes on: the end of the
    extension is the end of the name, and the dot found, if any, lies
    inside the name. *)
Lemma scan_loop_plain (n : Z) (rs : string) :
  (0 <= n)%Z ->
  forall (i : Z) (st : Path.scan),
    Str.contains_char Path.slash rs = false ->
    i = (Z.of_nat (String.length rs) - 1)%Z ->
    (i < n)%Z ->
    (Path.endPos st = (-1)%Z /\ i = (n - 1)%Z) \/ Path.endPos st = n ->
    Path.startDot st = (-1)%Z \/ (i < Path.startDot st < n)%Z ->
    let st' := Path.scan_loop rs i st in
    ((Path.endPos st' = (-1)%Z /\ rs = EmptyString) \/ Path.endPos st' = n)
    /\ (Path.startDot st' = (-1)%Z \/ (-1 < Path.startDot st' < n)%Z).
Proof.
  intros Hn.
  induction rs as [|c rs IH]; intros i st Hs Hi Hlt He Hd; cbn [Path.scan_loop].
  - cbn [String.length] in Hi. split; [|lia].
    destruct He as [[He _]|He]; auto.
  - cbn [Str.contains_char] in Hs. apply orb_false_elim in Hs. destruct Hs as [Hc Hs].
    cbn [String.length] in Hi.
    unfold Path.scan_step. rewrite Ascii.eqb_sym, Hc.
    match goal with |- context [Path.scan_loop rs (i - 1) ?s] => set (st2 := s) end.
    assert (H2 : Path.endPos st2 = n
                 /\ (Path.startDot st2 = (-1)%Z \/ (i - 1 < Path.startDot st2 < n)%Z)).
    { subst st2.
      destruct (Z.eqb_spec (Path.endPos st) (-1)); destruct (Ascii.eqb c Path.dot);
        cbn [Path.endPos Path.startDot];
        repeat match goal with
               | |- context [Z.eqb ?a ?b] => destruct (Z.eqb_spec a b)
               end;
        cbn [negb Path.endPos Path.startDot]; lia. }
    destruct H2 as [He2 Hd2].
    destruct (IH (i - 1)%Z st2 Hs ltac:(lia) ltac:(lia) (or_intror He2) Hd2) as [He3 Hd3].
    split; [|exact Hd3].
    right. destruct He3 as [[He3 Hrs]|He3]; [|exact He3].
    subst rs. cbn [Path.scan_loop] in He3. lia.
Qed.

(** The extension of a name without separators is a suffix of the name. *)
Lemma extname_suffix (p : string) :
  Str.contains_char Path.slash p = false ->
  exists stem : string, p = stem +:+ Path.extname p.
Proof.
  intros Hs. unfold Path.extname.
  pose proof (scan_loop_plain (Z.of_nat (String.length p)) (Str.rev p)
                ltac:(lia) (Z.of_nat (String.length p) - 1) Path.scan0) as H.
  rewrite contains_char_rev, rev_length in H.
  specialize (H Hs eq_refl ltac:(lia) (or_introl (conj eq_refl eq_refl)) (or_introl eq_refl)).
  cbv zeta in H. destruct H as [He Hd].
  set (st := Path.scan_loop _ _ _) in *.
  destruct (Z.eqb_spec (Path.startDot st) (-1)) as [|Hd'];
    [exists p; cbn [orb]; now rewrite append_nil_r|].
  destruct (Z.eqb_spec (Path.endPos st) (-1)) as [|He'];
    [exists p; cbn [orb]; now rewrite append_nil_r|].
  cbn [orb].
  match goal with |- context [if ?b then _ else _] => destruct b end;
    [exists p; now rewrite append_nil_r|].
  destruct He as [[He _]|He]; [congruence|].
  destruct Hd as [Hd|Hd]; [congruence|].
  exists (String.substring 0 (Z.to_nat (Path.startDot st)) p).
  unfold Path.slice. rewrite He.
  replace (Z.to_nat (Z.of_nat (String.length p) - Path.startDot st))
    with (String.length p - Z.to_nat (Path.startDot st))%nat by lia.
  apply split_at. lia.
Qed.

End PathFacts.

(** ** Running the handlers *)

Module Run.
Import Server.

#[global] Arguments error_body : simpl never.
#[global] Arguments error_details_body : simpl never.
#[global] Arguments fileToDataUrlResponse : simpl never.
#[global] Arguments obj : simpl never.
#[global] Arguments Path.join : simpl never.
#[global] Arguments Path.extname : simpl never.
#[global] Arguments formatArgs : simpl never.
#[global] Arguments audioMimeType : simpl never.
#[global] Arguments Str.toLowerCase : simpl never.
#[global] Arguments Js.includes : simpl never.
#[global] Arguments Pattern.replace_extension : simpl never.
#[global] Arguments Pattern.replace_suffix_ci : simpl never.
#[global] Arguments Num.of_Z : simpl never.
#[global] Arguments Num.div : simpl never.
#[global] Arguments settle : simpl never.

(** Unfolds the control operators of the handlers and computes as far as
    the data allows. *)
Ltac unfold_ops :=
  unfold safeUnlink, try_catch_finally, try_catch, unlinkAsync, readFileAsync,
    libre_convertAsync, sharp_toBuffer, run_ffmpeg, uuidv4,
    send, console_error, emit, bind, ret, return_, throw, attempt, start.

(** Rewrites with the equations at hand that decide a test of the goal. *)
Ltac use_eqs :=
  repeat match goal with
         | H : ?x = _ |- context [?x] => rewrite H
         end.

(** Splits on the presence of the files the handler touches. *)
Ltac split_lookups :=
  repeat match goal with
         | |- context [match ?m !! ?p with Some _ => _ | None => _ end] =>
             destruct (m !! p) eqn:?
         end.

Ltac run := unfold_ops; repeat (progress (cbn; use_eqs)).

End Run.

(** ** The envelope *)

Module EnvelopeFacts.
Import Server.

(** A property of [extra] is a property of the envelope. *)
Lemma get_extra (buf : list byte) (mime name : string) (extra : gmap string value)
  (k : string) (v : value) :
  extra !! k = Some v ->
  Js.get (fileToDataUrlResponse buf mime name extra) k = v.
Proof.
  intros H. unfold fileToDataUrlResponse, Js.get.
  now rewrite (lookup_union_Some_l _ _ _ _ H).
Qed.

(** The three fixed properties, when [extra] does not redefine them. *)
Lemma get_fileName (buf : list byte) (mime name : string) (extra : gmap string value) :
  extra !! "fileName" = None ->
  Js.get (fileToDataUrlResponse buf mime name extra) "fileName" = VStr name.
Proof.
  intros H. unfold fileToDataUrlResponse, Js.get.
  rewrite (lookup_union_r _ _ _ H). reflexivity.
Qed.

Lemma get_mimeType (buf : list byte) (mime name : string) (extra : gmap string value) :
  extra !! "mimeType" = None ->
  Js.get (fileToDataUrlResponse buf mime name extra) "mimeType" = VStr mime.
Proof.
  intros H. unfold fileToDataUrlResponse, Js.get.
  rewrite (lookup_union_r _ _ _ H). reflexivity.
Qed.

Lemma get_dataUrl (buf : list byte) (mime name : string) (extra : gmap string value) :
  extra !! "dataUrl" = None ->
  Js.get (fileToDataUrlResponse buf mime name extra) "dataUrl"
  = VStr ("data:" +:+ mime +:+ ";base64," +:+ Base64.encode buf).
Proof.
  intros H. unfold fileToDataUrlResponse, Js.get.
  rewrite (lookup_union_r _ _ _ H). reflexivity.
Qed.

(** The payload of the data URL decodes to the bytes handed to
    [fileToDataUrlResponse]. *)
Lemma dataUrl_round_trip (buf : list byte) (mime name : string)
  (extra : gmap string value) :
  extra !! "dataUrl" = None ->
  exists payload : string,
    Js.get (fileToDataUrlResponse buf mime name extra) "dataUrl"
    = VStr ("data:" +:+ mime +:+ ";base64," +:+ payload)
    /\ Base64.decode payload = Some buf.
Proof.
  intros H. exists (Base64.encode buf).
  split; [now apply get_dataUrl | apply Base64Facts.decode_encode].
Qed.

End EnvelopeFacts.

(** ** The BMI calculator *)

Module BmiFacts.
Import Server Run SpecFloat.

(** The test of the route rejects exactly the pairs that are not both
    above zero. *)
Lemma reject_test (h w : Num.number) :
  Num.falsy h || Num.falsy w || Num.leb h Num.pos_zero || Num.leb w Num.pos_zero
  = negb (Num.ltb Num.pos_zero h && Num.ltb Num.pos_zero w).
Proof.
  destruct h as [[]|[]| |[] ? ?], w as [[]|[]| |[] ? ?]; reflexivity.
Qed.

(** The run of the route on a body whose two fields [Number] converts. *)
Lemma calc_bmi_converted (body : value) (h w : Num.number)
  (fs : gmap string (list byte)) (k : nat) :
  Js.ToNumber (Js.get body "heightCm") = inl h ->
  Js.ToNumber (Js.get body "weightKg") = inl w ->
  calc_bmi body (start fs k)
  = if Num.ltb Num.pos_zero h && Num.ltb Num.pos_zero w
    then (Normal tt,
          mkWorld fs k
            [Send 200
               (obj [("bmi", VNum (Num.toFixed2 (bmi_of h w)));
                     ("category", VStr (fst (categorize (bmi_of h w))));
                     ("message", VStr (snd (categorize (bmi_of h w))));
                     ("ranges", ranges)])])
    else (Return,
          mkWorld fs k
            [Send 400 (error_body "heightCm and weightKg must be positive numbers")]).
Proof.
  intros Hh Hw. unfold calc_bmi, bind, attempt. rewrite Hh, Hw, reject_test.
  destruct (Num.ltb Num.pos_zero h && Num.ltb Num.pos_zero w); cbn [negb].
  - destruct (categorize (bmi_of h w)) as [category message]. reflexivity.
  - reflexivity.
Qed.

Lemma calc_bmi_responses (body : value) (h w : Num.number) :
  Js.ToNumber (Js.get body "heightCm") = inl h ->
  Js.ToNumber (Js.get body "weightKg") = inl w ->
  responses (bmi_log body)
  = if Num.ltb Num.pos_zero h && Num.ltb Num.pos_zero w
    then [(200%Z,
           obj [("bmi", VNum (Num.toFixed2 (bmi_of h w)));
                ("category", VStr (fst (categorize (bmi_of h w))));
                ("message", VStr (snd (categorize (bmi_of h w))));
                ("ranges", ranges)])]
    else [(400%Z, error_body "heightCm and weightKg must be positive numbers")].
Proof.
  intros Hh Hw. unfold bmi_log. rewrite (calc_bmi_converted body h w ∅ 0 Hh Hw).
  destruct (Num.ltb Num.pos_zero h && Num.ltb Num.pos_zero w); reflexivity.
Qed.

(** [Number] returns unless the value is unconvertible. *)
Lemma ToNumber_cases (v : value) :
  (Js.unconvertible v = false /\ Js.ToNumber v = inl (Js.to_number v))
  \/ (Js.unconvertible v = true /\ Js.ToNumber v = inr Js.cannot_convert).
Proof. unfold Js.ToNumber. destruct (Js.unconvertible v); auto. Qed.

(** The run of the route on a body with a field that [Number] cannot
    convert: the error leaves the handler before anything is sent. *)
Lemma calc_bmi_throws (body : value) (fs : gmap string (list byte)) (k : nat) :
  Js.unconvertible (Js.get body "heightCm") = true
  \/ Js.unconvertible (Js.get body "weightKg") = true ->
  calc_bmi body (start fs k) = (Throw Js.cannot_convert, start fs k).
Proof.
  intros H. unfold calc_bmi, bind, attempt.
  destruct (ToNumber_cases (Js.get body "heightCm")) as [[Uh Eh]|[Uh Eh]]; rewrite Eh;
    [|reflexivity].
  destruct (ToNumber_cases (Js.get body "weightKg")) as [[Uw Ew]|[Uw Ew]]; rewrite Ew;
    [|reflexivity].
  destruct H; congruence.
Qed.

(** The integer [n] of [toFixed(2)] is within half a unit of a hundred
    times the number printed, [m * 2 ^ e]; the inequality is stated on
    integers, both sides scaled by the power of two that clears the
    denominator. *)
Lemma hundredths_nearest (m : positive) (e : Z) :
  (2 * Z.abs (Num.hundredths m e * 2 ^ Z.max 0 (- e) - 100 * Z.pos m * 2 ^ Z.max 0 e)
   <= 2 ^ Z.max 0 (- e))%Z.
Proof.
  destruct e as [|k|k]; cbn [Num.hundredths Z.opp].
  - rewrite Z.max_id, !Z.pow_0_r. lia.
  - rewrite Z.max_l by lia. rewrite (Z.max_r 0 (Z.pos k)) by lia.
    rewrite Z.pow_0_r. lia.
  - rewrite Z.max_r by lia. rewrite (Z.max_l 0 (Z.neg k)) by lia.
    rewrite Z.pow_0_r, Z.pow_add_r by lia. change (2 ^ 1)%Z with 2%Z.
    change (- Z.neg k)%Z with (Z.pos k).
    assert (Hpos : (0 < 2 ^ Z.pos k)%Z) by (apply Z.pow_pos_nonneg; lia).
    set (d := (2 ^ Z.pos k)%Z) in *.
    pose proof (Z.div_mod (200 * Z.pos m + d) (d * 2) ltac:(lia)) as Hdm.
    pose proof (Z.mod_pos_bound (200 * Z.pos m + d) (d * 2) ltac:(lia)) as Hb.
    set (q := ((200 * Z.pos m + d) / (d * 2))%Z) in *.
    set (r := ((200 * Z.pos m + d) mod (d * 2))%Z) in *.
    clearbody d q r. rewrite Z.mul_1_r. lia.
Qed.

(** The category is read off three comparisons in a row. *)
Lemma categorize_fst (bmi : Num.number) :
  fst (categorize bmi)
  = if Num.ltb bmi n18_5 then "Underweight"
    else if Num.ltb bmi n25 then "Normal"
    else if Num.ltb bmi n30 then "Overweight"
    else "Obesity".
Proof.
  unfold categorize.
  destruct (Num.ltb bmi n18_5), (Num.ltb bmi n25), (Num.ltb bmi n30); reflexivity.
Qed.

(** C3. For inputs above zero the answer carries, as [bmi], the weight
    divided by the square of a hundredth of the height, printed with two
    decimals and read back (for a finite quotient below [10 ^ 21]: the
    number nearest to [n / 100], for an integer [n] within half a unit of a
    hundred times the quotient), and as [category] the result of the
    comparisons with 18.5, 25 and 30, each bound belonging to the category
    above it: a quotient of exactly 18.5 is Normal, of exactly 25
    Overweight, of exactly 30 Obesity. A height of 180 and a weight of 75
    give the bmi 23.15 and the category Normal. *)
Theorem bmi_value_and_category :
  (forall (body : value) (h w : Num.number),
     Js.ToNumber (Js.get body "heightCm") = inl h ->
     Js.ToNumber (Js.get body "weightKg") = inl w ->
     let heightM := Num.div h n100 in
     let bmi := Num.div w (Num.mul heightM heightM) in
     Num.ltb Num.pos_zero h = true ->
     Num.ltb Num.pos_zero w = true ->
     exists answer : value,
       responses (bmi_log body) = [(200%Z, answer)]
       /\ Js.get answer "bmi" = VNum (Num.toFixed2 bmi)
       /\ (forall (s : bool) (m : positive) (e : Z),
             bmi = S754_finite s m e ->
             Num.at_least_1e21 m e = false ->
             exists n : Z,
               Num.toFixed2 bmi = Num.of_decimal s n (-2)
               /\ (2 * Z.abs (n * 2 ^ Z.max 0 (- e) - 100 * Z.pos m * 2 ^ Z.max 0 e)
                   <= 2 ^ Z.max 0 (- e))%Z)
       /\ Js.get answer "category"
          = VStr (if Num.ltb bmi n18_5 then "Underweight"
                  else if Num.ltb bmi n25 then "Normal"
                  else if Num.ltb bmi n30 then "Overweight"
                  else "Obesity")
       /\ (bmi = Num.StringToNumber "18.5" -> Js.get answer "category" = VStr "Normal")
       /\ (bmi = Num.StringToNumber "25" -> Js.get answer "category" = VStr "Overweight")
       /\ (bmi = Num.StringToNumber "30" -> Js.get answer "category" = VStr "Obesity"))
  /\ responses
       (bmi_log (obj [("heightCm", VNum (Num.of_Z 180)); ("weightKg", VNum (Num.of_Z 75))]))
     = [(200%Z,
         obj [("bmi", VNum (Num.StringToNumber "23.15"));
              ("category", VStr "Normal");
              ("message",
                VStr "Your BMI is in the normal range. Keep maintaining a healthy lifestyle.");
              ("ranges", ranges)])].
Proof.
  split.
  - intros body h w Eh Ew heightM bmi Hh Hw.
    pose proof (calc_bmi_responses body h w Eh Ew) as H.
    rewrite Hh, Hw in H. cbn [andb] in H.
    change (bmi_of h w) with bmi in H.
    eexists. split; [exact H|].
    split; [reflexivity|].
    split.
    { intros s m e Hb Hbig. exists (Num.hundredths m e).
      split; [|apply hundredths_nearest].
      rewrite Hb. cbn [Num.toFixed2]. now rewrite Hbig. }
    assert (Hcat : Js.get
                     (obj [("bmi", VNum (Num.toFixed2 bmi));
                           ("category", VStr (fst (categorize bmi)));
                           ("message", VStr (snd (categorize bmi)));
                           ("ranges", ranges)]) "category"
                   = VStr (fst (categorize bmi))) by reflexivity.
    rewrite Hcat, categorize_fst.
    split; [reflexivity|].
    repeat split; intros ->; reflexivity.
  - vm_compute. reflexivity.
Qed.

(** A height of 200 and a weight of 74: the quotient is exactly 18.5. *)
Lemma bmi_value_and_category_witness :
  Num.ltb Num.pos_zero (Num.of_Z 200) = true
  /\ Num.ltb Num.pos_zero (Num.of_Z 74) = true
  /\ Num.div (Num.of_Z 74) (Num.mul (Num.div (Num.of_Z 200) n100) (Num.div (Num.of_Z 200) n100))
     = Num.StringToNumber "18.5"
  /\ exists answer : value,
       responses
         (bmi_log (obj [("heightCm", VNum (Num.of_Z 200)); ("weightKg", VNum (Num.of_Z 74))]))
       = [(200%Z, answer)]
       /\ Js.get answer "bmi" = VNum (Num.StringToNumber "18.5")
       /\ Js.get answer "category" = VStr "Normal".
Proof.
  split; [reflexivity|]. split; [reflexivity|]. split; [vm_compute; reflexivity|].
  destruct (proj1 bmi_value_and_category
              (obj [("heightCm", VNum (Num.of_Z 200)); ("weightKg", VNum (Num.of_Z 74))])
              _ _ eq_refl eq_refl eq_refl eq_refl)
    as (answer & Hresp & Hbmi & _ & _ & Hb & _).
  exists answer. split; [exact Hresp|]. split.
  - rewrite Hbmi. vm_compute. reflexivity.
  - apply Hb. vm_compute. reflexivity.
Defined.

(** The category is decided on the quotient, the [bmi] of the answer is
    the quotient rounded: a height of 100 and a weight of 18.496 are
    answered with the bmi 18.5 and the category Underweight. *)
Lemma category_precedes_rounding :
  responses
    (bmi_log (obj [("heightCm", VNum (Num.of_Z 100));
                   ("weightKg", VNum (Num.StringToNumber "18.496"))]))
  = [(200%Z,
      obj [("bmi", VNum (Num.StringToNumber "18.5"));
           ("category", VStr "Underweight");
           ("message",
             VStr "Your BMI is below the normal range. Consider consulting a nutritionist or doctor.");
           ("ranges", ranges)])].
Proof. vm_compute. reflexivity. Qed.



End BmiFacts.

(** ** The document routes *)

Module DocFacts.
Import Server Run StrFacts.

Section Documents.

Variable uuid_source : nat -> string.
Variable libre_convert : list byte -> string -> list byte + string.

Let dlog := docx_log uuid_source libre_convert.

Ltac open_docx :=
  subst dlog; unfold docx_log, docx_to_pdf in *; cbn [req_file req_fields] in *.

(** A name whose extension is not [.docx]: the explicit removal before the
    early [return] is followed by the removal of the [finally] block. *)
Lemma docx_rejected (f : Upload.file) (fs : gmap string (list byte)) (k : nat) :
  String.eqb (Str.toLowerCase (Path.extname (Upload.originalname f))) ".docx" = false ->
  responses (dlog f fs k) = [(400%Z, error_body "Only .docx files are allowed")]
  /\ conversions (dlog f fs k) = []
  /\ unlink_attempts (Upload.path f) (dlog f fs k) = 2.
Proof.
  intros H. open_docx. run.
  destruct (fs !! Upload.path f) eqn:E; cbn.
  - rewrite lookup_delete_eq. cbn. rewrite String.eqb_refl. auto.
  - rewrite E. cbn. rewrite String.eqb_refl. auto.
Qed.

Lemma docx_converted (f : Upload.file) (fs : gmap string (list byte)) (k : nat)
  (buf out : list byte) :
  String.eqb (Str.toLowerCase (Path.extname (Upload.originalname f))) ".docx" = true ->
  fs !! Upload.path f = Some buf ->
  libre_convert buf ".pdf" = inl out ->
  responses (dlog f fs k)
  = [(200%Z,
      fileToDataUrlResponse out "application/pdf"
        (Pattern.replace_suffix_ci ".docx" ".pdf" (Upload.originalname f)) ∅)]
  /\ conversions (dlog f fs k) = [(buf, ".pdf")]
  /\ unlink_attempts (Upload.path f) (dlog f fs k) = 1.
Proof.
  intros H1 H2 H3. open_docx. run. rewrite String.eqb_refl. auto.
Qed.

Lemma docx_engine_failed (f : Upload.file) (fs : gmap string (list byte)) (k : nat)
  (buf : list byte) (message : string) :
  String.eqb (Str.toLowerCase (Path.extname (Upload.originalname f))) ".docx" = true ->
  fs !! Upload.path f = Some buf ->
  libre_convert buf ".pdf" = inr message ->
  responses (dlog f fs k) = [(500%Z, error_details_body "Conversion failed" message)]
  /\ unlink_attempts (Upload.path f) (dlog f fs k) = 1.
Proof.
  intros H1 H2 H3. open_docx. run. rewrite String.eqb_refl. auto.
Qed.

Lemma docx_unreadable (f : Upload.file) (fs : gmap string (list byte)) (k : nat) :
  String.eqb (Str.toLowerCase (Path.extname (Upload.originalname f))) ".docx" = true ->
  fs !! Upload.path f = None ->
  responses (dlog f fs k)
  = [(500%Z,
      error_details_body "Conversion failed"
        ("ENOENT: no such file or directory, open '" +:+ Upload.path f +:+ "'"))]
  /\ unlink_attempts (Upload.path f) (dlog f fs k) = 1.
Proof.
  intros H1 H2. open_docx. run. rewrite String.eqb_refl. auto.
Qed.

(** The other direction of the document conversion has the same shape. *)
Lemma pdf_rejected (f : Upload.file) (fs : gmap string (list byte)) (k : nat) :
  String.eqb (Str.toLowerCase (Path.extname (Upload.originalname f))) ".pdf" = false ->
  responses (pdf_log libre_convert f fs k)
  = [(400%Z, error_body "Only .pdf files are allowed")]
  /\ conversions (pdf_log libre_convert f fs k) = []
  /\ unlink_attempts (Upload.path f) (pdf_log libre_convert f fs k) = 2.
Proof.
  intros H. unfold pdf_log, pdf_to_docx. cbn [req_file req_fields]. run.
  destruct (fs !! Upload.path f) eqn:E; cbn.
  - rewrite lookup_delete_eq. cbn. rewrite String.eqb_refl. auto.
  - rewrite E. cbn. rewrite String.eqb_refl. auto.
Qed.

Lemma pdf_converted (f : Upload.file) (fs : gmap string (list byte)) (k : nat)
  (buf out : list byte) :
  String.eqb (Str.toLowerCase (Path.extname (Upload.originalname f))) ".pdf" = true ->
  fs !! Upload.path f = Some buf ->
  libre_convert buf ".docx" = inl out ->
  responses (pdf_log libre_convert f fs k)
  = [(200%Z,
      fileToDataUrlResponse out
        "application/vnd.openxmlformats-officedocument.wordprocessingml.document"
        (Pattern.replace_suffix_ci ".pdf" ".docx" (Upload.originalname f)) ∅)]
  /\ unlink_attempts (Upload.path f) (pdf_log libre_convert f fs k) = 1.
Proof.
  intros H1 H2 H3. unfold pdf_log, pdf_to_docx. cbn [req_file req_fields]. run.
  rewrite String.eqb_refl. auto.
Qed.

(** C8. A file whose extension in lower case is not [.docx] is answered
    400 ["Only .docx files are allowed"] and the document engine is not
    called. When the extension is [.docx] and the conversion succeeds, the
    name of the upload (a plain file name, as the upload middleware
    delivers it) ends with [.docx] in some spelling of case, and the
    [fileName] of the answer is that name with this suffix replaced by
    [.pdf]. *)
Theorem docx_extension_check (f : Upload.file) (fs : gmap string (list byte)) (k : nat) :
  let ext := Str.toLowerCase (Path.extname (Upload.originalname f)) in
  (ext <> ".docx" ->
   responses (dlog f fs k) = [(400%Z, error_body "Only .docx files are allowed")]
   /\ conversions (dlog f fs k) = [])
  /\ (ext = ".docx" ->
      Str.contains_char Path.slash (Upload.originalname f) = false ->
      forall buf out : list byte,
        fs !! Upload.path f = Some buf ->
        libre_convert buf ".pdf" = inl out ->
        exists (body : value) (stem suffix : string),
          responses (dlog f fs k) = [(200%Z, body)]
          /\ Upload.originalname f = stem +:+ suffix
          /\ Str.toLowerCase suffix = ".docx"
          /\ Js.get body "fileName" = VStr (stem +:+ ".pdf")).
Proof.
  intros ext. split.
  - intros H. apply String.eqb_neq in H.
    destruct (docx_rejected f fs k H) as (? & ? & _). auto.
  - intros H Hplain buf out Hread Hconv.
    assert (He : String.eqb ext ".docx" = true) by now apply String.eqb_eq.
    destruct (docx_converted f fs k buf out He Hread Hconv) as (Hresp & _ & _).
    destruct (PathFacts.extname_suffix _ Hplain) as [stem Hstem].
    exists (fileToDataUrlResponse out "application/pdf"
              (Pattern.replace_suffix_ci ".docx" ".pdf" (Upload.originalname f)) ∅),
      stem, (Path.extname (Upload.originalname f)).
    split; [exact Hresp|]. split; [exact Hstem|]. split; [exact H|].
    rewrite EnvelopeFacts.get_fileName by reflexivity.
    rewrite Hstem at 1.
    rewrite PathFacts.replace_suffix_ci_app; [reflexivity|].
    fold ext in H |- *. rewrite <- H. apply PathFacts.matches_ci_lower.
Qed.

End Documents.

(** A text file, and a document named in capitals. *)
Lemma docx_extension_check_witness :
  (Str.toLowerCase (Path.extname (Upload.originalname Sample.text_file)) <> ".docx"
   /\ responses (docx_log Sample.uuid_source Sample.libre_ok Sample.text_file Sample.fs0 0)
      = [(400%Z, error_body "Only .docx files are allowed")])
  /\ (Str.toLowerCase (Path.extname (Upload.originalname Sample.docx_file)) = ".docx"
      /\ exists (body : value) (stem suffix : string),
           responses (docx_log Sample.uuid_source Sample.libre_ok Sample.docx_file
                        Sample.fs0 0) = [(200%Z, body)]
           /\ "Report.DOCX" = stem +:+ suffix
           /\ Str.toLowerCase suffix = ".docx"
           /\ Js.get body "fileName" = VStr (stem +:+ ".pdf")).
Proof.
  split.
  - assert (H : Str.toLowerCase (Path.extname (Upload.originalname Sample.text_file))
                <> ".docx") by (vm_compute; discriminate).
    split; [exact H|].
    exact (proj1 (proj1 (docx_extension_check Sample.uuid_source Sample.libre_ok
                           Sample.text_file Sample.fs0 0) H)).
  - split; [reflexivity|].
    exact (proj2 (docx_extension_check Sample.uuid_source Sample.libre_ok
                    Sample.docx_file Sample.fs0 0)
             eq_refl eq_refl _ _ eq_refl eq_refl).
Defined.

(** C1, at a request that fails validation. The text file sent to the
    docx route is the subject of two removal attempts: the one before the
    early [return], which removes it, and the one of the [finally] block,
    which fails and is logged. *)
Theorem docx_rejection_unlinks_twice :
  docx_log Sample.uuid_source Sample.libre_ok Sample.text_file Sample.fs0 0
  = [Unlink Sample.staged;
     Send 400 (error_body "Only .docx files are allowed");
     Unlink Sample.staged;
     ConsoleError
       ["Failed to delete temp file:"; Sample.staged;
        "ENOENT: no such file or directory, unlink '" +:+ Sample.staged +:+ "'"]]
  /\ unlink_attempts Sample.staged
       (docx_log Sample.uuid_source Sample.libre_ok Sample.text_file Sample.fs0 0) = 2.
Proof. split; vm_compute; reflexivity. Qed.

End DocFacts.

(** ** The image route *)

Module ImageFacts.
Import Server Run.

Section Images.

Variable uuid_source : nat -> string.
Variable sharp_jpeg : option (list byte) -> Z -> list byte + string.

Let ilog := image_log uuid_source sharp_jpeg.

Ltac open_image :=
  subst ilog; unfold image_log, image_compress in *; cbn [req_file req_fields] in *.

Lemma image_rejected (f : Upload.file) (fs : gmap string (list byte)) (k : nat) :
  Js.includes ["image/jpeg"; "image/png"; "image/webp"] (Upload.mimetype f) = false ->
  responses (ilog f fs k)
  = [(400%Z, error_body "Only JPEG, PNG, or WebP images are allowed")]
  /\ unlink_attempts (Upload.path f) (ilog f fs k) = 2.
Proof.
  intros H. open_image. run.
  destruct (fs !! Upload.path f) eqn:E; cbn.
  - rewrite lookup_delete_eq. cbn. rewrite String.eqb_refl. auto.
  - rewrite E. cbn. rewrite String.eqb_refl. auto.
Qed.

Lemma image_compressed (f : Upload.file) (fs : gmap string (list byte)) (k : nat)
  (out : list byte) :
  Js.includes ["image/jpeg"; "image/png"; "image/webp"] (Upload.mimetype f) = true ->
  sharp_jpeg (fs !! Upload.path f) 70 = inl out ->
  responses (ilog f fs k)
  = [(200%Z,
      fileToDataUrlResponse out "image/jpeg" (uuid_source k +:+ ".jpg")
        (list_to_map
           [("originalSize", VNum (Num.of_Z (Upload.size f)));
            ("compressedSize", VNum (Num.of_Z (Z.of_nat (List.length out))));
            ("compressionRatio",
              VNum (Num.div (Num.of_Z (Z.of_nat (List.length out)))
                      (Num.of_Z (Upload.size f))))]))]
  /\ unlink_attempts (Upload.path f) (ilog f fs k) = 1.
Proof.
  intros H1 H2. open_image. run.
  split_lookups; cbn; rewrite String.eqb_refl; auto.
Qed.

(** C7. For an accepted image whose compression succeeds, the payload of
    the data URL decodes to a buffer whose length is the [compressedSize]
    of the answer, [originalSize] is the size of the upload, and
    [compressionRatio] is the quotient of the two numbers. *)
Theorem image_sizes (f : Upload.file) (fs : gmap string (list byte)) (k : nat)
  (out : list byte) :
  Js.includes ["image/jpeg"; "image/png"; "image/webp"] (Upload.mimetype f) = true ->
  sharp_jpeg (fs !! Upload.path f) 70 = inl out ->
  exists (answer : value) (payload : string) (decoded : list byte),
    responses (ilog f fs k) = [(200%Z, answer)]
    /\ Js.get answer "dataUrl" = VStr ("data:image/jpeg;base64," +:+ payload)
    /\ Base64.decode payload = Some decoded
    /\ decoded = out
    /\ Js.get answer "compressedSize" = VNum (Num.of_Z (Z.of_nat (List.length decoded)))
    /\ Js.get answer "originalSize" = VNum (Num.of_Z (Upload.size f))
    /\ Js.get answer "compressionRatio"
       = VNum (Num.div (Num.of_Z (Z.of_nat (List.length decoded)))
                 (Num.of_Z (Upload.size f))).
Proof.
  intros Hmime Hsharp.
  destruct (image_compressed f fs k out Hmime Hsharp) as [Hresp _].
  eexists. exists (Base64.encode out), out.
  split; [exact Hresp|].
  split; [now apply EnvelopeFacts.get_dataUrl|].
  split; [apply Base64Facts.decode_encode|].
  split; [reflexivity|].
  repeat split; now apply EnvelopeFacts.get_extra.
Qed.

End Images.

(** A PNG of eight bytes that compresses to five. *)
Lemma image_sizes_witness :
  Js.includes ["image/jpeg"; "image/png"; "image/webp"] (Upload.mimetype Sample.png_file)
  = true
  /\ Sample.sharp_ok (Sample.fs0 !! Upload.path Sample.png_file) 70
     = inl [xff; xd8; xff; xe0; x00]
  /\ exists (answer : value) (payload : string) (decoded : list byte),
       responses (image_log Sample.uuid_source Sample.sharp_ok Sample.png_file Sample.fs0 0)
       = [(200%Z, answer)]
       /\ Js.get answer "dataUrl" = VStr ("data:image/jpeg;base64," +:+ payload)
       /\ Base64.decode payload = Some decoded
       /\ decoded = [xff; xd8; xff; xe0; x00]
       /\ Js.get answer "compressedSize" = VNum (Num.of_Z (Z.of_nat (List.length decoded)))
       /\ Js.get answer "originalSize" = VNum (Num.of_Z 8)
       /\ Js.get answer "compressionRatio"
          = VNum (Num.div (Num.of_Z (Z.of_nat (List.length decoded))) (Num.of_Z 8)).
Proof.
  split; [reflexivity|]. split; [reflexivity|].
  exact (image_sizes Sample.uuid_source Sample.sharp_ok Sample.png_file Sample.fs0 0
           [xff; xd8; xff; xe0; x00] eq_refl eq_refl).
Defined.

End ImageFacts.

(** ** The audio route *)

Module AudioFacts.
Import Server Run StrFacts.

(** A process that writes [chunks] and then closes with [code]. *)
Lemma settle_close (chunks : list string) (code : option Z) (rest : list proc_event)
  (acc : string) :
  settle (map StderrData chunks ++ ProcClose code :: rest) acc
  = match code with
    | Some 0%Z => Normal tt
    | _ => Throw ("ffmpeg exited with code "
                  +:+ match code with Some n => Js.string_of_Z n | None => "null" end
                  +:+ ": " +:+ (acc +:+ stderr_text chunks))
    end.
Proof.
  revert acc. induction chunks as [|c chunks IH]; intros acc.
  - cbn [map app stderr_text fold_right]. rewrite append_nil_r. reflexivity.
  - cbn [map app]. change (settle (StderrData c :: ?l) acc) with (settle l (acc +:+ c)).
    rewrite IH. cbn [stderr_text fold_right]. now rewrite append_assoc.
Qed.

(** A process that writes [chunks] and then fails to be dispatched. *)
Lemma settle_error (chunks : list string) (message : string) (rest : list proc_event)
  (acc : string) :
  settle (map StderrData chunks ++ ProcError message :: rest) acc = Throw message.
Proof.
  revert acc. induction chunks as [|c chunks IH]; intros acc; [reflexivity|].
  cbn [map app]. change (settle (StderrData c :: ?l) acc) with (settle l (acc +:+ c)).
  apply IH.
Qed.

Lemma allowed_output_cases (s : string) :
  Js.includes allowedOutputFormats s = true ->
  s = "mp3" \/ s = "aac" \/ s = "wav" \/ s = "ogg".
Proof.
  unfold allowedOutputFormats. cbn [Js.includes]. intros H.
  repeat (apply orb_prop in H; destruct H as [H|H]);
    try (apply String.eqb_eq in H; subst; auto); discriminate.
Qed.

(** What the route reads from a form of text fields. *)
Lemma text_fields_default (fields : gmap string string) (k d : string) :
  default (FText d) (text_fields fields !! k) = FText (default d (fields !! k)).
Proof.
  unfold text_fields. rewrite lookup_fmap. destruct (fields !! k); reflexivity.
Qed.

Section Audio.

Variable uploadDir : string.
Variable ffmpegPath : string.
Variable uuid_source : nat -> string.
Variable ffmpeg :
  list field -> gmap string (list byte) -> list proc_event * gmap string (list byte).

Let audio := audio_convert uploadDir ffmpegPath uuid_source ffmpeg.
Let alog := audio_log uploadDir ffmpegPath uuid_source ffmpeg.
Let outputPath := audio_outputPath uploadDir uuid_source.
Let ffArgs := audio_ffArgs uploadDir uuid_source.

Ltac open_audio :=
  subst audio alog outputPath ffArgs;
  unfold audio_log, audio_ffArgs, audio_outputPath, safeFormat_of, bitrate_of,
    audio_convert in *;
  cbn [req_file req_fields app] in *;
  rewrite ?text_fields_default.

Lemma invalid_format_rejected (f : Upload.file) (fields : gmap string string)
  (fs : gmap string (list byte)) (k : nat) :
  Js.includes allowedOutputFormats (safeFormat_of fields) = false ->
  responses (alog f fields fs k) = [(400%Z, error_body "Invalid target format")]
  /\ spawns (alog f fields fs k) = []
  /\ unlink_attempts (Upload.path f) (alog f fields fs k) = 1.
Proof.
  intros H. open_audio.
  run. split_lookups; cbn; rewrite String.eqb_refl; auto.
Qed.

Lemma invalid_mime_rejected (f : Upload.file) (fields : gmap string string)
  (fs : gmap string (list byte)) (k : nat) :
  Js.includes allowedOutputFormats (safeFormat_of fields) = true ->
  Js.includes allowedInputTypes (Upload.mimetype f) = false ->
  responses (alog f fields fs k)
  = [(400%Z, error_body "Unsupported input audio format")]
  /\ spawns (alog f fields fs k) = []
  /\ unlink_attempts (Upload.path f) (alog f fields fs k) = 1.
Proof.
  intros H1 H2. open_audio.
  run. split_lookups; cbn; rewrite String.eqb_refl; auto.
Qed.

Lemma accepted_spawns (f : Upload.file) (fields : gmap string string)
  (fs : gmap string (list byte)) (k : nat) :
  Js.includes allowedOutputFormats (safeFormat_of fields) = true ->
  Js.includes allowedInputTypes (Upload.mimetype f) = true ->
  spawns (alog f fields fs k) = [(ffmpegPath, ffArgs f fields k)].
Proof.
  intros H1 H2. open_audio.
  run.
  destruct (ffmpeg _ _) as [events fs1]. cbn.
  destruct (settle events _); cbn; split_lookups; cbn; reflexivity.
Qed.

(** The transcoder settles normally and its result can be read. *)
Lemma accepted_success (f : Upload.file) (fields : gmap string string)
  (fs fs1 : gmap string (list byte)) (k : nat) (events : list proc_event)
  (buf : list byte) :
  Js.includes allowedOutputFormats (safeFormat_of fields) = true ->
  Js.includes allowedInputTypes (Upload.mimetype f) = true ->
  ffmpeg (ffArgs f fields k) fs = (events, fs1) ->
  settle events EmptyString = Normal tt ->
  fs1 !! outputPath fields k = Some buf ->
  responses (alog f fields fs k)
  = [(200%Z,
      fileToDataUrlResponse buf (audioMimeType (safeFormat_of fields))
        (Pattern.replace_extension ("." +:+ safeFormat_of fields) (Upload.originalname f))
        (list_to_map
           [("targetFormat", VStr (safeFormat_of fields));
            ("bitrate", VStr (bitrate_of fields));
            ("size", VNum (Num.of_Z (Z.of_nat (List.length buf))))]))].
Proof.
  intros H1 H2 H3 H4 H5. open_audio.
  run. split_lookups; cbn; reflexivity.
Qed.

(** The [fileName] of a successful conversion: the extension of the name
    gives way to the target format, and a name without a dot stays as it
    is. *)
Lemma fileName_with_extension (f : Upload.file) (fields : gmap string string)
  (fs fs1 : gmap string (list byte)) (k : nat) (events : list proc_event)
  (buf : list byte) (stem ext : string) :
  Js.includes allowedOutputFormats (safeFormat_of fields) = true ->
  Js.includes allowedInputTypes (Upload.mimetype f) = true ->
  ffmpeg (ffArgs f fields k) fs = (events, fs1) ->
  settle events EmptyString = Normal tt ->
  fs1 !! outputPath fields k = Some buf ->
  Upload.originalname f = stem +:+ String Path.dot ext ->
  ext <> EmptyString ->
  Str.contains_char Path.dot ext = false ->
  exists answer : value,
    responses (alog f fields fs k) = [(200%Z, answer)]
    /\ Js.get answer "fileName" = VStr (stem +:+ "." +:+ safeFormat_of fields).
Proof.
  intros H1 H2 H3 H4 H5 Hname Hne Hdot.
  eexists. split; [exact (accepted_success f fields fs fs1 k events buf H1 H2 H3 H4 H5)|].
  rewrite EnvelopeFacts.get_fileName by reflexivity.
  rewrite Hname. now rewrite PathFacts.replace_extension_app.
Qed.

Lemma fileName_without_dot (f : Upload.file) (fields : gmap string string)
  (fs fs1 : gmap string (list byte)) (k : nat) (events : list proc_event)
  (buf : list byte) :
  Js.includes allowedOutputFormats (safeFormat_of fields) = true ->
  Js.includes allowedInputTypes (Upload.mimetype f) = true ->
  ffmpeg (ffArgs f fields k) fs = (events, fs1) ->
  settle events EmptyString = Normal tt ->
  fs1 !! outputPath fields k = Some buf ->
  Str.contains_char Path.dot (Upload.originalname f) = false ->
  exists answer : value,
    responses (alog f fields fs k) = [(200%Z, answer)]
    /\ Js.get answer "fileName" = VStr (Upload.originalname f).
Proof.
  intros H1 H2 H3 H4 H5 Hdot.
  eexists. split; [exact (accepted_success f fields fs fs1 k events buf H1 H2 H3 H4 H5)|].
  rewrite EnvelopeFacts.get_fileName by reflexivity.
  now rewrite PathFacts.replace_extension_plain.
Qed.

(** The promise around the transcoder is rejected. *)
Lemma accepted_failure (f : Upload.file) (fields : gmap string string)
  (fs fs1 : gmap string (list byte)) (k : nat) (events : list proc_event)
  (message : string) :
  Js.includes allowedOutputFormats (safeFormat_of fields) = true ->
  Js.includes allowedInputTypes (Upload.mimetype f) = true ->
  ffmpeg (ffArgs f fields k) fs = (events, fs1) ->
  settle events EmptyString = Throw message ->
  responses (alog f fields fs k)
  = [(500%Z, error_details_body "Audio conversion failed" message)].
Proof.
  intros H1 H2 H3 H4. open_audio.
  run. split_lookups; cbn; reflexivity.
Qed.

(** Whenever the promise around the transcoder settles, the staged upload
    and the output path are each the subject of one removal attempt. *)
Lemma accepted_unlinks (f : Upload.file) (fields : gmap string string)
  (fs fs1 : gmap string (list byte)) (k : nat) (events : list proc_event) :
  Js.includes allowedOutputFormats (safeFormat_of fields) = true ->
  Js.includes allowedInputTypes (Upload.mimetype f) = true ->
  ffmpeg (ffArgs f fields k) fs = (events, fs1) ->
  settle events EmptyString <> Pending ->
  Upload.path f <> outputPath fields k ->
  unlink_attempts (Upload.path f) (alog f fields fs k) = 1
  /\ unlink_attempts (outputPath fields k) (alog f fields fs k) = 1.
Proof.
  intros H1 H2 H3 H4 H5.
  assert (E1 : String.eqb (Upload.path f) (outputPath fields k) = false)
    by now apply String.eqb_neq.
  assert (E2 : String.eqb (outputPath fields k) (Upload.path f) = false)
    by (apply String.eqb_neq; congruence).
  open_audio. run.
  destruct (settle events EmptyString) eqn:E; [| | |congruence];
    cbn; split_lookups; cbn; rewrite ?String.eqb_refl, ?E1, ?E2; auto.
Qed.

(** A request without a file is answered at once. *)
Lemma no_file_rejected (fields : gmap string field) (fs : gmap string (list byte))
  (k : nat) :
  log (snd (audio_convert uploadDir ffmpegPath uuid_source ffmpeg
              (mkUploadRequest None fields) (start fs k)))
  = [Send 400 (error_body "No file uploaded")].
Proof. reflexivity. Qed.

(** C6. For an accepted audio request the transcoder is spawned once, with
    the arguments [-y], [-i], the staged input path, [-vn], the codec
    arguments of the format and the allocated output path, in this order.
    For mp3, aac and ogg the codec arguments end with [-b:a] and the
    bitrate field as supplied (["192k"] when absent); for wav they are
    [-codec:a pcm_s16le] whatever the bitrate. *)
Theorem audio_ffmpeg_arguments (f : Upload.file) (fields : gmap string string)
  (fs : gmap string (list byte)) (k : nat) :
  let safeFormat := Str.toLowerCase (default "mp3" (fields !! "targetFormat")) in
  let bitrate := match fields !! "bitrate" with Some b => b | None => "192k" end in
  Js.includes allowedOutputFormats safeFormat = true ->
  Js.includes allowedInputTypes (Upload.mimetype f) = true ->
  exists codec : list string,
    spawns (alog f fields fs k)
    = [(ffmpegPath,
        map FText
          (["-y"; "-i"; Upload.path f; "-vn"] ++ codec
             ++ [Path.join uploadDir (uuid_source k +:+ "." +:+ safeFormat)]))]
    /\ (safeFormat = "mp3" \/ safeFormat = "aac" \/ safeFormat = "wav" \/ safeFormat = "ogg")
    /\ (safeFormat = "mp3" -> codec = ["-codec:a"; "libmp3lame"; "-b:a"; bitrate])
    /\ (safeFormat = "aac" -> codec = ["-codec:a"; "aac"; "-b:a"; bitrate])
    /\ (safeFormat = "ogg" -> codec = ["-codec:a"; "libvorbis"; "-b:a"; bitrate])
    /\ (safeFormat = "wav" -> codec = ["-codec:a"; "pcm_s16le"]).
Proof.
  intros safeFormat bitrate Hfmt Hmime.
  pose proof (accepted_spawns f fields fs k Hfmt Hmime) as S.
  pose proof (allowed_output_cases _ Hfmt) as Hcases.
  assert (Hargs : exists codec : list string,
             formatArgs safeFormat (FText bitrate) = map FText codec
             /\ (safeFormat = "mp3" -> codec = ["-codec:a"; "libmp3lame"; "-b:a"; bitrate])
             /\ (safeFormat = "aac" -> codec = ["-codec:a"; "aac"; "-b:a"; bitrate])
             /\ (safeFormat = "ogg" -> codec = ["-codec:a"; "libvorbis"; "-b:a"; bitrate])
             /\ (safeFormat = "wav" -> codec = ["-codec:a"; "pcm_s16le"])).
  { destruct Hcases as [E|[E|[E|E]]]; rewrite E;
      [exists ["-codec:a"; "libmp3lame"; "-b:a"; bitrate]
      |exists ["-codec:a"; "aac"; "-b:a"; bitrate]
      |exists ["-codec:a"; "pcm_s16le"]
      |exists ["-codec:a"; "libvorbis"; "-b:a"; bitrate]];
      (split; [reflexivity|]); repeat split; intros H; (reflexivity || discriminate H). }
  destruct Hargs as (codec & Hcodec & Htable).
  exists codec. split; [|split; [exact Hcases | exact Htable]].
  rewrite S. subst ffArgs.
  unfold audio_ffArgs, audio_outputPath, safeFormat_of, bitrate_of.
  fold safeFormat. change (default "192k" (fields !! "bitrate")) with bitrate.
  rewrite Hcodec, !map_app. reflexivity.
Qed.

(** C5, amended. A request with a file (a request without one is answered
    400 ["No file uploaded"]) whose target format in lower case is none of
    mp3, aac, wav, ogg is answered 400 ["Invalid target format"]; a request
    whose target format is allowed and whose file has a MIME type outside
    the allow-list is answered 400 ["Unsupported input audio format"]. In
    both cases no process is spawned. *)
Theorem audio_validation (f : Upload.file) (fields : gmap string string)
  (fs : gmap string (list byte)) (k : nat) :
  let safeFormat := Str.toLowerCase (default "mp3" (fields !! "targetFormat")) in
  (Js.includes allowedOutputFormats safeFormat = false ->
   responses (alog f fields fs k) = [(400%Z, error_body "Invalid target format")]
   /\ spawns (alog f fields fs k) = [])
  /\ (Js.includes allowedOutputFormats safeFormat = true ->
      Js.includes allowedInputTypes (Upload.mimetype f) = false ->
      responses (alog f fields fs k)
      = [(400%Z, error_body "Unsupported input audio format")]
      /\ spawns (alog f fields fs k) = []).
Proof.
  intros safeFormat. split.
  - intros H. destruct (invalid_format_rejected f fields fs k H) as (? & ? & _). auto.
  - intros H1 H2. destruct (invalid_mime_rejected f fields fs k H1 H2) as (? & ? & _). auto.
Qed.

(** The text the route works with, for any form: ["mp3"] when the field
    [targetFormat] is absent, the string of its value otherwise. *)
Lemma supplied_text (fields : gmap string field) (text : string) :
  (fields !! "targetFormat" = None /\ text = "mp3")
  \/ (exists supplied : field,
        fields !! "targetFormat" = Some supplied /\ Field.ToString supplied = inl text) ->
  Field.ToString (default (FText "mp3") (fields !! "targetFormat")) = inl text.
Proof. intros [[-> ->]|(v & -> & H)]; [reflexivity | exact H]. Qed.

Ltac open_form :=
  subst audio; unfold audio_convert in *; cbn [req_file req_fields app] in *.

Lemma form_rejected (f : Upload.file) (fields : gmap string field)
  (fs : gmap string (list byte)) (k : nat) (text : string) :
  Field.ToString (default (FText "mp3") (fields !! "targetFormat")) = inl text ->
  Js.includes allowedOutputFormats (Str.toLowerCase text) = false ->
  let r := audio (mkUploadRequest (Some f) fields) (start fs k) in
  responses (log (snd r)) = [(400%Z, error_body "Invalid target format")]
  /\ spawns (log (snd r)) = [].
Proof.
  intros Ht H. open_form. run. split_lookups; cbn; auto.
Qed.

Lemma form_spawns (f : Upload.file) (fields : gmap string field)
  (fs : gmap string (list byte)) (k : nat) (text : string) :
  Field.ToString (default (FText "mp3") (fields !! "targetFormat")) = inl text ->
  Js.includes allowedOutputFormats (Str.toLowerCase text) = true ->
  Js.includes allowedInputTypes (Upload.mimetype f) = true ->
  spawns (log (snd (audio (mkUploadRequest (Some f) fields) (start fs k))))
  = [(ffmpegPath,
      [FText "-y"; FText "-i"; FText (Upload.path f); FText "-vn"]
        ++ formatArgs (Str.toLowerCase text) (default (FText "192k") (fields !! "bitrate"))
        ++ [FText (Path.join uploadDir (uuid_source k +:+ "." +:+ Str.toLowerCase text))])].
Proof.
  intros Ht H1 H2. open_form. run.
  destruct (ffmpeg _ _) as [events fs1]. cbn.
  destruct (settle events _); cbn; split_lookups; cbn; reflexivity.
Qed.

Lemma form_success (f : Upload.file) (fields : gmap string field)
  (fs fs1 : gmap string (list byte)) (k : nat) (text : string)
  (events : list proc_event) (buf : list byte) :
  Field.ToString (default (FText "mp3") (fields !! "targetFormat")) = inl text ->
  Js.includes allowedOutputFormats (Str.toLowerCase text) = true ->
  Js.includes allowedInputTypes (Upload.mimetype f) = true ->
  ffmpeg
    ([FText "-y"; FText "-i"; FText (Upload.path f); FText "-vn"]
       ++ formatArgs (Str.toLowerCase text) (default (FText "192k") (fields !! "bitrate"))
       ++ [FText (Path.join uploadDir (uuid_source k +:+ "." +:+ Str.toLowerCase text))])
    fs
  = (events, fs1) ->
  settle events EmptyString = Normal tt ->
  fs1 !! Path.join uploadDir (uuid_source k +:+ "." +:+ Str.toLowerCase text) = Some buf ->
  responses (log (snd (audio (mkUploadRequest (Some f) fields) (start fs k))))
  = [(200%Z,
      fileToDataUrlResponse buf (audioMimeType (Str.toLowerCase text))
        (Pattern.replace_extension ("." +:+ Str.toLowerCase text) (Upload.originalname f))
        (list_to_map
           [("targetFormat", VStr (Str.toLowerCase text));
            ("bitrate", Field.json (default (FText "192k") (fields !! "bitrate")));
            ("size", VNum (Num.of_Z (Z.of_nat (List.length buf))))]))].
Proof.
  intros Ht H1 H2 H3 H4 H5. open_form. cbn [app] in H3.
  run. split_lookups; cbn; reflexivity.
Qed.

(** A [targetFormat] that has no string: the error of [String] leaves the
    handler, which has sent nothing and removed nothing. *)
Lemma form_unconvertible (f : Upload.file) (fields : gmap string field)
  (fs : gmap string (list byte)) (k : nat) (message : string) :
  Field.ToString (default (FText "mp3") (fields !! "targetFormat")) = inr message ->
  audio (mkUploadRequest (Some f) fields) (start fs k) = (Throw message, start fs k).
Proof.
  intros Ht. open_form. unfold bind, attempt. rewrite Ht. reflexivity.
Qed.

(** C9. The route works with the string of the field [targetFormat] in
    lower case, ["mp3"] standing for an absent field; the string is made
    before the allow-list is consulted, so that ["MP3"] passes it. This
    lower-case form decides the rejection, and for an accepted request it
    is the extension of the output path and selects the codec arguments
    (libmp3lame, aac, pcm_s16le or libvorbis) and, when the transcoder
    exits 0 and its result is read, the MIME type ([audio/mpeg] for mp3,
    [audio/] and the format otherwise) and the [targetFormat] echoed in
    the answer. A value that has no string makes [String] throw, before
    the check and before anything is answered. *)
Theorem audio_targetFormat_normalized (f : Upload.file) (fields : gmap string field)
  (fs : gmap string (list byte)) (k : nat) :
  let r := audio (mkUploadRequest (Some f) fields) (start fs k) in
  let bitrate := match fields !! "bitrate" with Some b => b | None => FText "192k" end in
  Js.includes allowedInputTypes (Upload.mimetype f) = true ->
  (forall text : string,
     (fields !! "targetFormat" = None /\ text = "mp3")
     \/ (exists supplied : field,
           fields !! "targetFormat" = Some supplied
           /\ Field.ToString supplied = inl text) ->
     let safeFormat := Str.toLowerCase text in
     let outputPath := Path.join uploadDir (uuid_source k +:+ "." +:+ safeFormat) in
     (Js.includes allowedOutputFormats safeFormat = false ->
      spawns (log (snd r)) = []
      /\ exists answer : value,
           responses (log (snd r)) = [(400%Z, answer)]
           /\ Js.get answer "error" = VStr "Invalid target format")
     /\ (Js.includes allowedOutputFormats safeFormat = true ->
         exists codec : list field,
           spawns (log (snd r))
           = [(ffmpegPath,
               [FText "-y"; FText "-i"; FText (Upload.path f); FText "-vn"] ++ codec
                 ++ [FText outputPath])]
           /\ (safeFormat = "mp3" ->
               codec = [FText "-codec:a"; FText "libmp3lame"; FText "-b:a"; bitrate])
           /\ (safeFormat = "aac" ->
               codec = [FText "-codec:a"; FText "aac"; FText "-b:a"; bitrate])
           /\ (safeFormat = "ogg" ->
               codec = [FText "-codec:a"; FText "libvorbis"; FText "-b:a"; bitrate])
           /\ (safeFormat = "wav" -> codec = [FText "-codec:a"; FText "pcm_s16le"])
           /\ forall (events : list proc_event) (fs1 : gmap string (list byte))
                (buf : list byte),
                ffmpeg
                  ([FText "-y"; FText "-i"; FText (Upload.path f); FText "-vn"] ++ codec
                     ++ [FText outputPath]) fs
                = (events, fs1) ->
                settle events EmptyString = Normal tt ->
                fs1 !! outputPath = Some buf ->
                exists body : value,
                  responses (log (snd r)) = [(200%Z, body)]
                  /\ Js.get body "mimeType"
                     = VStr (if String.eqb safeFormat "mp3" then "audio/mpeg"
                             else "audio/" +:+ safeFormat)
                  /\ Js.get body "targetFormat" = VStr safeFormat))
  /\ (fields !! "targetFormat" = None \/ fields !! "targetFormat" = Some (FText "MP3") ->
      spawns (log (snd r))
      = [(ffmpegPath,
          [FText "-y"; FText "-i"; FText (Upload.path f); FText "-vn";
           FText "-codec:a"; FText "libmp3lame"; FText "-b:a"; bitrate;
           FText (Path.join uploadDir (uuid_source k +:+ ".mp3"))])])
  /\ (forall (supplied : field) (message : string),
        fields !! "targetFormat" = Some supplied ->
        Field.ToString supplied = inr message ->
        r = (Throw message, start fs k)).
Proof.
  intros r bitrate Hmime.
  change (match fields !! "bitrate" with Some b => b | None => FText "192k" end)
    with (default (FText "192k") (fields !! "bitrate")) in bitrate.
  split; [|split].
  - intros text Hsup safeFormat outputPath0.
    pose proof (supplied_text fields text Hsup) as Ht. split.
    + intros H. destruct (form_rejected f fields fs k text Ht H) as [R S].
      split; [exact S|]. eexists. split; [exact R | reflexivity].
    + intros H. exists (formatArgs safeFormat bitrate).
      split; [exact (form_spawns f fields fs k text Ht H Hmime)|].
      repeat split; try (intros E; rewrite E; reflexivity).
      intros events fs1 buf Hrun Hsettle Hread.
      eexists.
      split; [exact (form_success f fields fs fs1 k text events buf
                       Ht H Hmime Hrun Hsettle Hread)|].
      split.
      * rewrite EnvelopeFacts.get_mimeType by reflexivity.
        destruct (allowed_output_cases _ H) as [E|[E|[E|E]]];
          fold safeFormat; rewrite E; reflexivity.
      * now apply EnvelopeFacts.get_extra.
  - intros H.
    assert (Ht : Field.ToString (default (FText "mp3") (fields !! "targetFormat"))
                 = inl (match fields !! "targetFormat" with
                        | Some _ => "MP3"
                        | None => "mp3"
                        end))
      by (destruct H as [->| ->]; reflexivity).
    assert (Hl : Str.toLowerCase (match fields !! "targetFormat" with
                                  | Some _ => "MP3"
                                  | None => "mp3"
                                  end) = "mp3")
      by (destruct (fields !! "targetFormat"); reflexivity).
    pose proof (form_spawns f fields fs k _ Ht) as S. rewrite Hl in S.
    exact (S eq_refl Hmime).
  - intros supplied message Hf Hs.
    apply form_unconvertible. rewrite Hf. exact Hs.
Qed.

(** C2. For an accepted audio request whose transcoder run completes:
    when the process closes with code 0 and the output path is read, the
    answer is a 200 envelope whose [size] is the number of bytes read; when
    it closes with a code other than 0 the answer is a single 500 error
    whose [details] are ["ffmpeg exited with code "], the code, a colon
    and all the text written to standard error before; when the process
    cannot be dispatched the answer is a single 500 error whose [details]
    are the message of the system error. Neither error is an envelope: it
    has no [dataUrl]. *)
Theorem audio_process_outcome (f : Upload.file) (fields : gmap string string)
  (fs : gmap string (list byte)) (k : nat) :
  Js.includes allowedOutputFormats (safeFormat_of fields) = true ->
  Js.includes allowedInputTypes (Upload.mimetype f) = true ->
  forall (chunks : list string) (rest : list proc_event) (fs1 : gmap string (list byte)),
    (forall buf : list byte,
       ffmpeg (ffArgs f fields k) fs
       = (map StderrData chunks ++ ProcClose (Some 0%Z) :: rest, fs1) ->
       fs1 !! outputPath fields k = Some buf ->
       exists body : value,
         responses (alog f fields fs k) = [(200%Z, body)]
         /\ Js.get body "size" = VNum (Num.of_Z (Z.of_nat (List.length buf))))
    /\ (forall code : Z,
          code <> 0%Z ->
          ffmpeg (ffArgs f fields k) fs
          = (map StderrData chunks ++ ProcClose (Some code) :: rest, fs1) ->
          exists body : value,
            responses (alog f fields fs k) = [(500%Z, body)]
            /\ Js.get body "error" = VStr "Audio conversion failed"
            /\ Js.get body "details"
               = VStr ("ffmpeg exited with code " +:+ Js.string_of_Z code +:+ ": "
                       +:+ stderr_text chunks)
            /\ Js.get body "dataUrl" = VUndefined)
    /\ (forall message : string,
          ffmpeg (ffArgs f fields k) fs
          = (map StderrData chunks ++ ProcError message :: rest, fs1) ->
          exists body : value,
            responses (alog f fields fs k) = [(500%Z, body)]
            /\ Js.get body "error" = VStr "Audio conversion failed"
            /\ Js.get body "details" = VStr message
            /\ Js.get body "dataUrl" = VUndefined).
Proof.
  intros Hfmt Hmime chunks rest fs1. split; [|split].
  - intros buf Hrun Hread.
    eexists. split.
    + apply (accepted_success f fields fs fs1 k _ buf Hfmt Hmime Hrun); [|exact Hread].
      apply (settle_close chunks (Some 0%Z)).
    + now apply EnvelopeFacts.get_extra.
  - intros code Hcode Hrun.
    assert (Hs : settle (map StderrData chunks ++ ProcClose (Some code) :: rest) EmptyString
                 = Throw ("ffmpeg exited with code " +:+ Js.string_of_Z code +:+ ": "
                          +:+ stderr_text chunks)).
    { rewrite settle_close. destruct code; [congruence | reflexivity | reflexivity]. }
    eexists.
    split; [exact (accepted_failure f fields fs fs1 k _ _ Hfmt Hmime Hrun Hs)|].
    repeat split; reflexivity.
  - intros message Hrun.
    eexists.
    split; [exact (accepted_failure f fields fs fs1 k _ _ Hfmt Hmime Hrun
                     (settle_error chunks message rest EmptyString))|].
    repeat split; reflexivity.
Qed.

End Audio.

(** C5, as the specification words it, fails. Not every file with a MIME
    type outside the allow-list is answered ["Unsupported input audio
    format"]: a text file sent with the target format "flac" is answered
    ["Invalid target format"], since the format is checked first. *)
Lemma audio_mime_rejection_shadowed :
  ~ (forall (f : Upload.file) (fields : gmap string string)
       (fs : gmap string (list byte)) (k : nat),
       Js.includes allowedInputTypes (Upload.mimetype f) = false ->
       responses (audio_log Sample.uploadDir Sample.ffmpegPath Sample.uuid_source
                    Sample.ffmpeg_ok f fields fs k)
       = [(400%Z, error_body "Unsupported input audio format")]).
Proof.
  intros H.
  specialize (H Sample.text_file {[ "targetFormat" := "flac" ]} Sample.fs0 0%nat eq_refl).
  apply (f_equal (map (fun r : Z * value => Js.get (snd r) "error"))) in H.
  vm_compute in H. discriminate H.
Qed.

(** The target format "flac", and a text file sent for conversion to mp3. *)
Lemma audio_validation_witness :
  (Js.includes allowedOutputFormats (Str.toLowerCase "flac") = false
   /\ responses (audio_log Sample.uploadDir Sample.ffmpegPath Sample.uuid_source
                   Sample.ffmpeg_ok Sample.wav_file {[ "targetFormat" := "flac" ]}
                   Sample.fs0 0)
      = [(400%Z, error_body "Invalid target format")])
  /\ (Js.includes allowedOutputFormats (Str.toLowerCase "mp3") = true
      /\ Js.includes allowedInputTypes (Upload.mimetype Sample.text_file) = false
      /\ responses (audio_log Sample.uploadDir Sample.ffmpegPath Sample.uuid_source
                      Sample.ffmpeg_ok Sample.text_file ∅ Sample.fs0 0)
         = [(400%Z, error_body "Unsupported input audio format")]).
Proof.
  split.
  - split; [reflexivity|].
    apply (audio_validation Sample.uploadDir Sample.ffmpegPath Sample.uuid_source
             Sample.ffmpeg_ok Sample.wav_file {[ "targetFormat" := "flac" ]} Sample.fs0 0).
    reflexivity.
  - split; [reflexivity|]. split; [reflexivity|].
    apply (audio_validation Sample.uploadDir Sample.ffmpegPath Sample.uuid_source
             Sample.ffmpeg_ok Sample.text_file ∅ Sample.fs0 0); reflexivity.
Defined.

(** An upload with the target format "WAV": the transcoder is told to
    write PCM to a path that ends in [.wav], and the answer is typed
    [audio/wav]. *)
Lemma audio_targetFormat_normalized_witness :
  let r :=
    audio_convert Sample.uploadDir Sample.ffmpegPath Sample.uuid_source Sample.ffmpeg_ok
      (mkUploadRequest (Some Sample.wav_file) {[ "targetFormat" := FText "WAV" ]})
      (start Sample.fs0 0) in
  Js.includes allowedInputTypes (Upload.mimetype Sample.wav_file) = true
  /\ spawns (log (snd r))
     = [(Sample.ffmpegPath,
         [FText "-y"; FText "-i"; FText Sample.staged; FText "-vn";
          FText "-codec:a"; FText "pcm_s16le";
          FText "/srv/app/uploads/7d9f1c52-3b7e-4c1a-9c55-000000000000.wav"])]
  /\ exists body : value,
       responses (log (snd r)) = [(200%Z, body)]
       /\ Js.get body "mimeType" = VStr "audio/wav"
       /\ Js.get body "targetFormat" = VStr "wav".
Proof.
  intros r. split; [reflexivity|].
  destruct (proj1 (audio_targetFormat_normalized Sample.uploadDir Sample.ffmpegPath
                     Sample.uuid_source Sample.ffmpeg_ok Sample.wav_file
                     {[ "targetFormat" := FText "WAV" ]} Sample.fs0 0 eq_refl)
              "WAV")
    as [_ Hacc].
  { right. exists (FText "WAV"). split; reflexivity. }
  destruct (Hacc eq_refl) as (codec & Hspawn & _ & _ & _ & Hwav & Hok).
  rewrite (Hwav eq_refl) in Hspawn, Hok.
  split; [exact Hspawn|].
  exact (Hok _ _ [x49; x44; x33; x04] eq_refl eq_refl eq_refl).
Defined.

(** A transcoder that exits 0, one that exits 1 after two chunks of
    diagnostics, and one that cannot be spawned. *)
Lemma audio_process_outcome_witness :
  (exists body : value,
     responses (audio_log Sample.uploadDir Sample.ffmpegPath Sample.uuid_source
                  Sample.ffmpeg_ok Sample.wav_file ∅ Sample.fs0 0)
     = [(200%Z, body)]
     /\ Js.get body "size" = VNum (Num.of_Z 4))
  /\ (exists body : value,
        responses (audio_log Sample.uploadDir Sample.ffmpegPath Sample.uuid_source
                     Sample.ffmpeg_fail Sample.wav_file ∅ Sample.fs0 0)
        = [(500%Z, body)]
        /\ Js.get body "error" = VStr "Audio conversion failed"
        /\ Js.get body "details"
           = VStr "ffmpeg exited with code 1: Invalid data found when processing input"
        /\ Js.get body "dataUrl" = VUndefined)
  /\ (exists body : value,
        responses (audio_log Sample.uploadDir Sample.ffmpegPath Sample.uuid_source
                     Sample.ffmpeg_missing Sample.wav_file ∅ Sample.fs0 0)
        = [(500%Z, body)]
        /\ Js.get body "error" = VStr "Audio conversion failed"
        /\ Js.get body "details"
           = VStr "spawn /srv/app/node_modules/ffmpeg-static/ffmpeg ENOENT"
        /\ Js.get body "dataUrl" = VUndefined).
Proof.
  split; [|split].
  - exact (proj1 (audio_process_outcome Sample.uploadDir Sample.ffmpegPath
                    Sample.uuid_source Sample.ffmpeg_ok Sample.wav_file ∅ Sample.fs0 0
                    eq_refl eq_refl
                    ["size=       4kB time=00:00:01.00"] [] _)
             [x49; x44; x33; x04] eq_refl eq_refl).
  - exact (proj1 (proj2 (audio_process_outcome Sample.uploadDir Sample.ffmpegPath
                    Sample.uuid_source Sample.ffmpeg_fail Sample.wav_file ∅ Sample.fs0 0
                    eq_refl eq_refl
                    ["Invalid data found "; "when processing input"] [] _))
             1%Z ltac:(discriminate) eq_refl).
  - exact (proj2 (proj2 (audio_process_outcome Sample.uploadDir Sample.ffmpegPath
                    Sample.uuid_source Sample.ffmpeg_missing Sample.wav_file ∅ Sample.fs0 0
                    eq_refl eq_refl [] [ProcClose (Some (-2)%Z)] _))
             _ eq_refl).
Defined.

(** C4, at an upload whose name has no extension. The audio route finds
    nothing to replace in the name "song": the answer has the [fileName]
    "song", whose extension is empty, next to the [mimeType] "audio/mpeg".
    Its data URL still decodes to the bytes of the result. *)
Theorem audio_fileName_without_extension :
  exists (answer : value) (payload : string),
    responses (audio_log Sample.uploadDir Sample.ffmpegPath Sample.uuid_source
                 Sample.ffmpeg_ok Sample.bare_wav_file ∅ Sample.fs0 0)
    = [(200%Z, answer)]
    /\ Js.get answer "fileName" = VStr "song"
    /\ Path.extname "song" = EmptyString
    /\ Js.get answer "mimeType" = VStr "audio/mpeg"
    /\ Js.get answer "dataUrl" = VStr ("data:audio/mpeg;base64," +:+ payload)
    /\ Base64.decode payload = Some [x49; x44; x33; x04].
Proof.
  eexists. exists (Base64.encode [x49; x44; x33; x04]).
  split.
  - exact (accepted_success Sample.uploadDir Sample.ffmpegPath Sample.uuid_source
             Sample.ffmpeg_ok Sample.bare_wav_file ∅ Sample.fs0 _ 0 _
             [x49; x44; x33; x04] eq_refl eq_refl eq_refl eq_refl eq_refl).
  - repeat split; vm_compute; reflexivity.
Qed.

(** A wav upload to be converted to ogg at 96k. *)
Lemma audio_ffmpeg_arguments_witness :
  Js.includes allowedOutputFormats (Str.toLowerCase "OGG") = true
  /\ Js.includes allowedInputTypes (Upload.mimetype Sample.wav_file) = true
  /\ exists codec : list string,
       spawns (audio_log Sample.uploadDir Sample.ffmpegPath Sample.uuid_source
                 Sample.ffmpeg_ok Sample.wav_file
                 {[ "targetFormat" := "OGG"; "bitrate" := "96k" ]} Sample.fs0 0)
       = [(Sample.ffmpegPath,
           map FText
             (["-y"; "-i"; Sample.staged; "-vn"] ++ codec
                ++ ["/srv/app/uploads/7d9f1c52-3b7e-4c1a-9c55-000000000000.ogg"]))]
       /\ codec = ["-codec:a"; "libvorbis"; "-b:a"; "96k"].
Proof.
  split; [reflexivity|]. split; [reflexivity|].
  destruct (audio_ffmpeg_arguments Sample.uploadDir Sample.ffmpegPath Sample.uuid_source
              Sample.ffmpeg_ok Sample.wav_file
              {[ "targetFormat" := "OGG"; "bitrate" := "96k" ]} Sample.fs0 0)
    as (codec & Hspawn & _ & _ & _ & Hogg & _); [reflexivity | reflexivity |].
  exists codec. split; [exact Hspawn | exact (Hogg eq_refl)].
Defined.

End AudioFacts.

(** ** Cleanup and answers of the upload routes *)

Module CleanupFacts.
Import Server Run StrFacts.

(** Closes the side goals about the file system after the removals. *)
Ltac fs_done :=
  repeat match goal with
         | |- context [delete ?p ?m !! ?p] => rewrite (lookup_delete_eq m p)
         | H : ?m !! ?p = None |- context [delete ?p ?m] => rewrite (delete_id m p H)
         | H : ?m !! ?p = None |- context [?m !! ?p] => rewrite H
         | |- context [String.eqb ?p ?p] => rewrite (String.eqb_refl p)
         | _ => progress cbn
         end.

Section Routes.

Variable uuid_source : nat -> string.
Variable libre_convert : list byte -> string -> list byte + string.
Variable sharp_jpeg : option (list byte) -> Z -> list byte + string.

(** X2. The docx-to-pdf route never lets an error escape and answers
    every request exactly once, with status 200, 400 or 500; afterwards
    the staged upload is gone and every other file is as before. *)
Theorem docx_route_answers_once_and_cleans (req : upload_request)
  (fs : gmap string (list byte)) (k : nat) :
  let r := docx_to_pdf uuid_source libre_convert req (start fs k) in
  (fst r = Normal tt \/ fst r = Return)
  /\ (exists (status : Z) (body : value),
        responses (log (snd r)) = [(status, body)]
        /\ (status = 200 \/ status = 400 \/ status = 500)%Z)
  /\ files (snd r)
     = match req_file req with
       | Some f => delete (Upload.path f) fs
       | None => fs
       end.
Proof.
  destruct req as [[f|] fields]; unfold docx_to_pdf; cbn [req_file].
  - destruct (String.eqb (Str.toLowerCase (Path.extname (Upload.originalname f))) ".docx")
      eqn:Hext;
      run;
      [ destruct (fs !! Upload.path f) as [buf|] eqn:Hfs; run;
        [ destruct (libre_convert buf ".pdf") as [out|message] eqn:Hlibre; run |]
      | destruct (fs !! Upload.path f) as [buf|] eqn:Hfs; run ];
      fs_done; (split; [auto|]); (split; [eauto 10|]); reflexivity.
  - run. split; [auto|]. split; [eauto 10|]. reflexivity.
Qed.

(** X3. The pdf-to-docx route answers every request exactly once, with
    status 200, 400 or 500, never lets an error escape, and leaves the
    file system as it was but for the staged upload, which is gone. *)
Theorem pdf_route_answers_once_and_cleans (req : upload_request)
  (fs : gmap string (list byte)) (k : nat) :
  let r := pdf_to_docx libre_convert req (start fs k) in
  (fst r = Normal tt \/ fst r = Return)
  /\ (exists (status : Z) (body : value),
        responses (log (snd r)) = [(status, body)]
        /\ (status = 200 \/ status = 400 \/ status = 500)%Z)
  /\ files (snd r)
     = match req_file req with
       | Some f => delete (Upload.path f) fs
       | None => fs
       end.
Proof.
  destruct req as [[f|] fields]; unfold pdf_to_docx; cbn [req_file].
  - destruct (String.eqb (Str.toLowerCase (Path.extname (Upload.originalname f))) ".pdf")
      eqn:Hext;
      run;
      [ destruct (fs !! Upload.path f) as [buf|] eqn:Hfs; run;
        [ destruct (libre_convert buf ".docx") as [out|message] eqn:Hlibre; run |]
      | destruct (fs !! Upload.path f) as [buf|] eqn:Hfs; run ];
      fs_done; (split; [auto|]); (split; [eauto 10|]); reflexivity.
  - run. split; [auto|]. split; [eauto 10|]. reflexivity.
Qed.

(** X4. The image route answers every request exactly once, with status
    200, 400 or 500, never lets an error escape, and leaves the file
    system as it was but for the staged upload, which is gone. *)
Theorem image_route_answers_once_and_cleans (req : upload_request)
  (fs : gmap string (list byte)) (k : nat) :
  let r := image_compress uuid_source sharp_jpeg req (start fs k) in
  (fst r = Normal tt \/ fst r = Return)
  /\ (exists (status : Z) (body : value),
        responses (log (snd r)) = [(status, body)]
        /\ (status = 200 \/ status = 400 \/ status = 500)%Z)
  /\ files (snd r)
     = match req_file req with
       | Some f => delete (Upload.path f) fs
       | None => fs
       end.
Proof.
  destruct req as [[f|] fields]; unfold image_compress; cbn [req_file].
  - destruct (Js.includes ["image/jpeg"; "image/png"; "image/webp"] (Upload.mimetype f))
      eqn:Hmime;
      run;
      [ destruct (sharp_jpeg (fs !! Upload.path f) 70) as [out|message] eqn:Hsharp; run;
        destruct (fs !! Upload.path f) as [buf|] eqn:Hfs; run
      | destruct (fs !! Upload.path f) as [buf|] eqn:Hfs; run ];
      fs_done; (split; [auto|]); (split; [eauto 10|]); reflexivity.
  - run. split; [auto|]. split; [eauto 10|]. reflexivity.
Qed.

(** X5. A file whose MIME type is not JPEG, PNG or WebP is answered 400
    ["Only JPEG, PNG, or WebP images are allowed"] and never reaches the
    codec. *)
Theorem image_rejects_other_types (f : Upload.file) (fs : gmap string (list byte))
  (k : nat) :
  Js.includes ["image/jpeg"; "image/png"; "image/webp"] (Upload.mimetype f) = false ->
  responses (image_log uuid_source sharp_jpeg f fs k)
  = [(400%Z, error_body "Only JPEG, PNG, or WebP images are allowed")]
  /\ forall (p : string) (q : Z),
       ~ In (SharpJpeg p q) (image_log uuid_source sharp_jpeg f fs k).
Proof.
  intros Hmime. unfold image_log, image_compress. cbn [req_file]. run.
  destruct (fs !! Upload.path f) as [buf|] eqn:Hfs; run; fs_done;
    (split; [reflexivity|]); intros p q Hin;
    repeat (destruct Hin as [Hin|Hin]; [discriminate Hin|]); exact Hin.
Qed.

(** X6. When the codec fails on an accepted image, the answer is 500
    ["Image compression failed"] with the message of the codec as
    [details], and the staged upload is the subject of one removal
    attempt. *)
Theorem image_codec_failure (f : Upload.file) (fs : gmap string (list byte)) (k : nat)
  (message : string) :
  Js.includes ["image/jpeg"; "image/png"; "image/webp"] (Upload.mimetype f) = true ->
  sharp_jpeg (fs !! Upload.path f) 70 = inr message ->
  (exists answer : value,
     responses (image_log uuid_source sharp_jpeg f fs k) = [(500%Z, answer)]
     /\ Js.get answer "error" = VStr "Image compression failed"
     /\ Js.get answer "details" = VStr message)
  /\ unlink_attempts (Upload.path f) (image_log uuid_source sharp_jpeg f fs k) = 1.
Proof.
  intros Hmime Hsharp.
  assert (H : responses (image_log uuid_source sharp_jpeg f fs k)
              = [(500%Z, error_details_body "Image compression failed" message)]
              /\ unlink_attempts (Upload.path f) (image_log uuid_source sharp_jpeg f fs k)
                 = 1).
  { unfold image_log, image_compress. cbn [req_file]. run.
    destruct (fs !! Upload.path f) as [buf|] eqn:Hfs; run; fs_done; auto. }
  destruct H as [R U]. split; [|exact U].
  eexists. split; [exact R|]. split; reflexivity.
Qed.

(** X7. The image route discards the name of the upload: two uploads
    that differ in their name only leave the same log, and the answer to
    a compressed image, whatever its type, is named after a fresh
    identifier with the extension [.jpg] and typed [image/jpeg]. *)
Theorem image_name_is_fresh (f : Upload.file) (fs : gmap string (list byte)) (k : nat)
  (out : list byte) (other : string) :
  Js.includes ["image/jpeg"; "image/png"; "image/webp"] (Upload.mimetype f) = true ->
  sharp_jpeg (fs !! Upload.path f) 70 = inl out ->
  image_log uuid_source sharp_jpeg
    (Upload.mkFile other (Upload.mimetype f) (Upload.size f) (Upload.path f)) fs k
  = image_log uuid_source sharp_jpeg f fs k
  /\ exists answer : value,
       responses (image_log uuid_source sharp_jpeg f fs k) = [(200%Z, answer)]
       /\ Js.get answer "fileName" = VStr (uuid_source k +:+ ".jpg")
       /\ Js.get answer "mimeType" = VStr "image/jpeg".
Proof.
  intros Hmime Hsharp. split; [destruct f; reflexivity|].
  destruct (ImageFacts.image_compressed uuid_source sharp_jpeg f fs k out Hmime Hsharp)
    as [Hresp _].
  eexists. split; [exact Hresp|].
  split; [now apply EnvelopeFacts.get_fileName | now apply EnvelopeFacts.get_mimeType].
Qed.

(** X8. When the document engine fails on a docx upload, or the staged
    file cannot be read, the answer is 500 ["Conversion failed"] with the
    message of the error as [details]; the engine is handed the bytes of
    the staged file and the extension [.pdf], and the staged upload is
    the subject of one removal attempt. *)
Theorem docx_conversion_failure (f : Upload.file) (fs : gmap string (list byte)) (k : nat) :
  Str.toLowerCase (Path.extname (Upload.originalname f)) = ".docx" ->
  (forall (buf : list byte) (message : string),
     fs !! Upload.path f = Some buf ->
     libre_convert buf ".pdf" = inr message ->
     (exists answer : value,
        responses (docx_log uuid_source libre_convert f fs k) = [(500%Z, answer)]
        /\ Js.get answer "error" = VStr "Conversion failed"
        /\ Js.get answer "details" = VStr message)
     /\ conversions (docx_log uuid_source libre_convert f fs k) = [(buf, ".pdf")]
     /\ unlink_attempts (Upload.path f) (docx_log uuid_source libre_convert f fs k) = 1)
  /\ (fs !! Upload.path f = None ->
      (exists answer : value,
         responses (docx_log uuid_source libre_convert f fs k) = [(500%Z, answer)]
         /\ Js.get answer "error" = VStr "Conversion failed"
         /\ Js.get answer "details"
            = VStr ("ENOENT: no such file or directory, open '" +:+ Upload.path f +:+ "'"))
      /\ conversions (docx_log uuid_source libre_convert f fs k) = []
      /\ unlink_attempts (Upload.path f) (docx_log uuid_source libre_convert f fs k) = 1).
Proof.
  intros Hext. apply String.eqb_eq in Hext. split.
  - intros buf message Hfs Hlibre.
    assert (H : responses (docx_log uuid_source libre_convert f fs k)
                = [(500%Z, error_details_body "Conversion failed" message)]
                /\ conversions (docx_log uuid_source libre_convert f fs k)
                   = [(buf, ".pdf")]
                /\ unlink_attempts (Upload.path f)
                     (docx_log uuid_source libre_convert f fs k) = 1).
    { unfold docx_log, docx_to_pdf. cbn [req_file]. run. fs_done. auto. }
    destruct H as (R & C & U). split; [|split; assumption].
    eexists. split; [exact R|]. split; reflexivity.
  - intros Hfs.
    assert (H : responses (docx_log uuid_source libre_convert f fs k)
                = [(500%Z,
                    error_details_body "Conversion failed"
                      ("ENOENT: no such file or directory, open '"
                       +:+ Upload.path f +:+ "'"))]
                /\ conversions (docx_log uuid_source libre_convert f fs k) = []
                /\ unlink_attempts (Upload.path f)
                     (docx_log uuid_source libre_convert f fs k) = 1).
    { unfold docx_log, docx_to_pdf. cbn [req_file]. run. fs_done. auto. }
    destruct H as (R & C & U). split; [|split; assumption].
    eexists. split; [exact R|]. split; reflexivity.
Qed.

(** X9. A file whose extension in lower case is not [.pdf] is answered
    400 ["Only .pdf files are allowed"] by the pdf-to-docx route, which
    then does not call the document engine. When the extension is [.pdf]
    and the conversion succeeds, the name of the upload (a plain file
    name) ends with [.pdf] in some spelling of case, the [fileName] of
    the answer is that name with this suffix replaced by [.docx], and the
    [mimeType] is that of a Word document. *)
Theorem pdf_extension_check (f : Upload.file) (fs : gmap string (list byte)) (k : nat) :
  let ext := Str.toLowerCase (Path.extname (Upload.originalname f)) in
  (ext <> ".pdf" ->
   responses (pdf_log libre_convert f fs k) = [(400%Z, error_body "Only .pdf files are allowed")]
   /\ conversions (pdf_log libre_convert f fs k) = [])
  /\ (ext = ".pdf" ->
      Str.contains_char Path.slash (Upload.originalname f) = false ->
      forall buf out : list byte,
        fs !! Upload.path f = Some buf ->
        libre_convert buf ".docx" = inl out ->
        exists (answer : value) (stem suffix : string),
          responses (pdf_log libre_convert f fs k) = [(200%Z, answer)]
          /\ Upload.originalname f = stem +:+ suffix
          /\ Str.toLowerCase suffix = ".pdf"
          /\ Js.get answer "fileName" = VStr (stem +:+ ".docx")
          /\ Js.get answer "mimeType"
             = VStr "application/vnd.openxmlformats-officedocument.wordprocessingml.document").
Proof.
  intros ext. split.
  - intros H. apply String.eqb_neq in H.
    destruct (DocFacts.pdf_rejected libre_convert f fs k H) as (? & ? & _). auto.
  - intros H Hplain buf out Hread Hconv.
    assert (He : String.eqb ext ".pdf" = true) by now apply String.eqb_eq.
    destruct (DocFacts.pdf_converted libre_convert f fs k buf out He Hread Hconv)
      as (Hresp & _).
    destruct (PathFacts.extname_suffix _ Hplain) as [stem Hstem].
    eexists. exists stem, (Path.extname (Upload.originalname f)).
    split; [exact Hresp|]. split; [exact Hstem|]. split; [exact H|].
    split; [|now apply EnvelopeFacts.get_mimeType].
    rewrite EnvelopeFacts.get_fileName by reflexivity.
    rewrite Hstem at 1.
    rewrite PathFacts.replace_suffix_ci_app; [reflexivity|].
    fold ext in H |- *. rewrite <- H. apply PathFacts.matches_ci_lower.
Qed.

(** X10. The docx-to-pdf route answers 200 exactly when the extension of
    the upload is [.docx] in some spelling of case, the staged file can be
    read and the document engine converts its bytes. *)
Theorem docx_succeeds_exactly (f : Upload.file) (fs : gmap string (list byte)) (k : nat) :
  (exists answer : value,
     responses (docx_log uuid_source libre_convert f fs k) = [(200%Z, answer)])
  <-> (Str.toLowerCase (Path.extname (Upload.originalname f)) = ".docx"
       /\ exists buf out : list byte,
            fs !! Upload.path f = Some buf /\ libre_convert buf ".pdf" = inl out).
Proof.
  split.
  - intros [answer H]. revert H. unfold docx_log, docx_to_pdf. cbn [req_file].
    destruct (String.eqb (Str.toLowerCase (Path.extname (Upload.originalname f))) ".docx")
      eqn:Hext;
      [ destruct (fs !! Upload.path f) as [buf|] eqn:Hfs;
        [ destruct (libre_convert buf ".pdf") as [out|message] eqn:Hlibre |] |];
      run; split_lookups; fs_done; intros H; try discriminate H.
    split; [now apply String.eqb_eq | eauto].
  - intros (Hext & buf & out & Hfs & Hlibre). apply String.eqb_eq in Hext.
    destruct (DocFacts.docx_converted uuid_source libre_convert f fs k buf out
                Hext Hfs Hlibre) as (H & _).
    eauto.
Qed.

End Routes.

(** A text file sent as an image. *)
Lemma image_rejects_other_types_witness :
  Js.includes ["image/jpeg"; "image/png"; "image/webp"] (Upload.mimetype Sample.text_file)
  = false
  /\ responses (image_log Sample.uuid_source Sample.sharp_ok Sample.text_file Sample.fs0 0)
     = [(400%Z, error_body "Only JPEG, PNG, or WebP images are allowed")].
Proof.
  split; [reflexivity|].
  exact (proj1 (image_rejects_other_types Sample.uuid_source Sample.sharp_ok
                  Sample.text_file Sample.fs0 0 eq_refl)).
Defined.

(** A PNG the codec cannot read. *)
Lemma image_codec_failure_witness :
  Js.includes ["image/jpeg"; "image/png"; "image/webp"] (Upload.mimetype Sample.png_file)
  = true
  /\ (exists answer : value,
        responses (image_log Sample.uuid_source Fixture.sharp_bad Sample.png_file
                     Sample.fs0 0)
        = [(500%Z, answer)]
        /\ Js.get answer "error" = VStr "Image compression failed"
        /\ Js.get answer "details"
           = VStr "Input buffer contains unsupported image format")
  /\ unlink_attempts Sample.staged
       (image_log Sample.uuid_source Fixture.sharp_bad Sample.png_file Sample.fs0 0) = 1.
Proof.
  split; [reflexivity|].
  exact (image_codec_failure Sample.uuid_source Fixture.sharp_bad Sample.png_file
           Sample.fs0 0 _ eq_refl eq_refl).
Defined.

(** A PNG answered as a JPEG under a fresh name. *)
Lemma image_name_is_fresh_witness :
  Upload.originalname Sample.png_file = "photo.png"
  /\ exists answer : value,
       responses (image_log Sample.uuid_source Sample.sharp_ok Sample.png_file Sample.fs0 0)
       = [(200%Z, answer)]
       /\ Js.get answer "fileName" = VStr "7d9f1c52-3b7e-4c1a-9c55-000000000000.jpg"
       /\ Js.get answer "mimeType" = VStr "image/jpeg".
Proof.
  split; [reflexivity|].
  exact (proj2 (image_name_is_fresh Sample.uuid_source Sample.sharp_ok Sample.png_file
                  Sample.fs0 0 [xff; xd8; xff; xe0; x00] "other.webp" eq_refl eq_refl)).
Defined.

(** A document the engine cannot convert. *)
Lemma docx_conversion_failure_witness :
  Str.toLowerCase (Path.extname (Upload.originalname Sample.docx_file)) = ".docx"
  /\ (exists answer : value,
        responses (docx_log Sample.uuid_source Fixture.libre_bad Sample.docx_file
                     Sample.fs0 0)
        = [(500%Z, answer)]
        /\ Js.get answer "error" = VStr "Conversion failed"
        /\ Js.get answer "details" = VStr "Could not find soffice binary")
  /\ (exists answer : value,
        responses (docx_log Sample.uuid_source Sample.libre_ok Sample.docx_file ∅ 0)
        = [(500%Z, answer)]
        /\ Js.get answer "error" = VStr "Conversion failed"
        /\ Js.get answer "details"
           = VStr ("ENOENT: no such file or directory, open '" +:+ Sample.staged +:+ "'")).
Proof.
  split; [reflexivity|]. split.
  - exact (proj1 (proj1 (docx_conversion_failure Sample.uuid_source Fixture.libre_bad
                           Sample.docx_file Sample.fs0 0 eq_refl)
                    _ _ eq_refl eq_refl)).
  - exact (proj1 (proj2 (docx_conversion_failure Sample.uuid_source Sample.libre_ok
                           Sample.docx_file ∅ 0 eq_refl)
                    eq_refl)).
Defined.

(** A text file, and a PDF named in capitals. *)
Lemma pdf_extension_check_witness :
  (Str.toLowerCase (Path.extname (Upload.originalname Sample.text_file)) <> ".pdf"
   /\ responses (pdf_log Sample.libre_ok Sample.text_file Sample.fs0 0)
      = [(400%Z, error_body "Only .pdf files are allowed")])
  /\ (Str.toLowerCase (Path.extname (Upload.originalname Fixture.pdf_file)) = ".pdf"
      /\ exists (answer : value) (stem suffix : string),
           responses (pdf_log Sample.libre_ok Fixture.pdf_file Sample.fs0 0)
           = [(200%Z, answer)]
           /\ "Thesis.PDF" = stem +:+ suffix
           /\ Str.toLowerCase suffix = ".pdf"
           /\ Js.get answer "fileName" = VStr (stem +:+ ".docx")
           /\ Js.get answer "mimeType"
              = VStr "application/vnd.openxmlformats-officedocument.wordprocessingml.document").
Proof.
  split.
  - assert (H : Str.toLowerCase (Path.extname (Upload.originalname Sample.text_file))
                <> ".pdf") by (vm_compute; discriminate).
    split; [exact H|].
    exact (proj1 (proj1 (pdf_extension_check Sample.libre_ok Sample.text_file
                           Sample.fs0 0) H)).
  - split; [reflexivity|].
    exact (proj2 (pdf_extension_check Sample.libre_ok Fixture.pdf_file Sample.fs0 0)
             eq_refl eq_refl _ _ eq_refl eq_refl).
Defined.

End CleanupFacts.

(** ** More on the audio route *)

Module AudioRouteFacts.
Import Server Run StrFacts.

(** A process that only writes to its standard error never settles the
    promise. *)
Lemma settle_silent (chunks : list string) (acc : string) :
  settle (map StderrData chunks) acc = Pending.
Proof.
  revert acc. induction chunks as [|c chunks IH]; intros acc; [reflexivity|].
  cbn [map]. change (settle (StderrData c :: ?l) acc) with (settle l (acc +:+ c)).
  apply IH.
Qed.

(** The promise is never settled by a [return]. *)
Lemma settle_not_return (events : list proc_event) (acc : string) :
  settle events acc <> Return.
Proof.
  revert acc. induction events as [|e events IH]; intros acc; [discriminate|].
  destruct e as [chunk|message|[[| |]|]]; try discriminate.
  change (settle (StderrData chunk :: events) acc) with (settle events (acc +:+ chunk)).
  apply IH.
Qed.

Section Audio.

Variable uploadDir : string.
Variable ffmpegPath : string.
Variable uuid_source : nat -> string.
Variable ffmpeg :
  list field -> gmap string (list byte) -> list proc_event * gmap string (list byte).

Let audio := audio_convert uploadDir ffmpegPath uuid_source ffmpeg.
Let alog := audio_log uploadDir ffmpegPath uuid_source ffmpeg.
Let outputPath := audio_outputPath uploadDir uuid_source.
Let ffArgs := audio_ffArgs uploadDir uuid_source.

Ltac open_audio :=
  subst audio alog outputPath ffArgs;
  unfold audio_log, audio_ffArgs, audio_outputPath, safeFormat_of, bitrate_of,
    audio_convert in *;
  cbn [req_file req_fields app] in *;
  rewrite ?AudioFacts.text_fields_default.

(** X11. A transcoder that never closes and never fails to start blocks
    the request for good: nothing is answered, no removal is attempted,
    and the files are as the process left them, the staged upload
    included. *)
Theorem audio_hung_process (f : Upload.file) (fields : gmap string string)
  (fs fs1 : gmap string (list byte)) (k : nat) (chunks : list string) :
  Js.includes allowedOutputFormats (safeFormat_of fields) = true ->
  Js.includes allowedInputTypes (Upload.mimetype f) = true ->
  ffmpeg (ffArgs f fields k) fs = (map StderrData chunks, fs1) ->
  let r := audio (mkUploadRequest (Some f) (text_fields fields)) (start fs k) in
  fst r = Pending
  /\ responses (log (snd r)) = []
  /\ (forall p : string, unlink_attempts p (log (snd r)) = 0)
  /\ files (snd r) = fs1.
Proof.
  intros H1 H2 H3. open_audio. run. rewrite settle_silent. cbn. auto.
Qed.

(** X12. Whenever the promise around the transcoder settles, the request
    is answered exactly once, with status 200 or 500, no error escapes,
    and both the staged upload and the output path are gone afterwards,
    every other file being as the process left it. *)
Theorem audio_settled_answers_once_and_cleans (f : Upload.file)
  (fields : gmap string string) (fs fs1 : gmap string (list byte)) (k : nat)
  (events : list proc_event) :
  Js.includes allowedOutputFormats (safeFormat_of fields) = true ->
  Js.includes allowedInputTypes (Upload.mimetype f) = true ->
  ffmpeg (ffArgs f fields k) fs = (events, fs1) ->
  settle events EmptyString <> Pending ->
  let r := audio (mkUploadRequest (Some f) (text_fields fields)) (start fs k) in
  fst r = Normal tt
  /\ (exists (status : Z) (body : value),
        responses (log (snd r)) = [(status, body)] /\ (status = 200 \/ status = 500)%Z)
  /\ files (snd r) = delete (outputPath fields k) (delete (Upload.path f) fs1).
Proof.
  intros H1 H2 H3 H4. open_audio. run.
  destruct (settle events EmptyString) as [[]|message| |] eqn:E;
    [| | exfalso; exact (settle_not_return _ _ E) | congruence]; cbn.
  - destruct (fs1 !! Path.join uploadDir _) as [buf|] eqn:Hout; cbn;
      destruct (fs1 !! Upload.path f) as [inp|] eqn:Hin; cbn;
      match goal with
      | |- context [delete ?p fs1 !! ?q] => destruct (delete p fs1 !! q) eqn:Hd
      | |- context [?m !! ?q] => destruct (m !! q) eqn:Hd
      end; cbn;
      (split; [reflexivity|]); (split; [eauto 10|]);
      rewrite ?(delete_id _ _ Hin); rewrite ?(delete_id _ _ Hd); reflexivity.
  - destruct (fs1 !! Upload.path f) as [inp|] eqn:Hin; cbn;
      match goal with
      | |- context [delete ?p fs1 !! ?q] => destruct (delete p fs1 !! q) eqn:Hd
      | |- context [?m !! ?q] => destruct (m !! q) eqn:Hd
      end; cbn;
      (split; [reflexivity|]); (split; [eauto 10|]);
      rewrite ?(delete_id _ _ Hin); rewrite ?(delete_id _ _ Hd); reflexivity.
Qed.

(** X13. When the transcoder exits 0 but leaves nothing at the output
    path, the answer is 500 ["Audio conversion failed"] with the message
    of the failed read as [details]; both removals are still attempted. *)
Theorem audio_output_missing (f : Upload.file) (fields : gmap string string)
  (fs fs1 : gmap string (list byte)) (k : nat) (events : list proc_event) :
  Js.includes allowedOutputFormats (safeFormat_of fields) = true ->
  Js.includes allowedInputTypes (Upload.mimetype f) = true ->
  ffmpeg (ffArgs f fields k) fs = (events, fs1) ->
  settle events EmptyString = Normal tt ->
  fs1 !! outputPath fields k = None ->
  Upload.path f <> outputPath fields k ->
  (exists answer : value,
     responses (alog f fields fs k) = [(500%Z, answer)]
     /\ Js.get answer "error" = VStr "Audio conversion failed"
     /\ Js.get answer "details"
        = VStr ("ENOENT: no such file or directory, open '" +:+ outputPath fields k
                +:+ "'"))
  /\ unlink_attempts (Upload.path f) (alog f fields fs k) = 1
  /\ unlink_attempts (outputPath fields k) (alog f fields fs k) = 1.
Proof.
  intros H1 H2 H3 H4 H5 H6.
  assert (H : responses (alog f fields fs k)
              = [(500%Z,
                  error_details_body "Audio conversion failed"
                    ("ENOENT: no such file or directory, open '" +:+ outputPath fields k
                     +:+ "'"))]
              /\ unlink_attempts (Upload.path f) (alog f fields fs k) = 1
              /\ unlink_attempts (outputPath fields k) (alog f fields fs k) = 1).
  { assert (E1 : String.eqb (Upload.path f) (outputPath fields k) = false)
      by now apply String.eqb_neq.
    assert (E2 : String.eqb (outputPath fields k) (Upload.path f) = false)
      by (apply String.eqb_neq; congruence).
    open_audio. run.
    split_lookups; cbn; rewrite ?String.eqb_refl, ?E1, ?E2; auto. }
  destruct H as (R & U). split; [|exact U].
  eexists. split; [exact R|]. split; reflexivity.
Qed.

(** X14. A transcoder ended by a signal closes with the code [null] and
    is reported like a failed run: the answer is 500 with the [details]
    ["ffmpeg exited with code null: "] followed by all it wrote to its
    standard error. *)
Theorem audio_killed_by_signal (f : Upload.file) (fields : gmap string string)
  (fs fs1 : gmap string (list byte)) (k : nat) (chunks : list string)
  (rest : list proc_event) :
  Js.includes allowedOutputFormats (safeFormat_of fields) = true ->
  Js.includes allowedInputTypes (Upload.mimetype f) = true ->
  ffmpeg (ffArgs f fields k) fs = (map StderrData chunks ++ ProcClose None :: rest, fs1) ->
  exists answer : value,
    responses (alog f fields fs k) = [(500%Z, answer)]
    /\ Js.get answer "error" = VStr "Audio conversion failed"
    /\ Js.get answer "details"
       = VStr ("ffmpeg exited with code null: " +:+ stderr_text chunks).
Proof.
  intros H1 H2 H3.
  eexists.
  split; [exact (AudioFacts.accepted_failure uploadDir ffmpegPath uuid_source ffmpeg
                   f fields fs fs1 k _ _ H1 H2 H3
                   (AudioFacts.settle_close chunks None rest EmptyString))|].
  split; reflexivity.
Qed.

(** X15. The audio route never answers twice, and an error leaves the
    handler in one case only: a request with a file whose [targetFormat]
    has no string, on which [String] throws before the [try] statement;
    then nothing is answered and nothing is removed, so that the staged
    upload stays. Every other request is answered once, with status 200,
    400 or 500, or stays unanswered while the promise around the
    transcoder is pending. *)
Theorem audio_route_answers_at_most_once (req : upload_request)
  (fs : gmap string (list byte)) (k : nat) :
  let r := audio req (start fs k) in
  (forall message : string,
     fst r = Throw message
     <-> exists (f : Upload.file) (supplied : field),
           req_file req = Some f
           /\ req_fields req !! "targetFormat" = Some supplied
           /\ Field.ToString supplied = inr message)
  /\ ((exists message : string, fst r = Throw message) -> snd r = start fs k)
  /\ ((responses (log (snd r)) = []
       /\ (fst r = Pending \/ exists message : string, fst r = Throw message))
      \/ exists (status : Z) (body : value),
           responses (log (snd r)) = [(status, body)]
           /\ (status = 200 \/ status = 400 \/ status = 500)%Z
           /\ (fst r = Normal tt \/ fst r = Return)).
Proof.
  destruct req as [[f|] fields].
  - destruct (Field.ToString (default (FText "mp3") (fields !! "targetFormat")))
      as [text|thrown] eqn:Ht.
    + assert (Hnot : forall message : string,
                 ~ exists (f' : Upload.file) (supplied : field),
                     Some f = Some f'
                     /\ fields !! "targetFormat" = Some supplied
                     /\ Field.ToString supplied = inr message).
      { intros message (f' & supplied & _ & Hf & Hs). rewrite Hf in Ht. cbn in Ht.
        congruence. }
      subst audio. unfold audio_convert. cbn [req_file req_fields app].
      destruct (Js.includes allowedOutputFormats (Str.toLowerCase text)) eqn:Hfmt;
        [destruct (Js.includes allowedInputTypes (Upload.mimetype f)) eqn:Hmime|];
        run.
      * destruct (ffmpeg _ fs) as [events fs1] eqn:Hrun. cbn.
        destruct (settle events EmptyString) as [[]|message| |] eqn:E;
          [| | exfalso; exact (settle_not_return _ _ E) |]; cbn;
          split_lookups; cbn;
          (split; [intros m; split; [discriminate | intros H; destruct (Hnot m H)]|]);
          (split; [intros [m H]; discriminate H|]); eauto 12.
      * split_lookups; cbn;
          (split; [intros m; split; [discriminate | intros H; destruct (Hnot m H)]|]);
          (split; [intros [m H]; discriminate H|]); eauto 12.
      * split_lookups; cbn;
          (split; [intros m; split; [discriminate | intros H; destruct (Hnot m H)]|]);
          (split; [intros [m H]; discriminate H|]); eauto 12.
    + subst audio.
      rewrite (AudioFacts.form_unconvertible uploadDir ffmpegPath uuid_source ffmpeg
                 f fields fs k thrown Ht).
      cbn [fst snd log start responses req_file req_fields].
      destruct (fields !! "targetFormat") as [supplied|] eqn:Hf;
        [|cbn in Ht; discriminate Ht].
      cbn in Ht. split; [|split].
      * intros message. split.
        -- intros H. injection H as <-. eauto.
        -- intros (f' & supplied' & _ & Hs' & Hm). injection Hs' as <-. congruence.
      * reflexivity.
      * left. eauto.
  - subst audio. unfold audio_convert. cbn [req_file]. run.
    split; [|split].
    + intros message. split; [discriminate | intros (f' & ? & H & _); discriminate H].
    + intros [m H]; discriminate H.
    + right. eauto 12.
Qed.

(** X16. When the name of the upload has an extension, the answer to a
    successful conversion carries that name with the extension replaced
    by the target format, and the MIME type that goes with the format:
    [audio/mpeg] for mp3 and [audio/] followed by the format for aac, wav
    and ogg. *)
Theorem audio_name_and_type_agree (f : Upload.file) (fields : gmap string string)
  (fs fs1 : gmap string (list byte)) (k : nat) (events : list proc_event)
  (buf : list byte) (stem ext : string) :
  Js.includes allowedOutputFormats (safeFormat_of fields) = true ->
  Js.includes allowedInputTypes (Upload.mimetype f) = true ->
  ffmpeg (ffArgs f fields k) fs = (events, fs1) ->
  settle events EmptyString = Normal tt ->
  fs1 !! outputPath fields k = Some buf ->
  Upload.originalname f = stem +:+ String Path.dot ext ->
  ext <> EmptyString ->
  Str.contains_char Path.dot ext = false ->
  exists answer : value,
    responses (alog f fields fs k) = [(200%Z, answer)]
    /\ Js.get answer "fileName" = VStr (stem +:+ "." +:+ safeFormat_of fields)
    /\ Js.get answer "mimeType"
       = VStr (if String.eqb (safeFormat_of fields) "mp3" then "audio/mpeg"
               else "audio/" +:+ safeFormat_of fields).
Proof.
  intros H1 H2 H3 H4 H5 Hname Hne Hdot.
  eexists. split; [exact (AudioFacts.accepted_success uploadDir ffmpegPath uuid_source
                             ffmpeg f fields fs fs1 k events buf H1 H2 H3 H4 H5)|].
  split.
  - rewrite EnvelopeFacts.get_fileName by reflexivity.
    rewrite Hname. now rewrite PathFacts.replace_extension_app.
  - rewrite EnvelopeFacts.get_mimeType by reflexivity.
    destruct (AudioFacts.allowed_output_cases _ H1) as [E|[E|[E|E]]]; rewrite E; reflexivity.
Qed.

End Audio.

(** A form with the field name [targetFormat[codec]]: the value of
    [targetFormat] is an object without a prototype, [String] throws, and
    the handler is left with nothing sent and the staged upload in place. *)
Lemma audio_keyed_format_escapes :
  audio_convert Sample.uploadDir Sample.ffmpegPath Sample.uuid_source Sample.ffmpeg_ok
    (mkUploadRequest (Some Sample.wav_file)
       {[ "targetFormat" := FDict [("codec", FText "mp3")] ]})
    (start Sample.fs0 0)
  = (Throw "Cannot convert object to primitive value", start Sample.fs0 0).
Proof. reflexivity. Qed.

(** A transcoder that never closes. *)
Lemma audio_hung_process_witness :
  let r :=
    audio_convert Sample.uploadDir Sample.ffmpegPath Sample.uuid_source
      Fixture.ffmpeg_silent (mkUploadRequest (Some Sample.wav_file) (text_fields ∅))
      (start Sample.fs0 0) in
  fst r = Pending
  /\ responses (log (snd r)) = []
  /\ (forall p : string, unlink_attempts p (log (snd r)) = 0)
  /\ files (snd r) = Sample.fs0.
Proof.
  exact (audio_hung_process Sample.uploadDir Sample.ffmpegPath Sample.uuid_source
           Fixture.ffmpeg_silent Sample.wav_file ∅ Sample.fs0 Sample.fs0 0
           ["frame=    1 fps=0.0 q=0.0 size=       0kB"] eq_refl eq_refl eq_refl).
Defined.

(** A transcoder that fails: the staged upload is gone afterwards. *)
Lemma audio_settled_answers_once_and_cleans_witness :
  let r :=
    audio_convert Sample.uploadDir Sample.ffmpegPath Sample.uuid_source
      Sample.ffmpeg_fail (mkUploadRequest (Some Sample.wav_file) (text_fields ∅))
      (start Sample.fs0 0) in
  fst r = Normal tt
  /\ (exists (status : Z) (body : value),
        responses (log (snd r)) = [(status, body)] /\ (status = 200 \/ status = 500)%Z)
  /\ files (snd r)
     = delete (audio_outputPath Sample.uploadDir Sample.uuid_source ∅ 0)
         (delete Sample.staged Sample.fs0).
Proof.
  exact (audio_settled_answers_once_and_cleans Sample.uploadDir Sample.ffmpegPath
           Sample.uuid_source Sample.ffmpeg_fail Sample.wav_file ∅ Sample.fs0 Sample.fs0 0
           _ eq_refl eq_refl eq_refl ltac:(discriminate)).
Defined.

(** A transcoder that exits 0 and writes nothing. *)
Lemma audio_output_missing_witness :
  (exists answer : value,
     responses (audio_log Sample.uploadDir Sample.ffmpegPath Sample.uuid_source
                  Fixture.ffmpeg_no_output Sample.wav_file ∅ Sample.fs0 0)
     = [(500%Z, answer)]
     /\ Js.get answer "error" = VStr "Audio conversion failed"
     /\ Js.get answer "details"
        = VStr "ENOENT: no such file or directory, open '/srv/app/uploads/7d9f1c52-3b7e-4c1a-9c55-000000000000.mp3'")
  /\ unlink_attempts Sample.staged
       (audio_log Sample.uploadDir Sample.ffmpegPath Sample.uuid_source
          Fixture.ffmpeg_no_output Sample.wav_file ∅ Sample.fs0 0) = 1
  /\ unlink_attempts "/srv/app/uploads/7d9f1c52-3b7e-4c1a-9c55-000000000000.mp3"
       (audio_log Sample.uploadDir Sample.ffmpegPath Sample.uuid_source
          Fixture.ffmpeg_no_output Sample.wav_file ∅ Sample.fs0 0) = 1.
Proof.
  exact (audio_output_missing Sample.uploadDir Sample.ffmpegPath Sample.uuid_source
           Fixture.ffmpeg_no_output Sample.wav_file ∅ Sample.fs0 Sample.fs0 0 _
           eq_refl eq_refl eq_refl eq_refl eq_refl
           ltac:(intros H; vm_compute in H; discriminate H)).
Defined.

(** A transcoder ended by a signal. *)
Lemma audio_killed_by_signal_witness :
  exists answer : value,
    responses (audio_log Sample.uploadDir Sample.ffmpegPath Sample.uuid_source
                 Fixture.ffmpeg_killed Sample.wav_file ∅ Sample.fs0 0)
    = [(500%Z, answer)]
    /\ Js.get answer "error" = VStr "Audio conversion failed"
    /\ Js.get answer "details"
       = VStr "ffmpeg exited with code null: Exiting normally, received signal 15.".
Proof.
  exact (audio_killed_by_signal Sample.uploadDir Sample.ffmpegPath Sample.uuid_source
           Fixture.ffmpeg_killed Sample.wav_file ∅ Sample.fs0 Sample.fs0 0
           ["Exiting normally, received signal 15."] [] eq_refl eq_refl eq_refl).
Defined.

(** The upload "take one.wav" converted to ogg. *)
Lemma audio_name_and_type_agree_witness :
  exists answer : value,
    responses (audio_log Sample.uploadDir Sample.ffmpegPath Sample.uuid_source
                 Sample.ffmpeg_ok Sample.wav_file {[ "targetFormat" := "OGG" ]}
                 Sample.fs0 0)
    = [(200%Z, answer)]
    /\ Js.get answer "fileName" = VStr "take one.ogg"
    /\ Js.get answer "mimeType" = VStr "audio/ogg".
Proof.
  exact (audio_name_and_type_agree Sample.uploadDir Sample.ffmpegPath Sample.uuid_source
           Sample.ffmpeg_ok Sample.wav_file {[ "targetFormat" := "OGG" ]}
           Sample.fs0 _ 0 _ [x49; x44; x33; x04] "take one" "wav"
           eq_refl eq_refl eq_refl eq_refl eq_refl eq_refl
           ltac:(discriminate) eq_refl).
Defined.

End AudioRouteFacts.

(** ** More on the envelope *)

Module EnvelopeMoreFacts.
Import Server StrFacts.

(** X17. The data URL of [fileToDataUrlResponse] is ["data:"], the MIME
    type, [";base64,"] and a payload that decodes to the buffer, so that
    buffers with the same data URL (under the same MIME type) are the same
    buffer. *)
Theorem dataUrl_decodes_and_determines_buffer (buf buf' : list byte)
  (mime name name' : string) (extra extra' : gmap string value) :
  extra !! "dataUrl" = None ->
  extra' !! "dataUrl" = None ->
  (exists payload : string,
     Js.get (fileToDataUrlResponse buf mime name extra) "dataUrl"
     = VStr ("data:" +:+ mime +:+ ";base64," +:+ payload)
     /\ Base64.decode payload = Some buf)
  /\ (Js.get (fileToDataUrlResponse buf mime name extra) "dataUrl"
      = Js.get (fileToDataUrlResponse buf' mime name' extra') "dataUrl" ->
      buf = buf').
Proof.
  intros H H'. split; [now apply EnvelopeFacts.dataUrl_round_trip|].
  rewrite !EnvelopeFacts.get_dataUrl by assumption.
  intros E. injection E as E.
  do 3 apply String.app_inj in E.
  apply (f_equal Base64.decode) in E.
  rewrite !Base64Facts.decode_encode in E. now injection E.
Qed.

(** X18. The data URL of a buffer of [n] bytes has 13 characters, those
    of the MIME type, and four characters for every started group of
    three bytes. *)
Theorem dataUrl_length (buf : list byte) (mime name : string)
  (extra : gmap string value) :
  extra !! "dataUrl" = None ->
  exists dataUrl : string,
    Js.get (fileToDataUrlResponse buf mime name extra) "dataUrl" = VStr dataUrl
    /\ String.length dataUrl
       = (13 + String.length mime + 4 * ((List.length buf + 2) / 3))%nat.
Proof.
  intros H. eexists. split; [now apply EnvelopeFacts.get_dataUrl|].
  rewrite !append_length, Base64Facts.encode_length. cbn [String.length]. lia.
Qed.

(** The bytes "%PDF" and "%PDG" under the same type. *)
Lemma dataUrl_decodes_and_determines_buffer_witness :
  (exists payload : string,
     Js.get (fileToDataUrlResponse [x25; x50; x44; x46] "application/pdf" "a.pdf" ∅)
       "dataUrl"
     = VStr ("data:" +:+ "application/pdf" +:+ ";base64," +:+ payload)
     /\ Base64.decode payload = Some [x25; x50; x44; x46])
  /\ (Js.get (fileToDataUrlResponse [x25; x50; x44; x46] "application/pdf" "a.pdf" ∅)
        "dataUrl"
      = Js.get (fileToDataUrlResponse [x25; x50; x44; x47] "application/pdf" "b.pdf" ∅)
          "dataUrl" ->
      [x25; x50; x44; x46] = [x25; x50; x44; x47]).
Proof.
  exact (dataUrl_decodes_and_determines_buffer [x25; x50; x44; x46] [x25; x50; x44; x47]
           "application/pdf" "a.pdf" "b.pdf" ∅ ∅ eq_refl eq_refl).
Defined.

(** Four bytes under a type of fifteen characters: 13 + 15 + 8. *)
Lemma dataUrl_length_witness :
  exists dataUrl : string,
    Js.get (fileToDataUrlResponse [x25; x50; x44; x46] "application/pdf" "a.pdf" ∅)
      "dataUrl" = VStr dataUrl
    /\ String.length dataUrl = 36%nat.
Proof.
  exact (dataUrl_length [x25; x50; x44; x46] "application/pdf" "a.pdf" ∅ eq_refl).
Defined.

End EnvelopeMoreFacts.

(** ** The QR route *)

Module QrFacts.
Import Server Run QrRoute.

Section Qr.

Variable qr_toDataURL : value -> qr_options -> string + string.

(** X20. The QR route answers 400 ["URL is required"] exactly when the
    [url] of the body is not a non-empty string. *)
Theorem qr_rejects_exactly (body : value) :
  responses (qr_log qr_toDataURL body) = [(400%Z, error_body "URL is required")]
  <-> ~ exists s : string, Js.get body "url" = VStr s /\ s <> EmptyString.
Proof.
  unfold qr_log, url_qr, toDataURL.
  destruct (Js.get body "url") as [| |[]|x|s|items|props] eqn:E;
    try (destruct x as [[]|[]| |[] ? ?]); try destruct s as [|c s];
    cbn [JsOps.truthy JsOps.is_string Num.falsy Num.is_empty negb orb];
    run;
    try (split; [intros _ (s' & Hs & Hne); congruence | reflexivity]).
  destruct (qr_toDataURL _ _) as [dataUrl|message]; run;
    (split; [intros H; discriminate H | intros H; exfalso; apply H; eexists; split;
                                         [reflexivity | discriminate]]).
Qed.

(** The answers to a body whose [url] is a non-empty string. *)
Lemma qr_accepted_responses (body : value) (s : string) :
  Js.get body "url" = VStr s ->
  s <> EmptyString ->
  responses (qr_log qr_toDataURL body)
  = match qr_toDataURL (VStr s) (mkQrOptions "M" 2 300) with
    | inl dataUrl =>
        [(200%Z,
          obj [("fileName", VStr "qr-code.png");
               ("mimeType", VStr "image/png");
               ("dataUrl", VStr dataUrl);
               ("originalUrl", VStr s)])]
    | inr message =>
        [(500%Z, error_details_body "QR code generation failed" message)]
    end.
Proof.
  intros E Hne. unfold qr_log, url_qr, toDataURL. rewrite E.
  destruct s as [|c s]; [congruence|].
  cbn [JsOps.truthy JsOps.is_string Num.is_empty negb orb]. run.
  destruct (qr_toDataURL _ _) as [dataUrl|message]; reflexivity.
Qed.

(** X21. A non-empty string is handed to the encoder as it is, with the
    error correction level M, the margin 2 and the width 300. The data
    URL of the encoder is answered as it is, under the fixed name
    [qr-code.png] and the type [image/png], next to the text itself; a
    failure of the encoder is answered 500 ["QR code generation failed"]
    with its message as [details]. *)
Theorem qr_accepted_outcome (body : value) (s : string) :
  Js.get body "url" = VStr s ->
  s <> EmptyString ->
  (forall dataUrl : string,
     qr_toDataURL (VStr s) (mkQrOptions "M" 2 300) = inl dataUrl ->
     exists answer : value,
       responses (qr_log qr_toDataURL body) = [(200%Z, answer)]
       /\ Js.get answer "dataUrl" = VStr dataUrl
       /\ Js.get answer "originalUrl" = VStr s
       /\ Js.get answer "fileName" = VStr "qr-code.png"
       /\ Js.get answer "mimeType" = VStr "image/png")
  /\ (forall message : string,
        qr_toDataURL (VStr s) (mkQrOptions "M" 2 300) = inr message ->
        exists answer : value,
          responses (qr_log qr_toDataURL body) = [(500%Z, answer)]
          /\ Js.get answer "error" = VStr "QR code generation failed"
          /\ Js.get answer "details" = VStr message).
Proof.
  intros E Hne. pose proof (qr_accepted_responses body s E Hne) as R. split.
  - intros dataUrl H. rewrite H in R. eexists. split; [exact R|].
    repeat split; reflexivity.
  - intros message H. rewrite H in R. eexists. split; [exact R|].
    split; reflexivity.
Qed.

End Qr.

(** An address, with an encoder that succeeds and one that fails. *)
Lemma qr_accepted_outcome_witness :
  (exists answer : value,
     responses (qr_log Fixture.qr_ok (obj [("url", VStr "https://example.org/")]))
     = [(200%Z, answer)]
     /\ Js.get answer "dataUrl" = VStr "data:image/png;base64,iVBORw0KGgo="
     /\ Js.get answer "originalUrl" = VStr "https://example.org/"
     /\ Js.get answer "fileName" = VStr "qr-code.png"
     /\ Js.get answer "mimeType" = VStr "image/png")
  /\ (exists answer : value,
        responses (qr_log Fixture.qr_bad (obj [("url", VStr "https://example.org/")]))
        = [(500%Z, answer)]
        /\ Js.get answer "error" = VStr "QR code generation failed"
        /\ Js.get answer "details"
           = VStr "The amount of data is too big to be stored in a QR Code").
Proof.
  split.
  - exact (proj1 (qr_accepted_outcome Fixture.qr_ok
                    (obj [("url", VStr "https://example.org/")]) "https://example.org/"
                    eq_refl ltac:(discriminate))
             _ eq_refl).
  - exact (proj2 (qr_accepted_outcome Fixture.qr_bad
                    (obj [("url", VStr "https://example.org/")]) "https://example.org/"
                    eq_refl ltac:(discriminate))
             _ eq_refl).
Defined.

End QrFacts.

(** ** More on the BMI route *)

Module BmiRouteFacts.
Import Server Run SpecFloat.

(** X22. The BMI route touches no file and answers at most once. Either
    its log is a single answer, 400 with the one error text or 200 with
    the table of ranges and one of the four pairs of category and
    message, or [Number] throws on one of the two fields, and then the
    error leaves the handler and the log is empty. *)
Theorem bmi_route_only_answers (body : value) (fs : gmap string (list byte)) (k : nat) :
  let r := calc_bmi body (start fs k) in
  files (snd r) = fs
  /\ ((exists (status : Z) (answer : value),
         log (snd r) = [Send status answer]
         /\ ((status = 400%Z
              /\ fst r = Return
              /\ Js.get answer "error"
                 = VStr "heightCm and weightKg must be positive numbers")
             \/ (status = 200%Z
                 /\ fst r = Normal tt
                 /\ Js.get answer "ranges" = ranges
                 /\ In (Js.get answer "category", Js.get answer "message")
                      [(VStr "Underweight",
                        VStr "Your BMI is below the normal range. Consider consulting a nutritionist or doctor.");
                       (VStr "Normal",
                        VStr "Your BMI is in the normal range. Keep maintaining a healthy lifestyle.");
                       (VStr "Overweight",
                        VStr "Your BMI is slightly above the normal range. You may want to review diet and activity.");
                       (VStr "Obesity",
                        VStr "Your BMI is in the obesity range. Please consider consulting a healthcare professional.")])))
      \/ (log (snd r) = []
          /\ fst r = Throw Js.cannot_convert
          /\ (Js.unconvertible (Js.get body "heightCm") = true
              \/ Js.unconvertible (Js.get body "weightKg") = true))).
Proof.
  destruct (BmiFacts.ToNumber_cases (Js.get body "heightCm")) as [[Uh Eh]|[Uh Eh]];
    [destruct (BmiFacts.ToNumber_cases (Js.get body "weightKg")) as [[Uw Ew]|[Uw Ew]]|].
  - cbv zeta. rewrite (BmiFacts.calc_bmi_converted body _ _ fs k Eh Ew).
    set (h := Js.to_number (Js.get body "heightCm")).
    set (w := Js.to_number (Js.get body "weightKg")).
    destruct (Num.ltb Num.pos_zero h && Num.ltb Num.pos_zero w);
      cbn [fst snd files log]; (split; [reflexivity|]); left; eexists _, _;
      (split; [reflexivity|]).
    + right. split; [reflexivity|]. split; [reflexivity|]. split; [reflexivity|].
      unfold categorize.
      destruct (Num.ltb (bmi_of h w) n18_5);
        [|destruct (Num.ltb (bmi_of h w) n25); [|destruct (Num.ltb (bmi_of h w) n30)]];
        cbn [In fst snd]; auto 6.
    + left. split; [reflexivity|]. split; reflexivity.
  - cbv zeta. rewrite (BmiFacts.calc_bmi_throws body fs k) by auto.
    cbn [fst snd files log start]. split; [reflexivity|]. right. auto.
  - cbv zeta. rewrite (BmiFacts.calc_bmi_throws body fs k) by auto.
    cbn [fst snd files log start]. split; [reflexivity|]. right. auto.
Qed.

End BmiRouteFacts.

(** ** The forms and the routes *)

Module ClientFacts.
Import Server Run Client QrRoute.

Section Forms.

Variable number_to_string : Num.number -> string.
Variable null_read_message : string -> string.
Variable xhr : string -> list (string * browser_file) -> xhr_outcome.
Variable fetch : string -> value -> fetch_outcome.

Let submit := DocxPdfTool_handleSubmit number_to_string null_read_message xhr.
Let calc := BMITool_handleCalc number_to_string null_read_message fetch.
Let generate := QrTool_handleGenerate number_to_string null_read_message fetch.

(** X23. The document form never shows what the server says went wrong:
    when the answer has a status outside 200 to 299 and one of the error
    bodies of the routes, or when the request fails on the network, the
    form shows ["Conversion failed."] and no result. *)
Theorem document_form_hides_server_error (f : browser_file) (direction : string)
  (status : Z) (message details : string) :
  let endpoint :=
    if String.eqb direction "docx-to-pdf"
    then "http://localhost:4000/api/convert/docx-to-pdf"
    else "http://localhost:4000/api/convert/pdf-to-docx" in
  JsOps.ok_status status = false ->
  xhr endpoint [("file", f)] = XhrLoad status (error_body message)
  \/ xhr endpoint [("file", f)] = XhrLoad status (error_details_body message details)
  \/ xhr endpoint [("file", f)] = XhrError ->
  submit (Some f) direction = mkUi VNull (VStr "Conversion failed.").
Proof.
  intros endpoint Hstatus Hxhr. subst submit. unfold DocxPdfTool_handleSubmit.
  change (if String.eqb direction "docx-to-pdf"
          then API_BASE +:+ "/convert/docx-to-pdf"
          else API_BASE +:+ "/convert/pdf-to-docx") with endpoint.
  destruct Hxhr as [-> | [-> | ->]]; unfold send; rewrite ?Hstatus; reflexivity.
Qed.

(** X24. The document form posts the chosen file, under the field name
    [file], to the route of the chosen direction, and when the answer has
    a status from 200 to 299 and is an object without a truthy [error], it
    becomes the result as it is and no error is shown. *)
Theorem document_form_shows_answer (f : browser_file) (direction : string)
  (status : Z) (props : gmap string value) :
  let endpoint :=
    if String.eqb direction "docx-to-pdf"
    then "http://localhost:4000/api/convert/docx-to-pdf"
    else "http://localhost:4000/api/convert/pdf-to-docx" in
  JsOps.ok_status status = true ->
  xhr endpoint [("file", f)] = XhrLoad status (VObj props) ->
  JsOps.truthy (default VUndefined (props !! "error")) = false ->
  submit (Some f) direction = mkUi (VObj props) (VStr EmptyString).
Proof.
  intros endpoint Hstatus Hxhr Herr. subst submit. unfold DocxPdfTool_handleSubmit.
  change (if String.eqb direction "docx-to-pdf"
          then API_BASE +:+ "/convert/docx-to-pdf"
          else API_BASE +:+ "/convert/pdf-to-docx") with endpoint.
  rewrite Hxhr. unfold send. rewrite Hstatus. cbn [read Js.get]. now rewrite Herr.
Qed.

(** X25. The BMI form and the BMI route agree on finite numbers. When the
    two inputs do not both read as numbers above zero, the form shows its
    own message and sends nothing; when they read as finite numbers above
    zero, the body the form sends makes the route answer 200 with the
    bmi of these very numbers. *)
Theorem bmi_form_agrees_with_route (height weight : string) :
  let h := Num.StringToNumber height in
  let w := Num.StringToNumber weight in
  (Num.ltb Num.pos_zero h && Num.ltb Num.pos_zero w = false ->
   calc height weight = mkUi VNull (VStr "Height and weight must be positive numbers."))
  /\ (forall (mh mw : positive) (eh ew : Z),
        h = SpecFloat.S754_finite false mh eh ->
        w = SpecFloat.S754_finite false mw ew ->
        exists answer : value,
          responses (bmi_log (bmi_request h w)) = [(200%Z, answer)]
          /\ Js.get answer "bmi" = VNum (Num.toFixed2 (bmi_of h w))
          /\ forall data : value,
               fetch "http://localhost:4000/api/calc/bmi" (bmi_request h w)
               = FetchResponse 200 (inl data) ->
               calc height weight = mkUi data (VStr EmptyString)).
Proof.
  intros h w. split.
  - intros H. subst calc. unfold BMITool_handleCalc. fold h w.
    rewrite BmiFacts.reject_test, H. reflexivity.
  - intros mh mw eh ew Hh Hw.
    assert (Eh : Js.ToNumber (Js.get (bmi_request h w) "heightCm") = inl h)
      by (rewrite Hh, Hw; reflexivity).
    assert (Ew : Js.ToNumber (Js.get (bmi_request h w) "weightKg") = inl w)
      by (rewrite Hh, Hw; reflexivity).
    pose proof (BmiFacts.calc_bmi_responses (bmi_request h w) h w Eh Ew) as R.
    assert (Hpos : Num.ltb Num.pos_zero h && Num.ltb Num.pos_zero w = true)
      by (rewrite Hh, Hw; reflexivity).
    rewrite Hpos in R.
    eexists. split; [exact R|]. split; [reflexivity|].
    intros data Hfetch. subst calc. unfold BMITool_handleCalc. fold h w.
    rewrite BmiFacts.reject_test, Hpos. cbn [negb].
    change (API_BASE +:+ "/calc/bmi") with "http://localhost:4000/api/calc/bmi".
    change (obj [("heightCm", json_number h); ("weightKg", json_number w)])
      with (bmi_request h w).
    rewrite Hfetch. reflexivity.
Qed.

(** X26. An input that reads as infinity passes the test of the BMI form
    but not that of the route: the form writes it as [null], the route
    answers 400, and the form shows the message of the route. *)
Theorem bmi_form_infinity (height weight : string) :
  let h := Num.StringToNumber height in
  let w := Num.StringToNumber weight in
  Num.ltb Num.pos_zero h = true ->
  Num.ltb Num.pos_zero w = true ->
  h = Num.pos_infinity \/ w = Num.pos_infinity ->
  responses (bmi_log (bmi_request h w))
  = [(400%Z, error_body "heightCm and weightKg must be positive numbers")]
  /\ (fetch "http://localhost:4000/api/calc/bmi" (bmi_request h w)
      = FetchResponse 400
          (inl (error_body "heightCm and weightKg must be positive numbers")) ->
      calc height weight
      = mkUi VNull (VStr "heightCm and weightKg must be positive numbers")).
Proof.
  intros h w Hh Hw Hinf. split.
  - destruct Hinf as [E|E]; rewrite E;
      [destruct w as [[]|[]| |[] ? ?] | destruct h as [[]|[]| |[] ? ?]];
      try discriminate; reflexivity.
  - intros Hfetch. subst calc. unfold BMITool_handleCalc. fold h w.
    rewrite BmiFacts.reject_test, Hh, Hw. cbn [negb andb].
    change (API_BASE +:+ "/calc/bmi") with "http://localhost:4000/api/calc/bmi".
    change (obj [("heightCm", json_number h); ("weightKg", json_number w)])
      with (bmi_request h w).
    rewrite Hfetch. reflexivity.
Qed.

(** X27. The QR form and the QR route agree. A text of white space only
    is stopped by the form, which shows ["URL is required."] and sends
    nothing. Any other text is sent as it is, white space included, as
    the [url] of the body; the route never answers that body with 400: it
    answers 200 with the data URL of the encoder for this very text, or
    500 with the message of the encoder; and the form shows the answer to
    that body, the object of a 200 as its result and the [error] of a 500
    as its error. *)
Theorem qr_form_agrees_with_route (qr_toDataURL : value -> qr_options -> string + string)
  (url : string) :
  (Num.trim url = EmptyString -> generate url = mkUi VNull (VStr "URL is required."))
  /\ (Num.trim url <> EmptyString ->
      (exists (status : Z) (answer : value),
         responses (qr_log qr_toDataURL (obj [("url", VStr url)])) = [(status, answer)]
         /\ match qr_toDataURL (VStr url) (mkQrOptions "M" 2 300) with
            | inl dataUrl =>
                status = 200%Z
                /\ Js.get answer "dataUrl" = VStr dataUrl
                /\ Js.get answer "originalUrl" = VStr url
            | inr message =>
                status = 500%Z
                /\ Js.get answer "error" = VStr "QR code generation failed"
                /\ Js.get answer "details" = VStr message
            end)
      /\ (forall data : value,
            fetch "http://localhost:4000/api/url/qr" (obj [("url", VStr url)])
            = FetchResponse 200 (inl data) ->
            generate url = mkUi data (VStr EmptyString))
      /\ (forall (props : gmap string value) (shown : string),
            fetch "http://localhost:4000/api/url/qr" (obj [("url", VStr url)])
            = FetchResponse 500 (inl (VObj props)) ->
            props !! "error" = Some (VStr shown) ->
            shown <> EmptyString ->
            generate url = mkUi VNull (VStr shown))).
Proof.
  split.
  - intros H. subst generate. unfold QrTool_handleGenerate. now rewrite H.
  - intros H.
    assert (Hne : url <> EmptyString) by (intros ->; apply H; reflexivity).
    assert (Hform : forall o : fetch_outcome,
               fetch "http://localhost:4000/api/url/qr" (obj [("url", VStr url)]) = o ->
               generate url
               = match o with
                 | FetchRejected message =>
                     show_error "QR generation failed."
                       (JsOps.new_Error number_to_string (VStr message))
                 | FetchResponse status (inr message) =>
                     show_error "QR generation failed."
                       (JsOps.new_Error number_to_string (VStr message))
                 | FetchResponse status (inl data) =>
                     if negb (JsOps.ok_status status) then
                       match read number_to_string null_read_message data "error" with
                       | inl e =>
                           show_error "QR generation failed."
                             (JsOps.new_Error number_to_string
                                (JsOps.or_else e (VStr "QR generation failed")))
                       | inr thrown => show_error "QR generation failed." thrown
                       end
                     else mkUi data (VStr EmptyString)
                 end).
    { intros o Ho. subst generate. unfold QrTool_handleGenerate.
      destruct (Num.trim url) eqn:Et; [congruence|]. cbn [Num.is_empty].
      change (API_BASE +:+ "/url/qr") with "http://localhost:4000/api/url/qr".
      rewrite Ho. reflexivity. }
    split; [|split].
    + pose proof (QrFacts.qr_accepted_responses qr_toDataURL (obj [("url", VStr url)]) url
                    eq_refl Hne) as R.
      destruct (qr_toDataURL (VStr url) (mkQrOptions "M" 2 300)) as [dataUrl|message];
        eexists _, _; (split; [exact R|]); repeat split; reflexivity.
    + intros data Hfetch. rewrite (Hform _ Hfetch). reflexivity.
    + intros props shown Hfetch Hprop Hshown. rewrite (Hform _ Hfetch).
      cbn [JsOps.ok_status negb read Js.get]. rewrite Hprop. cbn [default from_option id].
      destruct shown as [|c shown]; [congruence|]. reflexivity.
Qed.

End Forms.

(** A text file sent for conversion and turned down by the route. *)
Lemma document_form_hides_server_error_witness :
  DocxPdfTool_handleSubmit Fixture.print_number Fixture.null_read_message
    Fixture.xhr_rejected (Some Fixture.chosen_file) "docx-to-pdf"
  = mkUi VNull (VStr "Conversion failed.").
Proof.
  exact (document_form_hides_server_error Fixture.print_number Fixture.null_read_message
           Fixture.xhr_rejected Fixture.chosen_file "docx-to-pdf" 400
           "Only .docx files are allowed" EmptyString eq_refl (or_introl eq_refl)).
Defined.

(** A converted document becomes the result. *)
Lemma document_form_shows_answer_witness :
  DocxPdfTool_handleSubmit Fixture.print_number Fixture.null_read_message
    Fixture.xhr_converted (Some Fixture.chosen_file) "docx-to-pdf"
  = mkUi (fileToDataUrlResponse [x25; x50; x44; x46] "application/pdf" "notes.pdf" ∅)
      (VStr EmptyString).
Proof.
  exact (document_form_shows_answer Fixture.print_number Fixture.null_read_message
           Fixture.xhr_converted Fixture.chosen_file "docx-to-pdf" 200 _
           eq_refl eq_refl eq_refl).
Defined.

(** The inputs 180 and 75 go through the form, the route and back; an
    empty height does not leave the form. *)
Lemma bmi_form_agrees_with_route_witness :
  BMITool_handleCalc Fixture.print_number Fixture.null_read_message Fixture.fetch_bmi
    "" "75"
  = mkUi VNull (VStr "Height and weight must be positive numbers.")
  /\ exists answer : value,
       responses
         (bmi_log (bmi_request (Num.StringToNumber "180") (Num.StringToNumber "75")))
       = [(200%Z, answer)]
       /\ Js.get answer "bmi"
          = VNum (Num.toFixed2
                    (bmi_of (Num.StringToNumber "180") (Num.StringToNumber "75")))
       /\ BMITool_handleCalc Fixture.print_number Fixture.null_read_message
            Fixture.fetch_bmi "180" "75"
          = mkUi answer (VStr EmptyString).
Proof.
  split.
  - exact (proj1 (bmi_form_agrees_with_route Fixture.print_number
                    Fixture.null_read_message Fixture.fetch_bmi "" "75")
             eq_refl).
  - destruct (proj2 (bmi_form_agrees_with_route Fixture.print_number
                       Fixture.null_read_message Fixture.fetch_bmi "180" "75")
                _ _ _ _ eq_refl eq_refl)
      as (answer & R & B & F).
    exists answer. split; [exact R|]. split; [exact B|].
    apply F. unfold Fixture.fetch_bmi. rewrite R. reflexivity.
Defined.

(** The height "Infinity" passes the form and is turned down by the route. *)
Lemma bmi_form_infinity_witness :
  responses
    (bmi_log (bmi_request (Num.StringToNumber "Infinity") (Num.StringToNumber "70")))
  = [(400%Z, error_body "heightCm and weightKg must be positive numbers")]
  /\ BMITool_handleCalc Fixture.print_number Fixture.null_read_message Fixture.fetch_bmi
       "Infinity" "70"
     = mkUi VNull (VStr "heightCm and weightKg must be positive numbers").
Proof.
  destruct (bmi_form_infinity Fixture.print_number Fixture.null_read_message
              Fixture.fetch_bmi "Infinity" "70" eq_refl eq_refl (or_introl eq_refl))
    as (R & F).
  split; [exact R|]. apply F. unfold Fixture.fetch_bmi. rewrite R. reflexivity.
Defined.

(** Blanks only, and an address between blanks, with an encoder that
    succeeds and one that fails. *)
Lemma qr_form_agrees_with_route_witness :
  QrTool_handleGenerate Fixture.print_number Fixture.null_read_message Fixture.fetch_qr
    "   "
  = mkUi VNull (VStr "URL is required.")
  /\ (exists answer : value,
        responses (qr_log Fixture.qr_ok (obj [("url", VStr " https://example.org/ ")]))
        = [(200%Z, answer)]
        /\ Js.get answer "dataUrl" = VStr "data:image/png;base64,iVBORw0KGgo="
        /\ Js.get answer "originalUrl" = VStr " https://example.org/ "
        /\ QrTool_handleGenerate Fixture.print_number Fixture.null_read_message
             Fixture.fetch_qr " https://example.org/ "
           = mkUi answer (VStr EmptyString))
  /\ QrTool_handleGenerate Fixture.print_number Fixture.null_read_message
       Fixture.fetch_qr_failing " https://example.org/ "
     = mkUi VNull (VStr "QR code generation failed").
Proof.
  split; [|split].
  - exact (proj1 (qr_form_agrees_with_route Fixture.print_number
                    Fixture.null_read_message Fixture.fetch_qr Fixture.qr_ok "   ")
             eq_refl).
  - destruct (proj2 (qr_form_agrees_with_route Fixture.print_number
                       Fixture.null_read_message Fixture.fetch_qr Fixture.qr_ok
                       " https://example.org/ ")
                ltac:(vm_compute; discriminate))
      as ((status & answer & R & Hstatus & Hdata & Horig) & Hshow & _).
    cbn in Hstatus. subst status.
    exists answer. split; [exact R|]. split; [exact Hdata|]. split; [exact Horig|].
    apply Hshow. unfold Fixture.fetch_qr. rewrite R. reflexivity.
  - destruct (proj2 (qr_form_agrees_with_route Fixture.print_number
                       Fixture.null_read_message Fixture.fetch_qr_failing Fixture.qr_bad
                       " https://example.org/ ")
                ltac:(vm_compute; discriminate))
      as (_ & _ & Hshow).
    exact (Hshow _ "QR code generation failed" eq_refl eq_refl ltac:(discriminate)).
Defined.

End ClientFacts.

(** ** The sign of the bmi *)

Module BmiSignFacts.
Import Server SpecFloat NumSign.

Lemma round_sign (m e : Z) (l : location) :
  sign_bit (binary_round_aux Num.prec Num.emax false m e l) = false.
Proof.
  unfold binary_round_aux.
  destruct (shr_fexp Num.prec Num.emax m e l) as [mrs e'].
  destruct (shr_fexp Num.prec Num.emax _ e' loc_Exact) as [mrs' e''].
  destruct (shr_m mrs') as [|p|p]; [reflexivity| |reflexivity].
  destruct (Z.leb e'' (Num.emax - Num.prec)); reflexivity.
Qed.

Lemma div_sign (x y : Num.number) :
  sign_bit x = false -> sign_bit y = false -> sign_bit (Num.div x y) = false.
Proof.
  destruct x as [sx|sx| |sx mx ex], y as [sy|sy| |sy my ey]; cbn [sign_bit];
    intros Hx Hy; subst; try reflexivity.
  unfold Num.div, SFdiv.
  destruct (SFdiv_core_binary Num.prec Num.emax (Z.pos mx) ex (Z.pos my) ey)
    as [[mz ez] lz].
  apply round_sign.
Qed.

Lemma mul_self_sign (x : Num.number) : sign_bit (Num.mul x x) = false.
Proof.
  destruct x as [[]|[]| |[] m e]; try reflexivity; apply round_sign.
Qed.

Lemma of_decimal_sign (m e : Z) : sign_bit (Num.of_decimal false m e) = false.
Proof.
  unfold Num.of_decimal. destruct m as [|p|p]; try reflexivity.
  destruct (400 <? Z.log2 (Z.pos p) / 4 + e)%Z; [reflexivity|].
  destruct ((Z.log2 (Z.pos p) + 1) / 3 + 2 + e <? -400)%Z; [reflexivity|].
  destruct e as [|q|q].
  - unfold binary_normalize. destruct (Z.pos p * 10 ^ 0)%Z eqn:E; try reflexivity.
    + unfold binary_round. destruct (shl_align _ _ _). apply round_sign.
    + rewrite Z.pow_0_r in E. lia.
  - unfold binary_normalize.
    destruct (Z.pos p * 10 ^ Z.pos q)%Z eqn:E; try reflexivity.
    + unfold binary_round. destruct (shl_align _ _ _). apply round_sign.
    + assert (0 < 10 ^ Z.pos q)%Z by (apply Z.pow_pos_nonneg; lia). lia.
  - apply (div_sign (S754_finite false p 0) (S754_finite false _ 0)); reflexivity.
Qed.

Lemma toFixed2_sign (x : Num.number) : sign_bit x = false -> sign_bit (Num.toFixed2 x) = false.
Proof.
  destruct x as [s|s| |s m e]; cbn [sign_bit Num.toFixed2]; intros H; subst;
    try reflexivity.
  destruct (Num.at_least_1e21 m e); [reflexivity | apply of_decimal_sign].
Qed.

Lemma positive_sign (x : Num.number) : Num.ltb Num.pos_zero x = true -> sign_bit x = false.
Proof. destruct x as [[]|[]| |[] m e]; cbn; congruence. Qed.

Lemma sign_not_below_zero (x : Num.number) :
  sign_bit x = false -> Num.ltb x Num.pos_zero = false.
Proof. destruct x as [[]|[]| |[] m e]; cbn; congruence. Qed.

(** X28. The bmi of an answer is never below zero and never a negative
    zero: for inputs above zero the number reported has no sign bit, be
    it zero, a positive number, infinity or [NaN]. *)
Theorem bmi_never_negative (body : value) (h w : Num.number) :
  Js.ToNumber (Js.get body "heightCm") = inl h ->
  Js.ToNumber (Js.get body "weightKg") = inl w ->
  Num.ltb Num.pos_zero h = true ->
  Num.ltb Num.pos_zero w = true ->
  exists (answer : value) (reported : Num.number),
    responses (bmi_log body) = [(200%Z, answer)]
    /\ Js.get answer "bmi" = VNum reported
    /\ sign_bit reported = false
    /\ Num.ltb reported Num.pos_zero = false.
Proof.
  intros Eh Ew Hh Hw.
  pose proof (BmiFacts.calc_bmi_responses body h w Eh Ew) as R.
  rewrite Hh, Hw in R. cbn [andb] in R.
  eexists _, _. split; [exact R|]. split; [reflexivity|].
  assert (S : sign_bit (Num.toFixed2 (bmi_of h w)) = false).
  { apply toFixed2_sign. unfold bmi_of.
    apply div_sign; [now apply positive_sign | apply mul_self_sign]. }
  split; [exact S | now apply sign_not_below_zero].
Qed.

(** The inputs "180" and "75". *)
Lemma bmi_never_negative_witness :
  exists (answer : value) (reported : Num.number),
    responses (bmi_log (obj [("heightCm", VStr "180"); ("weightKg", VStr "75")]))
    = [(200%Z, answer)]
    /\ Js.get answer "bmi" = VNum reported
    /\ sign_bit reported = false
    /\ Num.ltb reported Num.pos_zero = false.
Proof.
  exact (bmi_never_negative (obj [("heightCm", VStr "180"); ("weightKg", VStr "75")])
           _ _ eq_refl eq_refl eq_refl eq_refl).
Defined.

End BmiSignFacts.
